(** * Browser acquisition and tab-session policies

    A shallow embedding of
    [packages/agent-infra/browser/src/tab-session-manager.ts] and
    [packages/agent-infra/browser/src/smart-browser-manager.ts].

    The two managers are TypeScript classes whose methods are [async]
    functions over an unreliable outside world (a browser reached through a
    debugging protocol).  Every call that leaves the class - a page or
    browser method, a configured callback, [fetch] - is a [Call]; a method is
    a program in a state-and-exception monad over those calls, and [exec]
    runs a program against an arbitrary environment, recording the calls it
    makes.  Logger calls are left out: the logger is a collaborator that
    takes no part in any decision; what the arguments of a log line read
    of a caught value is kept. *)

From Stdlib Require Import String Ascii List Bool ZArith NArith Lia.
From Stdlib Require Import DecimalString.
Import ListNotations.
Local Open Scope string_scope.

(* ================================================================== *)
(** ** JavaScript values the managers compute with *)

Module Js.

(** What a call may throw, or a promise reject with: any value.  The
    casts [(e as Error)] of the code are erased when it runs, so a caught
    value is taken as plain data: a primitive, an array, or an object
    known by the properties that can be read from it. *)
#[warnings="-register-all"]
Inductive Value : Type :=
| VUndefined
| VNull
| VBool (b : bool)
| VNumber (z : Z)
| VString (s : string)
| VArray (items : list Value)
| VObject (props : list (string * Value)).

(** An [Error] with the given message - [new Error(message)], a
    [TypeError], a protocol error - as far as the code reads it. *)
Definition mkError (message : string) : Value :=
  VObject [("message", VString message)].

(** The value of a completed [await] or call: it returned, or it threw. *)
Inductive Result (A : Type) : Type :=
| Ok (a : A)
| Throw (e : Value).
Arguments Ok {A} a.
Arguments Throw {A} e.

(** ASCII case folding, the only folding a non-unicode [/i] regular
    expression performs between ASCII pattern characters and the input. *)
Definition lowerAscii (c : ascii) : ascii :=
  let n := nat_of_ascii c in
  if (65 <=? n)%nat && (n <=? 90)%nat then ascii_of_nat (n + 32) else c.

Fixpoint toLowerCase (s : string) : string :=
  match s with
  | EmptyString => EmptyString
  | String c r => String (lowerAscii c) (toLowerCase r)
  end.

(** [s.startsWith(p)] *)
Definition startsWith (s p : string) : bool := String.prefix p s.

(** [/^lit/i.test(s)] for a literal [lit] written in lower case. *)
Definition testPrefixI (lit s : string) : bool :=
  startsWith (toLowerCase s) lit.

(** [s.includes(sub)] *)
Fixpoint includes (s sub : string) : bool :=
  startsWith s sub ||
  match s with
  | EmptyString => false
  | String _ r => includes r sub
  end.

(** [v.key], for a [key] that no built-in prototype defines: a
    [TypeError] on [undefined] and [null], the property of an object when
    it has one, and [undefined] otherwise. *)
Definition getMember (v : Value) (key : string) : Result Value :=
  match v with
  | VUndefined =>
      Throw (mkError
               ("Cannot read properties of undefined (reading '" ++ key ++ "')"))
  | VNull =>
      Throw (mkError
               ("Cannot read properties of null (reading '" ++ key ++ "')"))
  | VObject props =>
      Ok match find (fun kv => String.eqb (fst kv) key) props with
         | Some kv => snd kv
         | None => VUndefined
         end
  | _ => Ok VUndefined
  end.

(** [v.includes(s)] for a string [s]: the method of strings (a substring
    test) and of arrays (an element test); a [TypeError] on [undefined]
    and [null], and on every other value, which has no such method. *)
Definition callIncludes (v : Value) (s : string) : Result bool :=
  match v with
  | VString t => Ok (includes t s)
  | VArray items =>
      Ok (existsb (fun x => match x with
                            | VString t => String.eqb t s
                            | _ => false
                            end) items)
  | VUndefined =>
      Throw (mkError "Cannot read properties of undefined (reading 'includes')")
  | VNull =>
      Throw (mkError "Cannot read properties of null (reading 'includes')")
  | _ => Throw (mkError "errorMessage.includes is not a function")
  end.

(** JavaScript truthiness of a [string | null | undefined]. *)
Definition truthy (s : option string) : bool :=
  match s with
  | None => false
  | Some EmptyString => false
  | Some _ => true
  end.

(** The three properties of a [URL] object the code reads. *)
Record URL : Type := mkURL {
  origin : string;
  hostname : string;
  pathname : string
}.

(** [new URL(s)] is a platform function: the managers are parameterised by
    it.  [None] stands for the [TypeError] it throws on an invalid URL. *)
Definition URLParser : Type := string -> option URL.

End Js.
Import Js.

(* ------------------------------------------------------------------ *)
(** *** A reference URL parser for the closed examples

    [URL_parse] follows the WHATWG URL parser on plain absolute URLs
    [scheme:[//][user@]host[:port][/path][?query][#fragment]] written in
    printable ASCII, with a registered-name host and without dot segments
    or characters that the parser would percent-encode.  An input with no
    scheme is rejected, as the platform parser rejects it when no base URL
    is given.  Only the closed examples use it; every general theorem
    quantifies over the parser. *)

Module UrlModel.

Definition isAlpha (c : ascii) : bool :=
  let n := nat_of_ascii (lowerAscii c) in (97 <=? n)%nat && (n <=? 122)%nat.
Definition isDigit (c : ascii) : bool :=
  let n := nat_of_ascii c in (48 <=? n)%nat && (n <=? 57)%nat.
Definition isSchemeChar (c : ascii) : bool :=
  isAlpha c || isDigit c || Ascii.eqb c "+" || Ascii.eqb c "-" || Ascii.eqb c ".".

(** Splits [s] at the first character satisfying [stop]:
    the part before it, and the rest starting with it. *)
Fixpoint splitAt (stop : ascii -> bool) (s : string) : string * string :=
  match s with
  | EmptyString => (EmptyString, EmptyString)
  | String c r =>
      if stop c then (EmptyString, s)
      else let '(a, b) := splitAt stop r in (String c a, b)
  end.

Fixpoint allChars (p : ascii -> bool) (s : string) : bool :=
  match s with
  | EmptyString => true
  | String c r => p c && allChars p r
  end.

(** The scheme and what follows its colon, when [s] starts with
    [ALPHA *(ALPHA / DIGIT / "+" / "-" / ".") ":"]. *)
Definition splitScheme (s : string) : option (string * string) :=
  match s with
  | String c _ =>
      if isAlpha c then
        match splitAt (fun x => Ascii.eqb x ":") s with
        | (sch, String _ rest) =>
            if allChars isSchemeChar sch then Some (toLowerCase sch, rest) else None
        | _ => None
        end
      else None
  | EmptyString => None
  end.

Definition isSlash (c : ascii) : bool := Ascii.eqb c "/" || Ascii.eqb c "\".

Fixpoint dropSlashes (s : string) : string :=
  match s with
  | String c r => if isSlash c then dropSlashes r else s
  | EmptyString => EmptyString
  end.

Definition defaultPort (scheme : string) : option string :=
  if String.eqb scheme "http" then Some "80"
  else if String.eqb scheme "https" then Some "443"
  else if String.eqb scheme "ws" then Some "80"
  else if String.eqb scheme "wss" then Some "443"
  else if String.eqb scheme "ftp" then Some "21"
  else None.

(** Removes the credentials: what follows the last ["@"]. *)
Fixpoint afterLastAt (s : string) : string :=
  match s with
  | EmptyString => EmptyString
  | String c r =>
      if Ascii.eqb c "@" then
        (if includes r "@" then afterLastAt r else r)
      else if includes r "@" then afterLastAt r else s
  end.

Definition isHostChar (c : ascii) : bool :=
  isAlpha c || isDigit c || Ascii.eqb c "-" || Ascii.eqb c "." || Ascii.eqb c "_".

Definition endsAuthority (c : ascii) : bool :=
  isSlash c || Ascii.eqb c "?" || Ascii.eqb c "#".
Definition endsPath (c : ascii) : bool :=
  Ascii.eqb c "?" || Ascii.eqb c "#".

(** Host and port of an authority; [None] when the host is not a plain
    registered name or the port is not a number. *)
Definition splitHostPort (auth : string) : option (string * string) :=
  let '(h, p) := splitAt (fun x => Ascii.eqb x ":") (afterLastAt auth) in
  let port := match p with String _ d => d | EmptyString => EmptyString end in
  if allChars isHostChar h && allChars isDigit port
  then Some (toLowerCase h, port) else None.

Definition URL_parse : URLParser := fun s =>
  match splitScheme s with
  | None => None
  | Some (scheme, rest) =>
      match defaultPort scheme with
      | Some dflt =>
          (* special scheme: any run of slashes, then a non-empty host *)
          let '(auth, tail) := splitAt endsAuthority (dropSlashes rest) in
          match splitHostPort auth with
          | Some (String c h, port) =>
              let host := String c h in
              let shown :=
                if String.eqb port "" || String.eqb port dflt then host
                else host ++ ":" ++ port in
              let '(path, _) := splitAt endsPath tail in
              Some {| origin := scheme ++ "://" ++ shown;
                      hostname := host;
                      pathname := if String.eqb path "" then "/" else path |}
          | _ => None
          end
      | None =>
          if startsWith rest "//" then
            let '(auth, tail) :=
              splitAt (fun c => Ascii.eqb c "/" || endsPath c)
                      (substring 2 (String.length rest) rest) in
            match splitHostPort auth with
            | Some (host, _) =>
                let '(path, _) := splitAt endsPath tail in
                Some {| origin := "null"; hostname := host; pathname := path |}
            | None => None
            end
          else
            let '(path, _) := splitAt endsPath rest in
            Some {| origin := "null"; hostname := ""; pathname := path |}
      end
  end.

End UrlModel.

(* ================================================================== *)
(** ** The outside world: handles, calls and programs *)

Module Env.

(** Opaque capabilities, known by their identity only. *)
Record Page : Type := mkPage { page_id : nat }.
Record Browser : Type := mkBrowser { browser_id : nat }.

(** Second argument of [page.goto]. *)
Record GotoOptions : Type := mkGoto {
  waitUntil : string;
  timeout : option Z
}.

(** [LaunchOptions] of [./types]: the two fields the manager writes, and
    the others, which it only forwards. *)
Record LaunchOptions : Type := mkLaunch {
  args : option (list string);
  launch_userDataDir : option string;
  launch_others : list (string * string)
}.

(** A [fetch] response, as far as it is read: its status. *)
Record Response : Type := mkResponse { response_id : nat; status : Z }.

(** [response.ok]: the status is in the range 200-299. *)
Definition ok (r : Response) : bool :=
  (200 <=? status r)%Z && (status r <=? 299)%Z.

(** Values [response.json()] resolves to. *)
#[warnings="-register-all"]
Inductive Json : Type :=
| JNull
| JBool (b : bool)
| JNumber (z : Z)
| JString (s : string)
| JArray (l : list Json)
| JObject (fields : list (string * Json)).

(** [data.key] is a [TypeError] on [null]; on any other parsed value it
    is the field, or [undefined] ([None]). *)
Definition getProperty (data : Json) (key : string) : Result (option Json) :=
  match data with
  | JNull =>
      Throw (mkError ("Cannot read properties of null (reading '" ++ key ++ "')"))
  | JObject fields =>
      Ok (option_map snd (find (fun kv => String.eqb (fst kv) key) fields))
  | _ => Ok None
  end.

(** Every call that leaves the two classes. *)
Inductive Call : Type :=
| CreatePage (b : Browser)                     (* browser.createPage() *)
| GetActivePage (b : Browser)                  (* browser.getActivePage() *)
| BrowserClose (b : Browser)                   (* browser.close() *)
| Goto (p : Page) (url : string) (o : GotoOptions)   (* page.goto(url, o) *)
| EvaluateReadyState (p : Page)    (* page.evaluate(() => document.readyState) *)
| PageUrl (p : Page)                           (* page.url() *)
| PageClose (p : Page)                         (* page.close() *)
| OnNewTabRequest (url : string)               (* options.onNewTabRequest(url) *)
| OnBrowserLaunch                              (* config.onBrowserLaunch() *)
| Fetch (endpoint : string) (abortAfterMs : Z) (* fetch(endpoint, {signal}) *)
| ResponseJson (r : Response)                  (* response.json() *)
| NewRemoteBrowser (cdpEndpoint : string)      (* new RemoteBrowser({cdpEndpoint}) *)
| NewLocalBrowser                              (* new LocalBrowser({}) *)
| Launch (b : Browser) (o : LaunchOptions).    (* browser.launch(o) *)

(** What a call resolves to when it does not throw.  [getActivePage] may
    resolve to no page ([null]). *)
Definition Resp (c : Call) : Type :=
  match c with
  | CreatePage _ => Page
  | GetActivePage _ => option Page
  | BrowserClose _ => unit
  | Goto _ _ _ => unit
  | EvaluateReadyState _ => unit
  | PageUrl _ => string
  | PageClose _ => unit
  | OnNewTabRequest _ => bool
  | OnBrowserLaunch => unit
  | Fetch _ _ => Response
  | ResponseJson _ => Json
  | NewRemoteBrowser _ => Browser
  | NewLocalBrowser => Browser
  | Launch _ _ => unit
  end.

(** A program: it returns, or makes a call and goes on with its outcome. *)
Inductive Prog (A : Type) : Type :=
| Ret (a : A)
| Vis (c : Call) (k : Result (Resp c) -> Prog A).
Arguments Ret {A} a.
Arguments Vis {A} c k.

Fixpoint pbind {A B : Type} (p : Prog A) (f : A -> Prog B) : Prog B :=
  match p with
  | Ret a => f a
  | Vis c k => Vis c (fun r => pbind (k r) f)
  end.

(** A method of a class with fields [S]: it reads and writes the fields,
    makes calls, and returns or throws.  Writes made before a throw stay. *)
Definition M (S A : Type) : Type := S -> Prog (Result A * S).

Definition ret {S A} (a : A) : M S A := fun s => Ret (Ok a, s).
Definition throw {S A} (e : Value) : M S A := fun s => Ret (Throw e, s).
Definition bind {S A B} (m : M S A) (f : A -> M S B) : M S B :=
  fun s => pbind (m s) (fun rs =>
    match fst rs with
    | Ok a => f a (snd rs)
    | Throw e => Ret (Throw e, snd rs)
    end).
Definition get {S} : M S S := fun s => Ret (Ok s, s).
Definition put {S} (s : S) : M S unit := fun _ => Ret (Ok tt, s).
Definition modify {S} (f : S -> S) : M S unit := fun s => Ret (Ok tt, f s).

(** [await c]: the call's value, or its exception rethrown. *)
Definition call {S} (c : Call) : M S (Resp c) :=
  fun s => Vis c (fun r => Ret (r, s)).

(** Lifts a value computed by the language itself (a property read). *)
Definition lift {S A} (r : Result A) : M S A := fun s => Ret (r, s).

(** [try { m } catch (e) { h e }] *)
Definition tryCatch {S A} (m : M S A) (h : Value -> M S A) : M S A :=
  fun s => pbind (m s) (fun rs =>
    match fst rs with
    | Ok a => Ret (Ok a, snd rs)
    | Throw e => h e (snd rs)
    end).

(** [try { m } finally { f }], for an [f] that neither returns nor throws
    on its own account: the outcome of [m] stands unless [f] throws. *)
Definition tryFinally {S A} (m : M S A) (f : M S unit) : M S A :=
  fun s => pbind (m s) (fun rs =>
    pbind (f (snd rs)) (fun fs =>
      match fst fs with
      | Ok _ => Ret (fst rs, snd fs)
      | Throw e => Ret (Throw e, snd fs)
      end)).

Declare Scope js_scope.
Delimit Scope js_scope with js.
Notation "x <- m ;; k" := (bind m (fun x => k))
  (at level 100, m at next level, right associativity) : js_scope.
Notation "m ;; k" := (bind m (fun _ => k))
  (at level 100, right associativity) : js_scope.

(** [if (c) { m }] *)
Definition when {S} (c : bool) (m : M S unit) : M S unit :=
  if c then m else ret tt.

(** *** Running a program against an environment *)

(** The outcome of a run: what the method returned or threw, the fields
    and the world afterwards, and the calls made, in order. *)
Record Run (W S A : Type) : Type := mkRun {
  result : Result A;
  state : S;
  world : W;
  trace : list Call
}.
Arguments mkRun {W S A}.
Arguments result {W S A}.
Arguments state {W S A}.
Arguments world {W S A}.
Arguments trace {W S A}.

(** An environment answers every call and moves to its next state. *)
Definition Environment (W : Type) : Type :=
  forall c : Call, W -> Result (Resp c) * W.

Fixpoint exec {W A} (env : Environment W) (p : Prog A) (w : W)
  : A * W * list Call :=
  match p with
  | Ret a => (a, w, [])
  | Vis c k =>
      let '(r, w1) := env c w in
      let '(a, w2, t) := exec env (k r) w1 in
      (a, w2, c :: t)
  end.

Definition run {W S A} (env : Environment W) (m : M S A) (s : S) (w : W)
  : Run W S A :=
  let '(rs, w', t) := exec env (m s) w in
  mkRun (fst rs) (snd rs) w' t.

End Env.
Import Env.

(* ================================================================== *)
(** ** tab-session-manager.ts *)

Module TabSessionManager.

Local Open Scope js_scope.

Inductive TabCreationStrategy : Type := always_reuse | smart | always_new.

Definition strategy_eqb (a b : TabCreationStrategy) : bool :=
  match a, b with
  | always_reuse, always_reuse | smart, smart | always_new, always_new => true
  | _, _ => false
  end.

(** [TabSessionManagerOptions], without the logger.  The confirmation
    callback is a call into the environment; the option records whether one
    was configured. *)
Record TabSessionManagerOptions : Type := mkOptions {
  opt_strategy : option TabCreationStrategy;
  opt_onNewTabRequest : bool
}.

(** [/^mailto:/i, /^tel:/i, /^javascript:/i], each as the literal it
    anchors at the start of the input. *)
Definition NEW_TAB_PATTERNS : list string := ["mailto:"; "tel:"; "javascript:"].

Definition WORKSPACE_DOMAINS : list string :=
  [ "mail.google.com"; "gmail.com"; "outlook.office.com"; "outlook.live.com";
    "calendar.google.com"; "drive.google.com"; "docs.google.com";
    "sheets.google.com"; "github.com"; "notion.so"; "slack.com";
    "trello.com"; "asana.com" ].

(** The fields of the class. *)
Record t : Type := mkManager {
  browser : Browser;
  strategy : TabCreationStrategy;
  onNewTabRequest : bool;
  sessionPage : option Page;
  lastNavigatedUrl : option string
}.

Definition set_sessionPage (p : option Page) (m : t) : t :=
  mkManager (browser m) (strategy m) (onNewTabRequest m) p (lastNavigatedUrl m).
Definition set_lastNavigatedUrl (u : option string) (m : t) : t :=
  mkManager (browser m) (strategy m) (onNewTabRequest m) (sessionPage m) u.

(** [constructor(browser, options = {})] *)
Definition new (b : Browser) (options : TabSessionManagerOptions) : t :=
  {| browser := b;
     strategy := match opt_strategy options with Some s => s | None => smart end;
     onNewTabRequest := opt_onNewTabRequest options;
     sessionPage := None;
     lastNavigatedUrl := None |}.

Definition noSessionPage : Value :=
  mkError "No session page available. Call getOrCreateSessionPage first.".

(** [normalizeUrl(url)] *)
Definition normalizeUrl (url : string) : string :=
  if negb (testPrefixI "http://" url || testPrefixI "https://" url)
  then "https://" ++ url
  else url.

(** [navigateTo(url)] *)
Definition navigateTo (url : string) : M t unit :=
  this <- get;;
  match sessionPage this with
  | None => throw noSessionPage
  | Some page =>
      let normalizedUrl := normalizeUrl url in
      call (Goto page normalizedUrl (mkGoto "networkidle2" (Some 30000%Z)));;
      modify (set_lastNavigatedUrl (Some normalizedUrl))
  end.

(** [getSessionPage()] *)
Definition getSessionPage : M t (option Page) :=
  this <- get;; ret (sessionPage this).

(** [isSessionPageValid()] *)
Definition isSessionPageValid : M t bool :=
  this <- get;;
  match sessionPage this with
  | None => ret false
  | Some page =>
      tryCatch
        (call (EvaluateReadyState page);; ret true)
        (fun _ => modify (set_sessionPage None);; ret false)
  end.

(** [findReusablePage()] *)
Definition findReusablePage : M t (option Page) :=
  tryCatch
    (this <- get;;
     if strategy_eqb (strategy this) always_new then ret None
     else
       activePage <- call (GetActivePage (browser this));;
       match activePage with
       | None => ret None
       | Some page =>
           responsive <- tryCatch
                           (call (EvaluateReadyState page);; ret true)
                           (fun _ => ret false);;
           if responsive
           then (call (PageUrl page);; ret (Some page))
           else ret None
       end)
    (fun _ => ret None).

(** [getCurrentUrl()] *)
Definition getCurrentUrl : M t (option string) :=
  valid <- isSessionPageValid;;
  if negb valid then ret None
  else
    tryCatch
      (this <- get;;
       match sessionPage this with
       | Some page => url <- call (PageUrl page);; ret (Some url)
       | None =>
           throw (mkError "Cannot read properties of null (reading 'url')")
       end)
      (fun _ => ret None).

(** [cleanup()] *)
Definition cleanup : M t unit :=
  this <- get;;
  match sessionPage this with
  | Some page =>
      tryCatch (call (PageClose page)) (fun _ => ret tt);;
      modify (set_sessionPage None);;
      modify (set_lastNavigatedUrl None)
  | None => ret tt
  end.

Section WithURL.

(** [new URL(_)], see [Js.URLParser]. *)
Variable newURL : URLParser.

(** [shouldCreateNewTab(currentUrl, targetUrl)] reads [this.strategy] only. *)
Definition shouldCreateNewTab (strat : TabCreationStrategy)
    (currentUrl : option string) (targetUrl : string) : bool :=
  match strat with
  | always_reuse => false
  | always_new => true
  | smart =>
      if existsb (fun pattern => testPrefixI pattern targetUrl) NEW_TAB_PATTERNS
      then true
      else if negb (truthy currentUrl) then false
      else
        match newURL (match currentUrl with Some c => c | None => "" end) with
        | None => false
        | Some current =>
            match newURL targetUrl with
            | None => false
            | Some target =>
                if String.eqb (hostname current) (hostname target) then false
                else
                  let isLeavingWorkspace :=
                    existsb (fun domain => includes (hostname current) domain)
                            WORKSPACE_DOMAINS in
                  let isGoingToWorkspace :=
                    existsb (fun domain => includes (hostname target) domain)
                            WORKSPACE_DOMAINS in
                  if isLeavingWorkspace && isGoingToWorkspace then true
                  else false
            end
        end
  end.

(** [shouldNavigateToUrl(targetUrl)] reads [this.lastNavigatedUrl] only. *)
Definition shouldNavigateToUrl (lastNavigated : option string)
    (targetUrl : string) : bool :=
  if negb (truthy lastNavigated) then true
  else
    match newURL (match lastNavigated with Some l => l | None => "" end) with
    | None => true
    | Some current =>
        match newURL targetUrl with
        | None => true
        | Some target =>
            negb (String.eqb (origin current) (origin target))
            || negb (String.eqb (pathname current) (pathname target))
        end
    end.

(** The session page as a method returns it ([this.sessionPage], with or
    without the compile-time [!]). *)
Definition returnSessionPage : M t (option Page) :=
  this <- get;; ret (sessionPage this).

(** [getOrCreateSessionPage(initialUrl?)] *)
Definition getOrCreateSessionPage (initialUrl : option string)
  : M t (option Page) :=
  let url := match initialUrl with Some u => u | None => "" end in
  valid <- isSessionPageValid;;
  if valid then
    this <- get;;
    when (truthy initialUrl && shouldNavigateToUrl (lastNavigatedUrl this) url)
         (navigateTo url);;
    returnSessionPage
  else
    reusablePage <- findReusablePage;;
    match reusablePage with
    | Some page =>
        modify (set_sessionPage (Some page));;
        when (truthy initialUrl) (navigateTo url);;
        returnSessionPage
    | None =>
        this <- get;;
        page <- call (CreatePage (browser this));;
        modify (set_sessionPage (Some page));;
        when (truthy initialUrl) (navigateTo url);;
        returnSessionPage
    end.

End WithURL.

(** [requestNewTab(url, reason?)]; [reason] is only logged. *)
Definition requestNewTab (url : string) : M t (option Page) :=
  this <- get;;
  approved <- (if onNewTabRequest this
               then call (OnNewTabRequest url)
               else ret true);;
  if negb approved then
    navigateTo url;;
    this' <- get;; ret (sessionPage this')
  else
    newPage <- call (CreatePage (browser this));;
    call (Goto newPage (normalizeUrl url) (mkGoto "networkidle2" None));;
    modify (set_sessionPage (Some newPage));;
    modify (set_lastNavigatedUrl (Some url));;
    ret (Some newPage).

End TabSessionManager.

(* ================================================================== *)
(** ** smart-browser-manager.ts *)

Module SmartBrowserManager.

Local Open Scope js_scope.

(** [SmartBrowserConfig], without the logger.  [onBrowserLaunch] is a call
    into the environment; the field records whether it was configured. *)
Record SmartBrowserConfig : Type := mkConfig {
  cfg_debugPort : option N;
  cfg_persistentMode : option bool;
  cfg_userDataDir : option string;
  cfg_launchOptions : option LaunchOptions;
  cfg_onBrowserLaunch : bool
}.

(** The empty object literal, the constructor's default argument. *)
Definition emptyConfig : SmartBrowserConfig := mkConfig None None None None false.

Inductive BrowserConnectionMode : Type := attached | launched | reused.

Record GetBrowserResult : Type := mkResult {
  result_browser : Browser;
  mode : BrowserConnectionMode;
  isNewInstance : bool
}.

(** The fields of an instance. *)
Record t : Type := mkManager {
  browser : option Browser;
  debugPort : N;
  persistentMode : bool;
  userDataDir : option string;
  launchOptions : LaunchOptions;
  onBrowserLaunch : bool;
  isConnectedToExternal : bool
}.

(** Assignment to the two mutable fields. *)
Definition set_browser (b : option Browser) (m : t) : t :=
  mkManager b (debugPort m) (persistentMode m) (userDataDir m)
            (launchOptions m) (onBrowserLaunch m) (isConnectedToExternal m).
Definition set_isConnectedToExternal (e : bool) (m : t) : t :=
  mkManager (browser m) (debugPort m) (persistentMode m) (userDataDir m)
            (launchOptions m) (onBrowserLaunch m) e.

(** [constructor(config = {})] *)
Definition new (config : SmartBrowserConfig) : t :=
  {| browser := None;
     debugPort := match cfg_debugPort config with Some p => p | None => 9222%N end;
     persistentMode :=
       match cfg_persistentMode config with Some b => b | None => true end;
     userDataDir := cfg_userDataDir config;
     launchOptions :=
       match cfg_launchOptions config with
       | Some o => o
       | None => mkLaunch None None []
       end;
     onBrowserLaunch := cfg_onBrowserLaunch config;
     isConnectedToExternal := false |}.

(** *** The static side of the class

    [SmartBrowserManager.instance] holds a reference or [null]; the objects
    constructed so far live in [objects], and a reference is an index into
    it, so that two references are the same object exactly when equal. *)
Record Class : Type := mkClass {
  instance : option nat;
  objects : list t
}.

(** [static getInstance(config?)] *)
Definition getInstance (config : option SmartBrowserConfig) (c : Class)
  : nat * Class :=
  match instance c with
  | Some r => (r, c)
  | None =>
      let r := length (objects c) in
      let o := new (match config with Some cfg => cfg | None => emptyConfig end) in
      (r, {| instance := Some r; objects := objects c ++ [o] |})
  end.

(** [static resetInstance()] *)
Definition resetInstance (c : Class) : Class :=
  {| instance := None; objects := objects c |}.

(** *** Instance methods *)

(** [`${n}`] for a port number. *)
Definition numberToString (n : N) : string :=
  NilZero.string_of_uint (N.to_uint n).

(** [`http://127.0.0.1:${this.debugPort}/json/version`] *)
Definition versionEndpoint (m : t) : string :=
  "http://127.0.0.1:" ++ numberToString (debugPort m) ++ "/json/version".

(** [isDebugPortActive()].  The [AbortController] armed with
    [setTimeout(..., 1000)] is the delay handed to [Fetch]; an abort is one
    of the ways the call throws.  The handler reads [error.message] for
    the log line before it returns. *)
Definition isDebugPortActive : M t bool :=
  this <- get;;
  tryCatch
    (response <- call (Fetch (versionEndpoint this) 1000%Z);;
     if ok response then
       data <- call (ResponseJson response);;
       lift (getProperty data "Browser");;
       lift (getProperty data "webSocketDebuggerUrl");;
       ret true
     else ret false)
    (fun error =>
       lift (getMember error "message");;
       ret false).

(** [connectToExisting()] *)
Definition connectToExisting : M t Browser :=
  this <- get;;
  b <- call (NewRemoteBrowser (versionEndpoint this));;
  call (Launch b (launchOptions this));;
  modify (set_browser (Some b));;
  modify (set_isConnectedToExternal true);;
  ret b.

(** [launchWithDebugPort()] *)
Definition launchWithDebugPort : M t Browser :=
  this <- get;;
  b <- call NewLocalBrowser;;
  let launchArgs :=
    ("--remote-debugging-port=" ++ numberToString (debugPort this))
      :: match args (launchOptions this) with Some a => a | None => [] end in
  call (Launch b {| args := Some launchArgs;
                    launch_userDataDir := userDataDir this;
                    launch_others := launch_others (launchOptions this) |});;
  modify (set_browser (Some b));;
  modify (set_isConnectedToExternal false);;
  ret b.

(** [isBrowserAlive(browser)].  A [null] active page makes
    [page.evaluate] a [TypeError].  The handler is not guarded: what
    [e.message] or [errorMessage.includes(...)] throws leaves the method. *)
Definition isBrowserAlive (b : Browser) : M t bool :=
  tryCatch
    (page <- call (GetActivePage b);;
     match page with
     | Some p => call (EvaluateReadyState p);; ret true
     | None =>
         throw (mkError "Cannot read properties of null (reading 'evaluate')")
     end)
    (fun e =>
       errorMessage <- lift (getMember e "message");;
       found <- lift (callIncludes errorMessage "No pages available");;
       if found then ret true
       else ret false).

(** Step 1 of [getOrCreateBrowser], once the held connection is ruled out:
    [connectToExisting()] and the result tagged ['attached']. *)
Definition attachExternal : M t GetBrowserResult :=
  b <- connectToExisting;;
  ret (mkResult b attached true).

(** Step 3 of [getOrCreateBrowser]: the optional notification, then
    [launchWithDebugPort()] and the result tagged ['launched']. *)
Definition launchNew : M t GetBrowserResult :=
  this <- get;;
  when (onBrowserLaunch this) (call OnBrowserLaunch);;
  b <- launchWithDebugPort;;
  ret (mkResult b launched true).

(** [getOrCreateBrowser()].  Each [return] of the source ends a branch
    here; the code after an [if] that did not return is the branch's
    continuation ([attachExternal], [launchNew]). *)
Definition getOrCreateBrowser : M t GetBrowserResult :=
  active <- isDebugPortActive;;
  this <- get;;
  if active then
    match browser this with
    | Some held =>
        if isConnectedToExternal this then
          isAlive <- isBrowserAlive held;;
          if isAlive then ret (mkResult held reused false)
          else attachExternal
        else attachExternal
    | None => attachExternal
    end
  else
    match browser this with
    | Some held =>
        if negb (isConnectedToExternal this) then
          isAlive <- isBrowserAlive held;;
          if isAlive then ret (mkResult held reused false)
          else (modify (set_browser None);; launchNew)
        else launchNew
    | None => launchNew
    end.

(** [getBrowser()], [isExternalBrowser()], [getDebugPort()] *)
Definition getBrowser : M t (option Browser) := this <- get;; ret (browser this).
Definition isExternalBrowser : M t bool :=
  this <- get;; ret (isConnectedToExternal this).
Definition getDebugPort : M t N := this <- get;; ret (debugPort this).

(** [this.browser = null; this.isConnectedToExternal = false;] *)
Definition clearLocalState : M t unit :=
  modify (set_browser None);;
  modify (set_isConnectedToExternal false).

(** [closeBrowser(force = false)] *)
Definition closeBrowser (force : bool) : M t unit :=
  this <- get;;
  match browser this with
  | None => ret tt
  | Some b =>
      if isConnectedToExternal this && negb force then
        clearLocalState
      else if persistentMode this && negb force then
        ret tt
      else
        tryFinally
          (tryCatch (call (BrowserClose b)) (fun _ => ret tt))
          clearLocalState
  end.

(** [disconnect()] *)
Definition disconnect : M t unit := clearLocalState.

End SmartBrowserManager.

(* ================================================================== *)
(** ** A scripted browser for the closed examples

    A small stand-in for the outside world, in the manner of a test double:
    open pages (the active one first), a debug endpoint that answers or
    not, a confirmation callback with a fixed answer.  The theorems do not
    depend on it; they hold for every [Environment]. *)

Module Mock.

Record World : Type := mkWorld {
  pages : list Page;                      (* open tabs, the active one first *)
  nextId : nat;                           (* next fresh identity *)
  endpoint : option (Z * option Json);    (* status and JSON body served *)
  approve : bool;                         (* answer of onNewTabRequest *)
  closeFails : bool                       (* whether close() rejects *)
}.

Definition isOpen (p : Page) (w : World) : bool :=
  existsb (fun q => Nat.eqb (page_id q) (page_id p)) (pages w).

Definition with_pages (ps : list Page) (w : World) : World :=
  mkWorld ps (nextId w) (endpoint w) (approve w) (closeFails w).
Definition fresh (w : World) : World :=
  mkWorld (pages w) (S (nextId w)) (endpoint w) (approve w) (closeFails w).

Definition targetClosed : Value := mkError "Target closed".

Definition env : Environment World := fun c =>
  match c as c0 return World -> Result (Resp c0) * World with
  | CreatePage _ => fun w =>
      let p := mkPage (nextId w) in
      (Ok p, fresh (with_pages (p :: pages w) w))
  | GetActivePage _ => fun w =>
      match pages w with
      | [] => (Throw (mkError "No pages available"), w)
      | p :: _ => (Ok (Some p), w)
      end
  | BrowserClose _ => fun w =>
      if closeFails w then (Throw targetClosed, w)
      else (Ok tt, with_pages [] w)
  | Goto p _ _ => fun w =>
      if isOpen p w then (Ok tt, w) else (Throw targetClosed, w)
  | EvaluateReadyState p => fun w =>
      if isOpen p w then (Ok tt, w) else (Throw targetClosed, w)
  | PageUrl p => fun w =>
      if isOpen p w then (Ok "about:blank", w) else (Throw targetClosed, w)
  | PageClose p => fun w =>
      if closeFails w then (Throw targetClosed, w)
      else (Ok tt,
            with_pages
              (filter (fun q => negb (Nat.eqb (page_id q) (page_id p))) (pages w))
              w)
  | OnNewTabRequest _ => fun w => (Ok (approve w), w)
  | OnBrowserLaunch => fun w => (Ok tt, w)
  | Fetch _ _ => fun w =>
      match endpoint w with
      | Some (st, _) => (Ok (mkResponse (nextId w) st), fresh w)
      | None => (Throw (mkError "fetch failed"), w)
      end
  | ResponseJson _ => fun w =>
      match endpoint w with
      | Some (_, Some body) => (Ok body, w)
      | _ => (Throw (mkError "Unexpected end of JSON input"), w)
      end
  | NewRemoteBrowser _ => fun w => (Ok (mkBrowser (nextId w)), fresh w)
  | NewLocalBrowser => fun w => (Ok (mkBrowser (nextId w)), fresh w)
  | Launch _ _ => fun w => (Ok tt, w)
  end.

(** A browser with no tab open and nothing listening on the debug port. *)
Definition empty : World := mkWorld [] 0 None true false.

(** A debug endpoint answering [st] with [body]. *)
Definition serving (st : Z) (body : option Json) (w : World) : World :=
  mkWorld (pages w) (nextId w) (Some (st, body)) (approve w) (closeFails w).

(** Every tab was closed from outside. *)
Definition tabsClosed (w : World) : World := with_pages [] w.

End Mock.


(* ================================================================== *)
(** ** The specification's reading of two decisions

    Definitions written from the specification's sentences, to be compared
    with the functions of the code. *)

Module Claimed.

Import TabSessionManager.

(** "current and target hosts both match distinct entries of a configured
    workspace-domain list", with the code's own notion of a host matching
    an entry. *)
Definition matchDistinctEntries (current target : string) : bool :=
  existsb (fun d1 =>
    existsb (fun d2 =>
      negb (String.eqb d1 d2) && includes current d1 && includes target d2)
      WORKSPACE_DOMAINS)
    WORKSPACE_DOMAINS.

(** The policy of [shouldCreateNewTab] as the specification lists it. *)
Definition shouldCreateNewTab (newURL : URLParser)
    (strat : TabCreationStrategy) (currentUrl : option string)
    (targetUrl : string) : bool :=
  match strat with
  | always_reuse => false
  | always_new => true
  | smart =>
      if existsb (fun pattern => testPrefixI pattern targetUrl) NEW_TAB_PATTERNS
      then true
      else
        match currentUrl with
        | None => false
        | Some c =>
            match newURL c, newURL targetUrl with
            | Some current, Some target =>
                if String.eqb (hostname current) (hostname target) then false
                else matchDistinctEntries (hostname current) (hostname target)
            | _, _ => false
            end
        end
  end.

(** "a scheme is given": the input starts with a scheme name and a colon
    (RFC 3986, section 3.1). *)
Definition schemeGiven (url : string) : bool :=
  match UrlModel.splitScheme url with
  | Some _ => true
  | None => false
  end.

(** "prefixes https:// if no scheme given". *)
Definition normalizeUrl (url : string) : string :=
  if schemeGiven url then url else "https://" ++ url.

End Claimed.

(** A string contains another when it is that one between two others. *)
Definition Contains (s sub : string) : Prop :=
  exists pre post, s = pre ++ sub ++ post.

(** A host is a workspace host when it contains an entry of the list. *)
Definition IsWorkspaceHost (host : string) : Prop :=
  exists domain,
    In domain TabSessionManager.WORKSPACE_DOMAINS /\ Contains host domain.

(** The target starts, case-insensitively, with one of the isolated
    schemes. *)
Definition IsolatedScheme (targetUrl : string) : Prop :=
  exists lit rest,
    In lit TabSessionManager.NEW_TAB_PATTERNS /\
    toLowerCase targetUrl = lit ++ rest.

(** The URL starts, case-insensitively, with [http://] or [https://]. *)
Definition HasHttpPrefix (url : string) : Prop :=
  exists rest,
    toLowerCase url = "http://" ++ rest \/ toLowerCase url = "https://" ++ rest.

(** [null] and [undefined], the two values no property can be read from. *)
Definition Nullish (v : Value) : Prop := v = VUndefined \/ v = VNull.



(** [e.message.includes(s)] *)
Definition messageIncludes (e : Value) (s : string) : Result bool :=
  match getMember e "message" with
  | Ok msg => callIncludes msg s
  | Throw err => Throw err
  end.

(** The probe behind the liveness check: ask for the active page and
    evaluate a trivial script in it.  Asking a page that is [null] to
    evaluate is a [TypeError]. *)
Definition livenessProbe {W : Type} (env : Environment W) (b : Browser) (w : W)
  : Result unit * W :=
  match env (GetActivePage b) w with
  | (Throw e, w1) => (Throw e, w1)
  | (Ok None, w1) =>
      (Throw (mkError "Cannot read properties of null (reading 'evaluate')"), w1)
  | (Ok (Some page), w1) => env (EvaluateReadyState page) w1
  end.


(** A run that comes after the calls [prefix]. *)
Definition after {W S A : Type} (prefix : list Call) (r : Run W S A)
  : Run W S A :=
  mkRun (result r) (state r) (world r) (prefix ++ trace r)%list.

(* ================================================================== *)
(** ** Managers, worlds and runs the examples start from *)

(** The options [navigateTo] passes to [page.goto]. *)
Definition settle30s : GotoOptions := mkGoto "networkidle2" (Some 30000%Z).

(** A tab-session manager over browser 0 holding page 0, and a world in
    which that page is open. *)
Definition holdingPage0 : TabSessionManager.t :=
  TabSessionManager.set_sessionPage (Some (mkPage 0))
    (TabSessionManager.new (mkBrowser 0) (TabSessionManager.mkOptions None false)).
Definition page0Open : Mock.World :=
  Mock.fresh (Mock.with_pages [mkPage 0] Mock.empty).

(** The options [requestNewTab] passes to [page.goto]: no timeout. *)
Definition settle : GotoOptions := mkGoto "networkidle2" None.

(** A fresh tab-session manager over browser 0, with or without a
    confirmation callback. *)
Definition freshManager (confirm : bool) : TabSessionManager.t :=
  TabSessionManager.new (mkBrowser 0) (TabSessionManager.mkOptions None confirm).

(** The scripted browser with a confirmation callback that refuses. *)
Definition refusing : Mock.World := Mock.mkWorld [] 0 None false false.

(** [getOrCreateSessionPage("example.com")] on a fresh manager, over the
    scripted browser with no tab open. *)
Definition firstCall : Run Mock.World TabSessionManager.t (option Page) :=
  run Mock.env
      (TabSessionManager.getOrCreateSessionPage UrlModel.URL_parse
         (Some "example.com"))
      (freshManager false) Mock.empty.

(** A reachable state with a target and no page: the session page was
    sent to [https://example.com], every tab was then closed from outside,
    and [getCurrentUrl] noticed. *)
Definition afterTabsClosed : Run Mock.World TabSessionManager.t (option string) :=
  let first :=
    run Mock.env
      (TabSessionManager.getOrCreateSessionPage UrlModel.URL_parse
         (Some "https://example.com"))
      (freshManager false) Mock.empty in
  run Mock.env TabSessionManager.getCurrentUrl
      (state first) (Mock.tabsClosed (world first)).

Definition afterCleanup : Run Mock.World TabSessionManager.t unit :=
  run Mock.env TabSessionManager.cleanup
      (state afterTabsClosed) (world afterTabsClosed).

(** A browser-acquisition manager built from the empty configuration,
    and one that holds browser 0. *)
Definition defaultManager : SmartBrowserManager.t :=
  SmartBrowserManager.new SmartBrowserManager.emptyConfig.
Definition holding (b : Browser) (external : bool) (m : SmartBrowserManager.t)
  : SmartBrowserManager.t :=
  SmartBrowserManager.set_isConnectedToExternal external
    (SmartBrowserManager.set_browser (Some b) m).

(** The body served by a debug endpoint. *)
Definition versionBody : Json :=
  JObject [("Browser", JString "Chrome/140.0.0.0");
           ("webSocketDebuggerUrl",
            JString "ws://127.0.0.1:9222/devtools/browser/0")].

(** The fields once the local state is cleared. *)
Definition cleared (m : SmartBrowserManager.t) : SmartBrowserManager.t :=
  SmartBrowserManager.set_isConnectedToExternal false
    (SmartBrowserManager.set_browser None m).

(** The constructor's argument: [config], or [{}] when none is passed. *)
Definition configOrDefault (config : option SmartBrowserManager.SmartBrowserConfig)
  : SmartBrowserManager.SmartBrowserConfig :=
  match config with
  | Some cfg => cfg
  | None => SmartBrowserManager.emptyConfig
  end.

(** The class before any instance is constructed. *)
Definition noInstance : SmartBrowserManager.Class :=
  SmartBrowserManager.mkClass None [].

(** A configuration that only sets the debug port. *)
Definition onPort (p : N) : option SmartBrowserManager.SmartBrowserConfig :=
  Some (SmartBrowserManager.mkConfig (Some p) None None None false).

(** The arguments a launched browser is started with. *)
Definition launchArguments (m : SmartBrowserManager.t) : LaunchOptions :=
  {| args :=
       Some (("--remote-debugging-port="
                ++ SmartBrowserManager.numberToString
                     (SmartBrowserManager.debugPort m))
               :: match args (SmartBrowserManager.launchOptions m) with
                  | Some a => a
                  | None => []
                  end);
     launch_userDataDir := SmartBrowserManager.userDataDir m;
     launch_others := launch_others (SmartBrowserManager.launchOptions m) |}.

(** The scripted browser with a debug endpoint up. *)
Definition externalUp : Mock.World :=
  Mock.serving 200 (Some versionBody) Mock.empty.

(** The first acquisition with an external browser up. *)
Definition firstAcquisition
  : Run Mock.World SmartBrowserManager.t SmartBrowserManager.GetBrowserResult :=
  run Mock.env SmartBrowserManager.getOrCreateBrowser defaultManager externalUp.





(* ================================================================== *)
(** ** Vocabulary for the further properties *)

(** Calls that only inspect a browser: asking for the active page, probing
    a page, reading its URL. *)
Definition inspects (c : Call) : Prop :=
  match c with
  | GetActivePage _ | EvaluateReadyState _ | PageUrl _ => True
  | _ => False
  end.

(** Calls that close a browser or a page. *)
Definition closes (c : Call) : Prop :=
  match c with
  | BrowserClose _ | PageClose _ => True
  | _ => False
  end.

(** A fresh tab-session manager with a given strategy. *)
Definition freshWith (s : TabSessionManager.TabCreationStrategy)
  : TabSessionManager.t :=
  TabSessionManager.new (mkBrowser 0)
    (TabSessionManager.mkOptions (Some s) false).

(** The session of [firstCall] after its tab was closed from outside and
    another tab, page 5, was opened by the user. *)
Definition userOpenedTab : Mock.World :=
  Mock.with_pages [mkPage 5] (world firstCall).

(** A manager holding page 0 whose last navigated target carries a query. *)
Definition searchedOnce : TabSessionManager.t :=
  TabSessionManager.set_lastNavigatedUrl
    (Some "https://example.com/search?q=1") holdingPage0.

(** A manager holding page 0, with a confirmation callback configured. *)
Definition confirmingHolder : TabSessionManager.t :=
  TabSessionManager.set_sessionPage (Some (mkPage 0)) (freshManager true).

(** The scripted browser with page 0 open and a callback that refuses. *)
Definition refusingWithPage0 : Mock.World :=
  Mock.mkWorld [mkPage 0] 1 None false false.

(** The calls by which a browser is looked for, attached to or launched:
    the port probe, the liveness check, the construction and launch of a
    browser object, the launch notification. *)
Definition acquires (c : Call) : Prop :=
  match c with
  | Fetch _ _ | ResponseJson _ | GetActivePage _ | EvaluateReadyState _
  | NewRemoteBrowser _ | NewLocalBrowser | Launch _ _ | OnBrowserLaunch => True
  | _ => False
  end.

(** A manager in persistent mode holding browser 3, launched by itself,
    and a world where nothing listens on the debug port. *)
Definition persistentHolder : SmartBrowserManager.t :=
  holding (mkBrowser 3) false defaultManager.

(** A manager configured with a launch notification. *)
Definition notifyingManager : SmartBrowserManager.t :=
  SmartBrowserManager.new
    (SmartBrowserManager.mkConfig None None None None true).

(** The scripted browser after a crash: asking for the active page fails
    with a protocol error, and so does launching a browser. *)
Definition crashed : Environment Mock.World := fun c =>
  match c as c0 return Mock.World -> Result (Resp c0) * Mock.World with
  | GetActivePage _ => fun w =>
      (Throw (mkError "Protocol error: Connection closed."), w)
  | Launch _ _ => fun w =>
      (Throw (mkError "Failed to launch the browser process!"), w)
  | c0 => Mock.env c0
  end.

(* ================================================================== *)
(** ** Programs over any set of calls

    The classes outside the browser package talk to other collaborators
    (a key-value store, two operators).  [Free] is the program monad of
    [Env] once more, with the calls left open: an [Interface] names the
    calls and what each resolves to. *)

Module Free.

Record Interface : Type := mkInterface {
  call_of : Type;
  resp_of : call_of -> Type
}.

Section WithInterface.

Context {I : Interface}.

Inductive Prog (A : Type) : Type :=
| Ret (a : A)
| Vis (c : call_of I) (k : Result (resp_of I c) -> Prog A).
Arguments Ret {A} a.
Arguments Vis {A} c k.

Fixpoint pbind {A B : Type} (p : Prog A) (f : A -> Prog B) : Prog B :=
  match p with
  | Ret a => f a
  | Vis c k => Vis c (fun r => pbind (k r) f)
  end.

(** A method of a class with fields [S]. *)
Definition M (S A : Type) : Type := S -> Prog (Result A * S).

Definition ret {S A} (a : A) : M S A := fun s => Ret (Ok a, s).
Definition throw {S A} (e : Value) : M S A := fun s => Ret (Throw e, s).
Definition bind {S A B} (m : M S A) (f : A -> M S B) : M S B :=
  fun s => pbind (m s) (fun rs =>
    match fst rs with
    | Ok a => f a (snd rs)
    | Throw e => Ret (Throw e, snd rs)
    end).
Definition get {S} : M S S := fun s => Ret (Ok s, s).
Definition modify {S} (f : S -> S) : M S unit := fun s => Ret (Ok tt, f s).

(** [await c] *)
Definition call {S} (c : call_of I) : M S (resp_of I c) :=
  fun s => Vis c (fun r => Ret (r, s)).

(** [try { m } catch (e) { h e }] *)
Definition tryCatch {S A} (m : M S A) (h : Value -> M S A) : M S A :=
  fun s => pbind (m s) (fun rs =>
    match fst rs with
    | Ok a => Ret (Ok a, snd rs)
    | Throw e => h e (snd rs)
    end).

(** [if (c) { m }] *)
Definition when {S} (c : bool) (m : M S unit) : M S unit :=
  if c then m else ret tt.

(** [await Promise.all(ms)] for promises that each make their one call as
    soon as they are created: the calls go out in list order, whether or
    not an earlier one fails; the whole resolves to the list of values,
    or rejects with the first failure in that order. *)
Fixpoint promiseAll {S A} (ms : list (M S A)) : M S (list A) :=
  match ms with
  | [] => ret []
  | m :: rest =>
      fun s =>
        pbind (m s) (fun rs =>
          pbind (promiseAll rest (snd rs)) (fun rest_rs =>
            Ret (match fst rs, fst rest_rs with
                 | Ok a, Ok l => Ok (a :: l)
                 | Throw e, _ => Throw e
                 | Ok _, Throw e => Throw e
                 end, snd rest_rs)))
  end.

Record Run (W S A : Type) : Type := mkRun {
  result : Result A;
  state : S;
  world : W;
  trace : list (call_of I)
}.
Arguments mkRun {W S A}.
Arguments result {W S A}.
Arguments state {W S A}.
Arguments world {W S A}.
Arguments trace {W S A}.

Definition Environment (W : Type) : Type :=
  forall c : call_of I, W -> Result (resp_of I c) * W.

Fixpoint exec {W A} (env : Environment W) (p : Prog A) (w : W)
  : A * W * list (call_of I) :=
  match p with
  | Ret a => (a, w, [])
  | Vis c k =>
      let '(r, w1) := env c w in
      let '(a, w2, t) := exec env (k r) w1 in
      (a, w2, c :: t)
  end.

Definition run {W S A} (env : Environment W) (m : M S A) (s : S) (w : W)
  : Run W S A :=
  let '(rs, w', t) := exec env (m s) w in
  mkRun (fst rs) (snd rs) w' t.

End WithInterface.

Arguments Prog I A : clear implicits.
Arguments M I S A : clear implicits.
Arguments Run I W S A : clear implicits.
Arguments Environment I W : clear implicits.
Arguments Ret {I A} a.
Arguments Vis {I A} c k.
Arguments mkRun {I W S A}.
Arguments result {I W S A}.
Arguments state {I W S A}.
Arguments world {I W S A}.
Arguments trace {I W S A}.

Declare Scope free_scope.
Delimit Scope free_scope with free.
Notation "x <- m ;; k" := (bind m (fun x => k))
  (at level 100, m at next level, right associativity) : free_scope.
Notation "m ;; k" := (bind m (fun _ => k))
  (at level 100, right associativity) : free_scope.

End Free.

(* ================================================================== *)
(** ** apps/ui-tars/src/renderer/src/db/chat.ts *)

Module ChatManager.

Import Free.
Local Open Scope free_scope.

(** A stored message ([ConversationWithSoM]): a JavaScript object, as the
    list of its own properties in their order. *)
Definition ConversationWithSoM : Type := list (string * Json).
Definition Messages : Type := list ConversationWithSoM.

(** [msg.key]: the property, or [undefined]. *)
Definition property (msg : ConversationWithSoM) (key : string) : option Json :=
  option_map snd (find (fun kv => String.eqb (fst kv) key) msg).

(** The calls into [idb-keyval], all on the store [chatStore]. *)
Inductive IdbCall : Type :=
| IdbSet (key : string) (value : Messages)   (* set(key, value, chatStore) *)
| IdbGet (key : string)                      (* get(key, chatStore) *)
| IdbDel (key : string)                      (* del(key, chatStore) *)
| IdbEntries.                                (* entries(chatStore) *)

Definition IdbResp (c : IdbCall) : Type :=
  match c with
  | IdbSet _ _ => unit
  | IdbGet _ => option Messages
  | IdbDel _ => unit
  | IdbEntries => list (string * Messages)
  end.

Definition Idb : Interface := mkInterface IdbCall IdbResp.

(** The class has no fields. *)
Definition Method (A : Type) : Type := M Idb unit A.

Definition idb (c : IdbCall) : Method (IdbResp c) := @call Idb unit c.

(** [createSessionMessages(sessionId, messages)] *)
Definition createSessionMessages (sessionId : string) (messages : Messages)
  : Method Messages :=
  idb (IdbSet sessionId messages);; ret messages.

(** [updateSessionMessages(sessionId, messages)] *)
Definition updateSessionMessages (sessionId : string) (messages : Messages)
  : Method Messages :=
  idb (IdbSet sessionId messages);; ret messages.

(** [getSessionMessages(sessionId)] *)
Definition getSessionMessages (sessionId : string) : Method (option Messages) :=
  idb (IdbGet sessionId).

(** [deleteSessionMessages(sessionId)] *)
Definition deleteSessionMessages (sessionId : string) : Method bool :=
  idb (IdbDel sessionId);; ret true.

(** [clearAllChats()] *)
Definition clearAllChats : Method unit :=
  keys <- idb IdbEntries;;
  promiseAll (map (fun kv : string * Messages =>
                     (idb (IdbDel (fst kv)) : Method unit))
                  (keys : list (string * Messages)));;
  ret tt.

(** [const { screenshotBase64, screenshotBase64WithElementMarker, ...rest }
    = msg]: the object [rest]. *)
Definition withoutScreenshots (msg : ConversationWithSoM) : ConversationWithSoM :=
  filter (fun kv =>
            negb (String.eqb (fst kv) "screenshotBase64" ||
                  String.eqb (fst kv) "screenshotBase64WithElementMarker"))
         msg.

(** [clearAllScreenshots()] *)
Definition clearAllScreenshots : Method unit :=
  entriesList <- idb IdbEntries;;
  promiseAll
    (map (fun kv : string * Messages =>
            let messages := snd kv in
            let updatedMessages := map withoutScreenshots messages in
            (idb (IdbSet (fst kv) updatedMessages) : Method unit))
         (entriesList : list (string * Messages)));;
  ret tt.

End ChatManager.

(** *** A key-value store for the closed examples and the store-level
    properties: [idb-keyval] on one object store, as a list of entries
    with distinct keys. *)

Module KeyVal.

Import ChatManager.

Definition Store : Type := list (string * Messages).

Definition lookup (key : string) (w : Store) : option Messages :=
  option_map snd (find (fun kv => String.eqb (fst kv) key) w).

Fixpoint put (key : string) (value : Messages) (w : Store) : Store :=
  match w with
  | [] => [(key, value)]
  | (k, v) :: rest =>
      if String.eqb k key then (k, value) :: rest
      else (k, v) :: put key value rest
  end.

Definition remove (key : string) (w : Store) : Store :=
  filter (fun kv => negb (String.eqb (fst kv) key)) w.

Definition env : Free.Environment Idb Store := fun c =>
  match c as c0 return Store -> Result (IdbResp c0) * Store with
  | IdbSet key value => fun w => (Ok tt, put key value w)
  | IdbGet key => fun w => (Ok (lookup key w), w)
  | IdbDel key => fun w => (Ok tt, remove key w)
  | IdbEntries => fun w => (Ok w, w)
  end.

End KeyVal.

(** A message with a screenshot, and a store with two sessions. *)
Definition shot : ChatManager.ConversationWithSoM :=
  [("from", JString "gpt"); ("screenshotBase64", JString "iVBORw0KGgo=");
   ("value", JString "click"); ("screenshotBase64WithElementMarker", JString "iVBORw0KGgp=")].
Definition twoSessions : KeyVal.Store :=
  [("s1", [shot; [("from", JString "human")]]); ("s2", [shot])].

(** The two properties [clearAllScreenshots] drops. *)
Definition isScreenshotField (key : string) : bool :=
  String.eqb key "screenshotBase64" ||
  String.eqb key "screenshotBase64WithElementMarker".

(** The call by which a session is written back without screenshots. *)
Definition writeBack (kv : string * ChatManager.Messages) : ChatManager.IdbCall :=
  ChatManager.IdbSet (fst kv) (map ChatManager.withoutScreenshots (snd kv)).

(** A session as [clearAllScreenshots] leaves it. *)
Definition stripped (kv : string * ChatManager.Messages)
  : string * ChatManager.Messages :=
  (fst kv, map ChatManager.withoutScreenshots (snd kv)).

(* ================================================================== *)
(** ** apps/ui-tars/src/main/agent/hybridOperator.ts *)

From Stdlib Require QArith.

Module HybridOperator.

Import Free.
Local Open Scope free_scope.

(** JavaScript numbers that are only stored and passed on. *)
Definition number : Type := QArith_base.Q.

(** The members of [StatusEnum] the sources name. *)
Inductive StatusEnum : Type := RUNNING | END | CALL_USER | USER_STOPPED | ERROR.

(** [action_inputs]: an object with string-valued properties. *)
Definition ActionInputs : Type := list (string * string).

(** [inputs?.key || '']: the property when it is a non-empty string, the
    empty string otherwise. *)
Definition inputOr (inputs : option ActionInputs) (key : string) : string :=
  match inputs with
  | None => ""
  | Some fields =>
      match find (fun kv => String.eqb (fst kv) key) fields with
      | Some (_, v) => v
      | None => ""
      end
  end.

(** [params.parsedPrediction], and [ExecuteParams]: the fields the
    operator reads, and the others, which it only passes on. *)
Record ParsedPrediction : Type := mkPrediction {
  action_type : string;
  action_inputs : option ActionInputs;
  prediction_others : list (string * string)
}.

Record ExecuteParams : Type := mkParams {
  parsedPrediction : ParsedPrediction;
  screenWidth : number;
  screenHeight : number;
  scaleFactor : number;
  params_others : list (string * string)
}.

Record ScreenParams : Type := mkScreen {
  lastScreenWidth : number;
  lastScreenHeight : number;
  lastScaleFactor : number
}.

(** Opaque values of the operators. *)
Record BrowserOperator : Type := mkOperator { operator_id : nat }.
Record ScreenshotOutput : Type := mkScreenshot { screenshot_id : nat }.

(** [ExecuteOutput]: built here from a status, or returned by an
    operator. *)
Inductive ExecuteOutput : Type :=
| StatusOnly (status : StatusEnum)
| OperatorOutput (id : nat).

Inductive SearchEngine : Type := GOOGLE | BING | BAIDU.

(** The calls to the two operators. *)
Inductive OperatorCall : Type :=
| HasBrowser                      (* DefaultBrowserOperator.hasBrowser() *)
| GetBrowserOperator              (* DefaultBrowserOperator.getInstance(...) *)
    (highlight showActionInfo showWaterFlow isCallUser : bool)
    (searchEngine : SearchEngine)
    (tabCreationStrategy : TabSessionManager.TabCreationStrategy)
| BrowserScreenshot (op : BrowserOperator)
| BrowserExecute (op : BrowserOperator) (params : ExecuteParams)
| BrowserCleanup (op : BrowserOperator)
| ComputerScreenshot              (* this.computerOperator.screenshot() *)
| ComputerExecute (params : ExecuteParams).

Definition OperatorResp (c : OperatorCall) : Type :=
  match c with
  | HasBrowser => bool
  | GetBrowserOperator _ _ _ _ _ _ => BrowserOperator
  | BrowserScreenshot _ => ScreenshotOutput
  | BrowserExecute _ _ => ExecuteOutput
  | BrowserCleanup _ => unit
  | ComputerScreenshot => ScreenshotOutput
  | ComputerExecute _ => ExecuteOutput
  end.

Definition Operators : Interface := mkInterface OperatorCall OperatorResp.

(** The fields of the class; the computer operator is created once by the
    constructor and never replaced. *)
Record t : Type := mkHybrid {
  browserOperator : option BrowserOperator;
  browserSessionActive : bool;
  browserAvailable : bool;
  lastScreenParams : option ScreenParams
}.

Definition set_browserOperator (o : option BrowserOperator) (h : t) : t :=
  mkHybrid o (browserSessionActive h) (browserAvailable h) (lastScreenParams h).
Definition set_browserSessionActive (a : bool) (h : t) : t :=
  mkHybrid (browserOperator h) a (browserAvailable h) (lastScreenParams h).
Definition set_browserAvailable (a : bool) (h : t) : t :=
  mkHybrid (browserOperator h) (browserSessionActive h) a (lastScreenParams h).
Definition set_lastScreenParams (p : option ScreenParams) (h : t) : t :=
  mkHybrid (browserOperator h) (browserSessionActive h) (browserAvailable h) p.

(** [constructor()] *)
Definition new : t := mkHybrid None false false None.

Definition Method (A : Type) : Type := M Operators t A.

Definition op (c : OperatorCall) : Method (OperatorResp c) :=
  @call Operators t c.

Definition BROWSER_COMPATIBLE_ACTIONS : list string :=
  ["click"; "type"; "scroll"; "navigate"; "navigate_back"; "left_double";
   "right_single"].

(** [this.browserSessionActive && this.browserOperator] *)
Definition activeBrowser (h : t) : option BrowserOperator :=
  if browserSessionActive h then browserOperator h else None.

(** [ensureBrowserOperator()] *)
Definition ensureBrowserOperator : Method (option BrowserOperator) :=
  this <- get;;
  match browserOperator this with
  | Some b => ret (Some b)
  | None =>
      tryCatch
        (available <- op HasBrowser;;
         modify (set_browserAvailable available);;
         if negb available then ret None
         else
           b <- op (GetBrowserOperator false false false false GOOGLE
                      TabSessionManager.always_reuse);;
           modify (set_browserOperator (Some b));;
           ret (Some b))
        (fun _ => ret None)
  end.

(** [screenshot()] *)
Definition screenshot : Method ScreenshotOutput :=
  this <- get;;
  match activeBrowser this with
  | Some b =>
      tryCatch (op (BrowserScreenshot b)) (fun _ => op ComputerScreenshot)
  | None => op ComputerScreenshot
  end.

(** The parameters [handleOpenBrowser] builds for its navigation. *)
Definition navigateParams (url : string) (h : t) : ExecuteParams :=
  {| parsedPrediction :=
       {| action_type := "navigate";
          action_inputs := Some [("content", url)];
          prediction_others := [] |};
     screenWidth := match lastScreenParams h with
                    | Some p => lastScreenWidth p
                    | None => QArith_base.Qmake 1920 1
                    end;
     screenHeight := match lastScreenParams h with
                     | Some p => lastScreenHeight p
                     | None => QArith_base.Qmake 1080 1
                     end;
     scaleFactor := match lastScreenParams h with
                    | Some p => lastScaleFactor p
                    | None => QArith_base.Qmake 1 1
                    end;
     params_others := [] |}.

(** [handleOpenBrowser(inputs)] *)
Definition handleOpenBrowser (inputs : option ActionInputs)
  : Method ExecuteOutput :=
  let url := inputOr inputs "url" in
  browser <- ensureBrowserOperator;;
  match browser with
  | None => ret (StatusOnly ERROR)
  | Some b =>
      modify (set_browserSessionActive true);;
      when (negb (String.eqb url ""))
           (tryCatch
              (this <- get;;
               op (BrowserExecute b (navigateParams url this));;
               ret tt)
              (fun _ => ret tt));;
      ret (StatusOnly RUNNING)
  end.

(** [handleCloseBrowser()] *)
Definition handleCloseBrowser : Method ExecuteOutput :=
  modify (set_browserSessionActive false);;
  ret (StatusOnly RUNNING).

(** The end of [execute]: "Route to active operator", then "Default: use
    Computer Use". *)
Definition route (params : ExecuteParams) : Method ExecuteOutput :=
  this <- get;;
  match activeBrowser this with
  | Some b =>
      if existsb (String.eqb (action_type (parsedPrediction params)))
                 BROWSER_COMPATIBLE_ACTIONS
      then tryCatch (op (BrowserExecute b params))
                    (fun _ => op (ComputerExecute params))
      else op (ComputerExecute params)
  | None => op (ComputerExecute params)
  end.

(** [execute(params)] *)
Definition execute (params : ExecuteParams) : Method ExecuteOutput :=
  let action := action_type (parsedPrediction params) in
  let inputs := action_inputs (parsedPrediction params) in
  modify (set_lastScreenParams
            (Some (mkScreen (screenWidth params) (screenHeight params)
                            (scaleFactor params))));;
  if String.eqb action "open_browser" then handleOpenBrowser inputs
  else if String.eqb action "close_browser" then handleCloseBrowser
  else if String.eqb action "navigate" || String.eqb action "navigate_back"
  then
    this <- get;;
    match activeBrowser this with
    | Some b => op (BrowserExecute b params)
    | None =>
        handleOpenBrowser (Some [("url", inputOr inputs "content")]);;
        this' <- get;;
        match browserOperator this' with
        | Some b => op (BrowserExecute b params)
        | None => route params
        end
    end
  else route params.

(** [cleanup()] *)
Definition cleanup : Method unit :=
  this <- get;;
  match browserOperator this with
  | Some b => tryCatch (op (BrowserCleanup b)) (fun _ => ret tt)
  | None => ret tt
  end;;
  modify (set_browserSessionActive false);;
  modify (set_browserOperator None).

End HybridOperator.

(** The invariant of the hybrid operator: an active browser session has a
    browser operator. *)
Definition sessionHasOperator (h : HybridOperator.t) : Prop :=
  HybridOperator.browserSessionActive h = true ->
  HybridOperator.browserOperator h <> None.

(** Parameters of an action on a 1920x1080 screen. *)
Definition action (name : string) (inputs : option HybridOperator.ActionInputs)
  : HybridOperator.ExecuteParams :=
  HybridOperator.mkParams (HybridOperator.mkPrediction name inputs [])
    (QArith_base.Qmake 1920 1) (QArith_base.Qmake 1080 1)
    (QArith_base.Qmake 2 1) [].

(** Scripted operators: the browser may be installed or not, and its
    [execute] may fail; the computer operator always answers. *)
Record Desk : Type := mkDesk {
  installed : bool;
  browserFails : bool;
  served : nat
}.

Definition desk : Free.Environment HybridOperator.Operators Desk := fun c =>
  match c as c0
        return Desk -> Result (HybridOperator.OperatorResp c0) * Desk with
  | HybridOperator.HasBrowser => fun w => (Ok (installed w), w)
  | HybridOperator.GetBrowserOperator _ _ _ _ _ _ => fun w =>
      (Ok (HybridOperator.mkOperator 0), w)
  | HybridOperator.BrowserScreenshot _ => fun w =>
      if browserFails w then (Throw (mkError "Target closed"), w)
      else (Ok (HybridOperator.mkScreenshot (served w)),
            mkDesk (installed w) (browserFails w) (S (served w)))
  | HybridOperator.BrowserExecute _ _ => fun w =>
      if browserFails w then (Throw (mkError "Target closed"), w)
      else (Ok (HybridOperator.OperatorOutput (served w)),
            mkDesk (installed w) (browserFails w) (S (served w)))
  | HybridOperator.BrowserCleanup _ => fun w =>
      if browserFails w then (Throw (mkError "Target closed"), w)
      else (Ok tt, w)
  | HybridOperator.ComputerScreenshot => fun w =>
      (Ok (HybridOperator.mkScreenshot (served w)),
       mkDesk (installed w) (browserFails w) (S (served w)))
  | HybridOperator.ComputerExecute _ => fun w =>
      (Ok (HybridOperator.OperatorOutput (served w)),
       mkDesk (installed w) (browserFails w) (S (served w)))
  end.

(** The four actions [execute] handles itself before routing. *)
Definition handledByHybrid (name : string) : bool :=
  existsb (String.eqb name)
          ["open_browser"; "close_browser"; "navigate"; "navigate_back"].

(** The parameters of the navigation that [open_browser] performs on
    behalf of a call with [params]. *)
Definition openingNavigation (url : string) (params : HybridOperator.ExecuteParams)
  : HybridOperator.ExecuteParams :=
  HybridOperator.mkParams
    (HybridOperator.mkPrediction "navigate" (Some [("content", url)]) [])
    (HybridOperator.screenWidth params) (HybridOperator.screenHeight params)
    (HybridOperator.scaleFactor params) [].

(** [lastScreenParams] as [execute(params)] sets it. *)
Definition remembering (params : HybridOperator.ExecuteParams)
    (h : HybridOperator.t) : HybridOperator.t :=
  HybridOperator.set_lastScreenParams
    (Some (HybridOperator.mkScreen (HybridOperator.screenWidth params)
             (HybridOperator.screenHeight params)
             (HybridOperator.scaleFactor params))) h.

(** A hybrid operator with browser operator 0 and an active session. *)
Definition browsing : HybridOperator.t :=
  HybridOperator.mkHybrid (Some (HybridOperator.mkOperator 0)) true true None.

(** A desk with a browser installed, one without, and one whose browser
    fails. *)
Definition withBrowser : Desk := mkDesk true false 0.
Definition withoutBrowser : Desk := mkDesk false false 0.
Definition brokenBrowser : Desk := mkDesk true true 0.

(** A hybrid operator that holds browser operator 0 from an earlier
    session, now closed. *)
Definition sessionClosed : HybridOperator.t :=
  HybridOperator.mkHybrid (Some (HybridOperator.mkOperator 0)) false true None.

Definition goToExample : HybridOperator.ExecuteParams :=
  action "navigate" (Some [("content", "https://example.com")]).

(* ================================================================== *)
(** ** Reasoning about runs *)

Section Runs.

Context {W : Type} (env : Environment W).

Lemma exec_pbind {A B} (p : Prog A) (f : A -> Prog B) (w : W) :
  exec env (pbind p f) w =
  let '(a, w1, t1) := exec env p w in
  let '(b, w2, t2) := exec env (f a) w1 in
  (b, w2, (t1 ++ t2)%list).
Proof.
  revert w; induction p as [a | c k IH]; intros w; simpl.
  - destruct (exec env (f a) w) as [[b w2] t2]; reflexivity.
  - destruct (env c w) as [r w1].
    rewrite IH.
    destruct (exec env (k r) w1) as [[a w2] t1].
    destruct (exec env (f a) w2) as [[b w3] t2]; reflexivity.
Qed.

(** A run of [m;; f] is a run of [m] followed, unless [m] threw, by a run
    of [f] from where [m] stopped. *)
Lemma run_bind {S A B} (m : M S A) (f : A -> M S B) (s : S) (w : W) :
  run env (bind m f) s w =
  let r1 := run env m s w in
  match result r1 with
  | Ok a =>
      let r2 := run env (f a) (state r1) (world r1) in
      mkRun (result r2) (state r2) (world r2) (trace r1 ++ trace r2)%list
  | Throw e => mkRun (Throw e) (state r1) (world r1) (trace r1)
  end.
Proof.
  unfold run, bind. rewrite exec_pbind.
  destruct (exec env (m s) w) as [[[r s1] w1] t1]; simpl.
  destruct r as [a | e]; simpl.
  - destruct (exec env (f a s1) w1) as [[[r2 s2] w2] t2]; reflexivity.
  - rewrite app_nil_r; reflexivity.
Qed.

(** A run of [try { m } catch (e) { h e }]. *)
Lemma run_tryCatch {S A} (m : M S A) (h : Value -> M S A) (s : S) (w : W) :
  run env (tryCatch m h) s w =
  let r1 := run env m s w in
  match result r1 with
  | Ok a => r1
  | Throw e =>
      let r2 := run env (h e) (state r1) (world r1) in
      mkRun (result r2) (state r2) (world r2) (trace r1 ++ trace r2)%list
  end.
Proof.
  unfold run, tryCatch. rewrite exec_pbind.
  destruct (exec env (m s) w) as [[[r s1] w1] t1]; simpl.
  destruct r as [a | e]; simpl.
  - rewrite app_nil_r; reflexivity.
  - destruct (exec env (h e s1) w1) as [[[r2 s2] w2] t2]; reflexivity.
Qed.

Lemma run_get_bind {S A} (f : S -> M S A) (s : S) (w : W) :
  run env (bind get f) s w = run env (f s) s w.
Proof. reflexivity. Qed.

Lemma run_modify_bind {S A} (g : S -> S) (f : unit -> M S A) (s : S) (w : W) :
  run env (bind (modify g) f) s w = run env (f tt) (g s) w.
Proof. reflexivity. Qed.

Lemma run_ret {S A} (a : A) (s : S) (w : W) :
  run env (ret a) s w = mkRun (Ok a) s w [].
Proof. reflexivity. Qed.

Lemma run_call_bind {S A} (c : Call) (f : Resp c -> M S A) (s : S) (w : W) :
  run env (bind (call c) f) s w =
  match fst (env c w) with
  | Ok a => after [c] (run env (f a) s (snd (env c w)))
  | Throw e => mkRun (Throw e) s (snd (env c w)) [c]
  end.
Proof.
  unfold run, bind, call, after; cbn.
  destruct (env c w) as [[a | e] w1]; cbn; [| reflexivity].
  destruct (exec env (f a s) w1) as [[[r s1] w2] t]; reflexivity.
Qed.

End Runs.

(** Exposes the next call of a run to case analysis on the environment's
    answer. *)
Ltac ask_env :=
  match goal with
  | |- context [ ?env ?c ?w ] =>
      match type of (env c w) with
      | (Result _ * _)%type =>
          let r := fresh "r" in
          let w' := fresh "w" in
          let E := fresh "E" in
          destruct (env c w) as [r w'] eqn:E; cbn in *
      end
  end.

(* ================================================================== *)
(** ** Facts about strings *)

Lemma startsWith_iff (s p : string) :
  startsWith s p = true <-> exists rest, s = p ++ rest.
Proof.
  unfold startsWith. revert s.
  induction p as [| c p IH]; intros s; simpl.
  - split; [intros _; exists s; reflexivity | intros _; destruct s; reflexivity].
  - destruct s as [| d s]; simpl.
    + split; [discriminate | intros [rest H]; discriminate].
    + destruct (Ascii.ascii_dec c d) as [-> | Hne].
      * rewrite IH. split; intros [rest H]; exists rest.
        -- now rewrite H.
        -- now injection H.
      * split; [discriminate |].
        intros [rest H]. injection H as H1 _. congruence.
Qed.

Lemma includes_iff (s sub : string) :
  includes s sub = true <-> Contains s sub.
Proof.
  unfold Contains.
  induction s as [| c s IH]; cbn [includes].
  - rewrite orb_false_r, startsWith_iff. split.
    + intros [rest H]. exists "", rest. exact H.
    + intros [pre [post H]]. destruct pre; simpl in H.
      * exists post; exact H.
      * discriminate.
  - rewrite orb_true_iff, startsWith_iff, IH. split.
    + intros [[rest H] | [pre [post H]]].
      * exists "", rest. exact H.
      * exists (String c pre), post. simpl. now rewrite H.
    + intros [pre [post H]]. destruct pre as [| d pre]; simpl in H.
      * left. exists post. exact H.
      * right. injection H as _ H. exists pre, post. exact H.
Qed.

(* ================================================================== *)
(** ** [shouldCreateNewTab] *)

Section ShouldCreateNewTab.

Import TabSessionManager.

Lemma existsb_includes_iff (host : string) :
  existsb (fun domain => includes host domain) WORKSPACE_DOMAINS = true
  <-> IsWorkspaceHost host.
Proof.
  unfold IsWorkspaceHost. rewrite existsb_exists.
  split; intros [d [Hin Hd]]; exists d; split; auto; now apply includes_iff.
Qed.

Lemma existsb_pattern_iff (targetUrl : string) :
  existsb (fun pattern => testPrefixI pattern targetUrl) NEW_TAB_PATTERNS = true
  <-> IsolatedScheme targetUrl.
Proof.
  unfold IsolatedScheme, testPrefixI. rewrite existsb_exists. split.
  - intros [lit [Hin H]]. apply startsWith_iff in H as [rest H]. eauto.
  - intros [lit [rest [Hin H]]]. exists lit. split; auto.
    apply startsWith_iff. eauto.
Qed.

Lemma truthy_iff (s : option string) :
  truthy s = true <-> exists c, s = Some c /\ c <> "".
Proof.
  destruct s as [[| a r] |]; simpl; split; try discriminate.
  - intros [c [H Hne]]. injection H as H. congruence.
  - intros _. eexists; split; [reflexivity | discriminate].
  - reflexivity.
  - intros [c [H _]]. discriminate.
Qed.

(** The examples of the specification, on the reference parser. *)
Example shouldCreateNewTab_no_current :
  shouldCreateNewTab UrlModel.URL_parse smart None "https://mail.google.com" = false.
Proof. reflexivity. Qed.

Example shouldCreateNewTab_workspace_switch :
  shouldCreateNewTab UrlModel.URL_parse smart
    (Some "https://mail.google.com") "https://docs.google.com" = true.
Proof. reflexivity. Qed.

Example shouldCreateNewTab_mailto :
  shouldCreateNewTab UrlModel.URL_parse smart
    (Some "https://a.com") "mailto:x@y.com" = true.
Proof. reflexivity. Qed.

Example shouldCreateNewTab_same_host :
  shouldCreateNewTab UrlModel.URL_parse smart
    (Some "https://a.com/p1") "https://a.com/p2" = false.
Proof. reflexivity. Qed.

(** C1, as stated, fails: from [https://github.com] to
    [https://gist.github.com] the hosts differ and both contain the single
    entry [github.com]; no two distinct entries are matched, so the stated
    policy answers false, and the code answers true. *)
Lemma shouldCreateNewTab_same_entry_counterexample :
  shouldCreateNewTab UrlModel.URL_parse smart
    (Some "https://github.com") "https://gist.github.com" = true
  /\ Claimed.matchDistinctEntries "github.com" "gist.github.com" = false
  /\ Claimed.shouldCreateNewTab UrlModel.URL_parse smart
       (Some "https://github.com") "https://gist.github.com" = false.
Proof. repeat split; reflexivity. Qed.

(** C1, amended: [shouldCreateNewTab] is a function of the strategy and
    its two arguments alone; it answers true exactly when the strategy is
    [always_new], or the strategy is [smart] and either the target starts
    (case-insensitively) with [mailto:], [tel:] or [javascript:], or the
    current URL is a non-empty string, both URLs parse, their hostnames
    differ, and each hostname contains some entry of the workspace-domain
    list (the two entries may be the same one).  In every other case -
    [always_reuse], no current URL, equal hostnames, a host outside the
    list, a URL that does not parse - it answers false. *)
Theorem shouldCreateNewTab_decision (newURL : URLParser)
    (strat : TabCreationStrategy) (currentUrl : option string)
    (targetUrl : string) :
  shouldCreateNewTab newURL strat currentUrl targetUrl = true
  <->
  strat = always_new \/
  (strat = smart /\
   (IsolatedScheme targetUrl \/
    exists c current target,
      currentUrl = Some c /\ c <> "" /\
      newURL c = Some current /\ newURL targetUrl = Some target /\
      hostname current <> hostname target /\
      IsWorkspaceHost (hostname current) /\
      IsWorkspaceHost (hostname target))).
Proof.
  unfold shouldCreateNewTab.
  destruct strat.
  - split; [discriminate | intros [H | [H _]]; discriminate].
  - rewrite <- existsb_pattern_iff.
    destruct (existsb (fun pattern => testPrefixI pattern targetUrl)
                      NEW_TAB_PATTERNS) eqn:Hpat.
    { split; auto. }
    destruct (truthy currentUrl) eqn:Htruthy; cbn [negb].
    2:{ split; [discriminate |].
        intros [H | [_ [H | (c' & u & v & H & Hc & _)]]]; try discriminate.
        assert (T : truthy currentUrl = true) by (apply truthy_iff; eauto).
        congruence. }
    apply truthy_iff in Htruthy as [c [-> Hc]].
    destruct (newURL c) as [current |] eqn:Hcur.
    2:{ split; [discriminate |].
        intros [H | [_ [H | (c' & u & v & H & _ & H' & _)]]]; try discriminate.
        injection H as H; subst c'. congruence. }
    destruct (newURL targetUrl) as [target |] eqn:Htgt.
    2:{ split; [discriminate |].
        intros [H | [_ [H | (c' & u & v & _ & _ & _ & H' & _)]]];
          discriminate. }
    destruct (String.eqb_spec (hostname current) (hostname target))
      as [Heq | Hne].
    { split; [discriminate |].
      intros [H | [_ [H | (c' & u & v & H & _ & Hu & Hv & Hd & _)]]];
        try discriminate.
      injection H as H; subst c'. congruence. }
    destruct (existsb (fun domain => includes (hostname current) domain)
                      WORKSPACE_DOMAINS) eqn:Hleave; cbn [andb].
    2:{ split; [discriminate |].
        intros [H | [_ [H | (c' & u & v & H & _ & Hu & Hv & _ & Hw & _)]]];
          try discriminate.
        injection H as H; subst c'.
        assert (u = current) by congruence. subst u.
        apply existsb_includes_iff in Hw. congruence. }
    destruct (existsb (fun domain => includes (hostname target) domain)
                      WORKSPACE_DOMAINS) eqn:Hgo.
    + split; auto. intros _. right. split; auto. right.
      exists c, current, target.
      repeat split; auto; now apply existsb_includes_iff.
    + split; [discriminate |].
      intros [H | [_ [H | (c' & u & v & H & _ & Hu & Hv & _ & _ & Hw)]]];
        try discriminate.
      assert (v = target) by congruence. subst v.
      apply existsb_includes_iff in Hw. congruence.
  - split; auto.
Qed.

End ShouldCreateNewTab.

(* ================================================================== *)
(** ** [navigateTo] and [normalizeUrl] *)

Section NavigateTo.

Import TabSessionManager.

Context {W : Type} (env : Environment W).

Lemma normalizeUrl_prefix (url : string) :
  (HasHttpPrefix url -> normalizeUrl url = url) /\
  (~ HasHttpPrefix url -> normalizeUrl url = "https://" ++ url).
Proof.
  unfold normalizeUrl, HasHttpPrefix, testPrefixI.
  destruct (startsWith (toLowerCase url) "http://") eqn:H1;
  destruct (startsWith (toLowerCase url) "https://") eqn:H2; cbn [orb negb];
    split; try reflexivity; intros H.
  1-3: exfalso; apply H;
       first [ apply startsWith_iff in H1 as [rest H1]; exists rest; now left
             | apply startsWith_iff in H2 as [rest H2]; exists rest; now right ].
  destruct H as [rest [H | H]].
  - assert (T : startsWith (toLowerCase url) "http://" = true)
      by (apply startsWith_iff; eauto).
    congruence.
  - assert (T : startsWith (toLowerCase url) "https://" = true)
      by (apply startsWith_iff; eauto).
    congruence.
Qed.

(** What a run of [navigateTo] amounts to. *)
Lemma run_navigateTo (url : string) (m : t) (w : W) :
  run env (navigateTo url) m w =
  match sessionPage m with
  | None => mkRun (Throw noSessionPage) m w []
  | Some page =>
      let goto := Goto page (normalizeUrl url) settle30s in
      match fst (env goto w) with
      | Ok _ =>
          mkRun (Ok tt) (set_lastNavigatedUrl (Some (normalizeUrl url)) m)
                (snd (env goto w)) [goto]
      | Throw e => mkRun (Throw e) m (snd (env goto w)) [goto]
      end
  end.
Proof.
  unfold run, navigateTo, settle30s; cbn.
  destruct (sessionPage m) as [page |]; cbn; [| reflexivity].
  ask_env. destruct r as [[] | e]; reflexivity.
Qed.

(** C4, amended: [navigateTo(url)] throws its "no session" error, before
    any call to a page, if and only if no session page is held.  With a
    session page held it makes exactly one call, [goto] on that page with
    the normalized URL, [waitUntil: 'networkidle2'] and a timeout of 30000
    ms; when [goto] returns, the normalized URL (not the raw input) becomes
    the last navigated target, and when it throws, the exception is passed
    on and the fields are left as they were.  Normalization prefixes
    [https://] exactly when the input does not already start
    (case-insensitively) with [http://] or [https://] - whether or not it
    carries some other scheme. *)
Theorem navigateTo_contract (url : string) (m : t) (w : W) :
  let r := run env (navigateTo url) m w in
  (sessionPage m = None <-> result r = Throw noSessionPage /\ trace r = [])
  /\
  (forall page, sessionPage m = Some page ->
     let goto := Goto page (normalizeUrl url) settle30s in
     trace r = [goto] /\
     world r = snd (env goto w) /\
     match fst (env goto w) with
     | Ok _ =>
         result r = Ok tt /\
         state r = set_lastNavigatedUrl (Some (normalizeUrl url)) m
     | Throw e => result r = Throw e /\ state r = m
     end)
  /\
  (HasHttpPrefix url -> normalizeUrl url = url)
  /\
  (~ HasHttpPrefix url -> normalizeUrl url = "https://" ++ url).
Proof.
  cbv zeta. rewrite run_navigateTo.
  split; [| split; [| apply normalizeUrl_prefix]].
  - destruct (sessionPage m) as [page |]; cbn.
    + split; [discriminate |].
      ask_env. destruct r; cbn; intros [_ H]; discriminate.
    + split; auto.
  - intros page ->. cbn.
    ask_env. destruct r; cbn; auto.
Qed.

End NavigateTo.

(** C4, as stated, fails: [ftp://example.com/file] gives a scheme, and
    [normalizeUrl] prefixes [https://] all the same; the page is sent to
    [https://ftp://example.com/file]. *)
Lemma normalizeUrl_other_scheme_counterexample :
  Claimed.schemeGiven "ftp://example.com/file" = true
  /\ Claimed.normalizeUrl "ftp://example.com/file" = "ftp://example.com/file"
  /\ TabSessionManager.normalizeUrl "ftp://example.com/file"
     = "https://ftp://example.com/file"
  /\ trace (run Mock.env (TabSessionManager.navigateTo "ftp://example.com/file")
                holdingPage0 page0Open)
     = [Goto (mkPage 0) "https://ftp://example.com/file" settle30s].
Proof. repeat split; reflexivity. Qed.

(** [navigateTo "example.com"] on the scripted browser: one [goto] to
    [https://example.com], which becomes the last navigated target. *)
Lemma navigateTo_contract_witness :
  let r := run Mock.env (TabSessionManager.navigateTo "example.com")
               holdingPage0 page0Open in
  trace r = [Goto (mkPage 0) "https://example.com" settle30s]
  /\ result r = Ok tt
  /\ TabSessionManager.lastNavigatedUrl (state r) = Some "https://example.com".
Proof.
  cbv zeta.
  destruct (navigateTo_contract Mock.env "example.com" holdingPage0 page0Open)
    as (_ & H & _ & _).
  destruct (H (mkPage 0) eq_refl) as (Ht & _ & _).
  split; [exact Ht | split; reflexivity].
Defined.

(* ================================================================== *)
(** ** [requestNewTab] *)

Section RequestNewTab.

Import TabSessionManager.

Context {W : Type} (env : Environment W).

(** C9: when [requestNewTab(url)] goes on to create a tab - no
    confirmation callback is configured, or the callback approves - and the
    browser creates the page and the page's [goto] returns, the new page
    is returned and becomes the session page, the page was sent to the
    normalized URL, and the last navigated target is the raw [url] as
    passed; [navigateTo], by contrast, records the normalized URL.  When
    the callback refuses while no session page is held, [requestNewTab]
    throws the "no session" error after that one call and leaves the
    fields unchanged. *)
Theorem requestNewTab_records_raw_url (url : string) (m : t) (w : W) :
  let r := run env (requestNewTab url) m w in
  let confirm := OnNewTabRequest url in
  let asked := if onNewTabRequest m then [confirm] else [] in
  let approved := if onNewTabRequest m then fst (env confirm w) else Ok true in
  let w0 := if onNewTabRequest m then snd (env confirm w) else w in
  let create := CreatePage (browser m) in
  (approved = Ok true ->
   forall page, fst (env create w0) = Ok page ->
     let goto := Goto page (normalizeUrl url) settle in
     fst (env goto (snd (env create w0))) = Ok tt ->
     result r = Ok (Some page) /\
     state r = set_lastNavigatedUrl (Some url) (set_sessionPage (Some page) m) /\
     trace r = (asked ++ [create; goto])%list)
  /\
  (approved = Ok false -> sessionPage m = None ->
   result r = Throw noSessionPage /\ state r = m /\ trace r = [confirm])
  /\
  (forall held, sessionPage m = Some held ->
     fst (env (Goto held (normalizeUrl url) settle30s) w) = Ok tt ->
     lastNavigatedUrl (state (run env (navigateTo url) m w))
     = Some (normalizeUrl url)).
Proof.
  cbv zeta. split; [| split].
  - unfold run, requestNewTab, settle; cbn.
    destruct (onNewTabRequest m); cbn.
    + ask_env. intros ->. cbn. intros page.
      ask_env. intros ->. cbn.
      ask_env. intros ->. cbn. auto.
    + intros _ page.
      ask_env. intros ->. cbn.
      ask_env. intros ->. cbn. auto.
  - unfold run, requestNewTab, navigateTo; cbn.
    destruct (onNewTabRequest m); cbn; [| discriminate].
    ask_env. intros -> Hnone. cbn. rewrite Hnone. cbn. auto.
  - intros held Hheld Hgoto. rewrite run_navigateTo, Hheld. cbv zeta.
    rewrite Hgoto. reflexivity.
Qed.

End RequestNewTab.

(** [requestNewTab "example.com"] on the scripted browser, no callback
    configured: page 0 is created and sent to [https://example.com], and
    the recorded target is [example.com]. *)
Lemma requestNewTab_records_raw_url_witness :
  let r := run Mock.env (TabSessionManager.requestNewTab "example.com")
               (freshManager false) Mock.empty in
  result r = Ok (Some (mkPage 0))
  /\ TabSessionManager.sessionPage (state r) = Some (mkPage 0)
  /\ TabSessionManager.lastNavigatedUrl (state r) = Some "example.com"
  /\ trace r = [CreatePage (mkBrowser 0);
                Goto (mkPage 0) "https://example.com" settle].
Proof.
  cbv zeta.
  destruct (requestNewTab_records_raw_url Mock.env "example.com"
              (freshManager false) Mock.empty) as (H & _ & _).
  destruct (H eq_refl (mkPage 0) eq_refl eq_refl) as (Hr & Hs & Ht).
  split; [exact Hr |].
  rewrite Hs. split; [reflexivity | split; [reflexivity | exact Ht]].
Defined.

(** The refusal path with no session page: the "no session" error. *)
Example requestNewTab_refused_without_session :
  let r := run Mock.env (TabSessionManager.requestNewTab "example.com")
               (freshManager true) refusing in
  result r = Throw TabSessionManager.noSessionPage
  /\ trace r = [OnNewTabRequest "example.com"].
Proof. split; reflexivity. Qed.

(* ================================================================== *)
(** ** [getOrCreateSessionPage] and the idempotence check *)

Section GetOrCreateSessionPage.

Import TabSessionManager.

Context {W : Type} (env : Environment W).
Variable newURL : URLParser.

(** What a run of [isSessionPageValid] amounts to: one probe of the held
    page, which is dropped when the probe throws. *)
Lemma run_isSessionPageValid (m : t) (w : W) :
  run env isSessionPageValid m w =
  match sessionPage m with
  | None => mkRun (Ok false) m w []
  | Some page =>
      let probe := EvaluateReadyState page in
      match fst (env probe w) with
      | Ok _ => mkRun (Ok true) m (snd (env probe w)) [probe]
      | Throw _ =>
          mkRun (Ok false) (set_sessionPage None m) (snd (env probe w)) [probe]
      end
  end.
Proof.
  unfold run, isSessionPageValid; cbn.
  destruct (sessionPage m) as [page |]; cbn; [| reflexivity].
  ask_env. destruct r as [[] | e]; reflexivity.
Qed.

(** A target that does not parse is always navigated to, whatever was
    navigated to last. *)
Lemma shouldNavigateToUrl_unparsed (last : option string) (url : string) :
  newURL url = None -> shouldNavigateToUrl newURL last url = true.
Proof.
  intros H. unfold shouldNavigateToUrl.
  destruct (truthy last); cbn; [| reflexivity].
  destruct (newURL match last with Some l => l | None => "" end);
    [rewrite H |]; reflexivity.
Qed.

(** [findReusablePage] never throws, keeps the fields, creates no page,
    and finds nothing under [always_new]. *)
Lemma run_findReusablePage (m : t) (w : W) :
  let r := run env findReusablePage m w in
  state r = m /\
  (exists found, result r = Ok found) /\
  ~ In (CreatePage (browser m)) (trace r) /\
  (strategy m = always_new -> result r = Ok None /\ trace r = []).
Proof.
  unfold run, findReusablePage; cbn.
  destruct (strategy m); cbn.
  1-2: ask_env; destruct r as [[page |] | e]; cbn;
       [ ask_env; destruct r as [[] | e]; cbn;
         [ ask_env; destruct r as [u | e]; cbn |] | |];
       (split; [reflexivity |]); (split; [eauto |]);
       (split; [intros H; repeat destruct H as [H | H]; discriminate || exact H
               | discriminate]).
  split; [reflexivity |]. split; [eauto |]. split; [intros [] | auto].
Qed.

(** The first call on a manager that holds no page: when there is no page
    to adopt, exactly one page is created, and it is sent to the
    normalized URL. *)
Lemma getOrCreateSessionPage_creates_one_page
    (url : string) (m : t) (w w2 : W) (page : Page) :
  url <> "" ->
  sessionPage m = None ->
  let found := run env findReusablePage m w in
  result found = Ok None ->
  env (CreatePage (browser m)) (world found) = (Ok page, w2) ->
  trace (run env (getOrCreateSessionPage newURL (Some url)) m w)
  = (trace found
       ++ [CreatePage (browser m); Goto page (normalizeUrl url) settle30s])%list.
Proof.
  intros Hne Hnone found Hfound Hcreate.
  destruct (run_findReusablePage m w) as (Hst & _ & _ & _).
  fold found in Hst.
  unfold getOrCreateSessionPage.
  rewrite run_bind, run_isSessionPageValid, Hnone.
  cbn [result state world trace app].
  rewrite run_bind. fold found. cbv zeta. rewrite Hfound, Hst.
  rewrite run_get_bind, run_call_bind, Hcreate.
  cbn [fst snd after result state world trace].
  rewrite run_modify_bind.
  assert (Htruthy : truthy (Some url) = true)
    by (destruct url; [congruence | reflexivity]).
  rewrite Htruthy. cbn [when].
  rewrite run_bind, run_navigateTo. cbn [sessionPage set_sessionPage].
  cbv zeta.
  destruct (fst (env _ w2)); cbn; reflexivity.
Qed.

(** C3, the second call: with a live session page held, a request for a
    non-empty URL that [new URL] rejects - such as the scheme-less
    [example.com] - is navigated to again, whatever the last navigated
    target is: the call probes the page and then calls [goto] with the
    normalized URL. *)
Theorem getOrCreateSessionPage_schemeless_renavigates
    (url : string) (m : t) (w w1 : W) (page : Page) :
  url <> "" ->
  newURL url = None ->
  sessionPage m = Some page ->
  env (EvaluateReadyState page) w = (Ok tt, w1) ->
  trace (run env (getOrCreateSessionPage newURL (Some url)) m w)
  = [EvaluateReadyState page; Goto page (normalizeUrl url) settle30s].
Proof.
  intros Hne Hparse Hheld Hprobe.
  unfold getOrCreateSessionPage.
  rewrite run_bind, run_isSessionPageValid, Hheld. cbv zeta.
  rewrite Hprobe. cbn [fst snd result state world trace].
  rewrite run_bind. unfold get at 1. cbn [run exec fst snd result state world trace].
  assert (Htruthy : truthy (Some url) = true)
    by (destruct url; [congruence | reflexivity]).
  rewrite Htruthy, shouldNavigateToUrl_unparsed by exact Hparse.
  cbn [andb when]. rewrite run_bind, run_navigateTo, Hheld. cbv zeta.
  destruct (fst (env _ w1)); cbn; reflexivity.
Qed.

End GetOrCreateSessionPage.

(** The first call finds no page to adopt, creates exactly one page and
    sends it to [https://example.com], which it records. *)
Example getOrCreateSessionPage_first_call :
  trace firstCall = [GetActivePage (mkBrowser 0); CreatePage (mkBrowser 0);
                     Goto (mkPage 0) "https://example.com" settle30s]
  /\ result firstCall = Ok (Some (mkPage 0))
  /\ TabSessionManager.lastNavigatedUrl (state firstCall)
     = Some "https://example.com".
Proof. repeat split; reflexivity. Qed.

(** The second call with the same string navigates again. *)
Lemma getOrCreateSessionPage_schemeless_renavigates_witness :
  trace (run Mock.env
           (TabSessionManager.getOrCreateSessionPage UrlModel.URL_parse
              (Some "example.com"))
           (state firstCall) (world firstCall))
  = [EvaluateReadyState (mkPage 0);
     Goto (mkPage 0) "https://example.com" settle30s].
Proof.
  apply (getOrCreateSessionPage_schemeless_renavigates Mock.env
           UrlModel.URL_parse "example.com" (state firstCall)
           (world firstCall) (world firstCall) (mkPage 0)).
  - discriminate.
  - reflexivity.
  - reflexivity.
  - reflexivity.
Defined.

(** With the scheme written out the check does its work: the second call
    only probes the page. *)
Example getOrCreateSessionPage_absolute_url_idempotent :
  let first :=
    run Mock.env
      (TabSessionManager.getOrCreateSessionPage UrlModel.URL_parse
         (Some "https://example.com"))
      (freshManager false) Mock.empty in
  trace (run Mock.env
           (TabSessionManager.getOrCreateSessionPage UrlModel.URL_parse
              (Some "https://example.com"))
           (state first) (world first))
  = [EvaluateReadyState (mkPage 0)].
Proof. reflexivity. Qed.

(* ================================================================== *)
(** ** [cleanup] *)

Section Cleanup.

Import TabSessionManager.

Context {W : Type} (env : Environment W).

(** With a session page held, [cleanup] closes it, absorbs a failure of
    [close], and clears both fields. *)
Lemma cleanup_with_page (m : t) (w : W) (page : Page) :
  sessionPage m = Some page ->
  let r := run env cleanup m w in
  result r = Ok tt /\
  trace r = [PageClose page] /\
  sessionPage (state r) = None /\
  lastNavigatedUrl (state r) = None.
Proof.
  intros Hheld. unfold run, cleanup; cbn. rewrite Hheld; cbn.
  ask_env. destruct r as [[] | e]; cbn; auto.
Qed.

(** C8, where it fails: with no session page held, [cleanup] returns at
    once and touches nothing, so a last navigated target that is still
    recorded stays recorded. *)
Theorem cleanup_without_page_keeps_target (m : t) (w : W) :
  sessionPage m = None ->
  run env cleanup m w = mkRun (Ok tt) m w [] /\
  lastNavigatedUrl (state (run env cleanup m w)) = lastNavigatedUrl m.
Proof.
  intros Hnone. unfold run, cleanup; cbn. rewrite Hnone; cbn. auto.
Qed.

End Cleanup.

(** After [cleanup] in that state the target is still
    [https://example.com]. *)
Lemma cleanup_without_page_keeps_target_witness :
  TabSessionManager.sessionPage (state afterTabsClosed) = None
  /\ result afterTabsClosed = Ok None
  /\ TabSessionManager.lastNavigatedUrl (state afterCleanup)
     = Some "https://example.com".
Proof.
  split; [reflexivity | split; [reflexivity |]].
  unfold afterCleanup.
  rewrite (proj2 (cleanup_without_page_keeps_target Mock.env
                    (state afterTabsClosed) (world afterTabsClosed) eq_refl)).
  reflexivity.
Defined.

(** What the stale target costs: the next session page is created blank,
    and a request for [https://example.com] only probes it - the page is
    never sent there. *)
Example stale_target_skips_navigation :
  let created :=
    run Mock.env
      (TabSessionManager.getOrCreateSessionPage UrlModel.URL_parse None)
      (state afterCleanup) (world afterCleanup) in
  let asked :=
    run Mock.env
      (TabSessionManager.getOrCreateSessionPage UrlModel.URL_parse
         (Some "https://example.com"))
      (state created) (world created) in
  trace created = [GetActivePage (mkBrowser 0); CreatePage (mkBrowser 0)]
  /\ result created = Ok (Some (mkPage 1))
  /\ trace asked = [EvaluateReadyState (mkPage 1)]
  /\ result asked = Ok (Some (mkPage 1)).
Proof. repeat split; reflexivity. Qed.

(* ================================================================== *)
(** ** The liveness check and the debug-port probe *)

Section Probes.

Import SmartBrowserManager.

Context {W : Type} (env : Environment W).

(** What a run of [isBrowserAlive] amounts to. *)
Lemma run_isBrowserAlive (b : Browser) (m : t) (w : W) :
  run env (isBrowserAlive b) m w =
  mkRun match fst (livenessProbe env b w) with
        | Ok _ => Ok true
        | Throw e => messageIncludes e "No pages available"
        end
        m
        (snd (livenessProbe env b w))
        (GetActivePage b ::
         match fst (env (GetActivePage b) w) with
         | Ok (Some page) => [EvaluateReadyState page]
         | _ => []
         end).
Proof.
  assert (Handler : forall e w0,
    run env (bind (lift (getMember e "message")) (fun errorMessage =>
             bind (lift (callIncludes errorMessage "No pages available"))
                  (fun found => if found then ret true else ret false)))
        m w0
    = mkRun (messageIncludes e "No pages available") m w0 []).
  { intros e w0. unfold run, messageIncludes, bind, lift; cbn.
    destruct (getMember e "message") as [msg | err]; cbn; [| reflexivity].
    destruct (callIncludes msg "No pages available") as [[] | err];
      reflexivity. }
  unfold isBrowserAlive. rewrite run_tryCatch, run_call_bind. cbv zeta.
  unfold livenessProbe.
  destruct (env (GetActivePage b) w) as [[[page |] | e] w1]; cbn [fst snd].
  - rewrite run_call_bind.
    destruct (env (EvaluateReadyState page) w1) as [[[] | e] w2];
      cbn [fst snd after result state world trace].
    + reflexivity.
    + rewrite Handler. reflexivity.
  - cbn. reflexivity.
  - cbn [result state world trace]. rewrite Handler. reflexivity.
Qed.

(** The liveness check reads the fields and writes none. *)
Lemma state_isBrowserAlive (b : Browser) (m : t) (w : W) :
  state (run env (isBrowserAlive b) m w) = m.
Proof. rewrite run_isBrowserAlive. reflexivity. Qed.




(** What a run of [isDebugPortActive] amounts to: the request, the body
    when the status is a success, and the handler's read of
    [error.message] when either failed. *)
Lemma run_isDebugPortActive (m : t) (w : W) :
  run env isDebugPortActive m w =
  let fetch := Fetch (versionEndpoint m) 1000%Z in
  let caught (e : Value) : Result bool :=
    match getMember e "message" with
    | Ok _ => Ok false
    | Throw err => Throw err
    end in
  match env fetch w with
  | (Throw e, w1) => mkRun (caught e) m w1 [fetch]
  | (Ok response, w1) =>
      if ok response then
        match env (ResponseJson response) w1 with
        | (Throw e, w2) => mkRun (caught e) m w2 [fetch; ResponseJson response]
        | (Ok data, w2) =>
            mkRun (Ok match data with JNull => false | _ => true end)
                  m w2 [fetch; ResponseJson response]
        end
      else mkRun (Ok false) m w1 [fetch]
  end.
Proof.
  assert (Handler : forall e w0,
    run env (bind (lift (getMember e "message")) (fun _ => ret false)) m w0
    = mkRun match getMember e "message" with
            | Ok _ => Ok false
            | Throw err => Throw err
            end m w0 []).
  { intros e w0. unfold run, bind, lift; cbn.
    destruct (getMember e "message"); reflexivity. }
  cbv zeta. unfold isDebugPortActive.
  rewrite run_get_bind, run_tryCatch, run_call_bind. cbv zeta.
  destruct (env (Fetch (versionEndpoint m) 1000%Z) w) as [[response | e] w1];
    cbn [fst snd result state world trace].
  2:{ rewrite Handler. reflexivity. }
  destruct (ok response).
  2:{ reflexivity. }
  rewrite run_call_bind.
  destruct (env (ResponseJson response) w1) as [[data | e] w2];
    cbn [fst snd after result state world trace].
  2:{ rewrite Handler. reflexivity. }
  destruct data; reflexivity.
Qed.

(** The probe reads the fields and writes none. *)
Lemma state_isDebugPortActive (m : t) (w : W) :
  state (run env isDebugPortActive m w) = m.
Proof.
  rewrite run_isDebugPortActive. cbv zeta.
  destruct (env _ w) as [[response | e] w1]; [| reflexivity].
  destruct (ok response); [| reflexivity].
  destruct (env _ w1) as [[data | e] w2]; reflexivity.
Qed.

Lemma getMember_throws (e : Value) (key : string) :
  (exists err, getMember e key = Throw err) <-> Nullish e.
Proof.
  unfold Nullish. destruct e; cbn; split;
    try (intros [err H]; discriminate);
    try (intros [H | H]; discriminate);
    eauto.
Qed.

Lemma ok_iff (response : Response) :
  ok response = true <-> (200 <= status response <= 299)%Z.
Proof.
  unfold ok. rewrite andb_true_iff, !Z.leb_le. reflexivity.
Qed.

(** The three outcomes of the port probe. *)
Lemma isDebugPortActive_outcomes (m : t) (w : W) :
  state (run env isDebugPortActive m w) = m /\
  (result (run env isDebugPortActive m w) = Ok true <->
   exists response w1 data w2,
     env (Fetch (versionEndpoint m) 1000%Z) w = (Ok response, w1) /\
     (200 <= status response <= 299)%Z /\
     env (ResponseJson response) w1 = (Ok data, w2) /\
     data <> JNull) /\
  ((exists err, result (run env isDebugPortActive m w) = Throw err) <->
   exists e, Nullish e /\
     (fst (env (Fetch (versionEndpoint m) 1000%Z) w) = Throw e \/
      exists response w1,
        env (Fetch (versionEndpoint m) 1000%Z) w = (Ok response, w1) /\
        (200 <= status response <= 299)%Z /\
        fst (env (ResponseJson response) w1) = Throw e)).
Proof.
  split; [apply state_isDebugPortActive |].
  rewrite run_isDebugPortActive. cbv zeta.
  destruct (env (Fetch (versionEndpoint m) 1000%Z) w)
    as [[response | e] w1] eqn:Ef.
  2:{ pose proof (getMember_throws e "message") as Hn.
      destruct (getMember e "message") as [msg | err]; cbn [result fst].
      - split.
        + split; [discriminate |].
          intros (resp & wa & d & wb & H & _). discriminate.
        + split; [intros [err H]; discriminate |].
          intros (e' & Hnull & [H | (resp & wa & H & _)]);
            [| discriminate].
          injection H as <-. apply Hn in Hnull as [err H]. discriminate.
      - split.
        + split; [discriminate |].
          intros (resp & wa & d & wb & H & _). discriminate.
        + split; [| eauto]. intros _. exists e. split; [| now left].
          apply Hn. eauto. }
  pose proof (ok_iff response) as Hok.
  destruct (ok response).
  2:{ cbn [result fst]. split.
      - split; [discriminate |].
        intros (resp & wa & d & wb & H & Hs & _).
        injection H as <- <-. apply Hok in Hs. discriminate.
      - split; [intros [err H]; discriminate |].
        intros (e' & _ & [H | (resp & wa & H & Hs & _)]);
          [discriminate |].
        injection H as <- <-. apply Hok in Hs. discriminate. }
  assert (Hs : (200 <= status response <= 299)%Z) by now apply Hok.
  destruct (env (ResponseJson response) w1) as [[data | e] w2] eqn:Ej.
  - cbn [result fst]. split.
    + split.
      * intros H. exists response, w1, data, w2. repeat split; try apply Hs;
          try assumption.
        intros ->. discriminate.
      * intros (resp & wa & d & wb & H & _ & Hj & Hd).
        injection H as <- <-. rewrite Ej in Hj. injection Hj as <- <-.
        destruct data; congruence.
    + split; [intros [err H]; discriminate |].
      intros (e' & _ & [H | (resp & wa & H & _ & Hj)]); [discriminate |].
      injection H as <- <-. rewrite Ej in Hj. discriminate.
  - pose proof (getMember_throws e "message") as Hn.
    destruct (getMember e "message") as [msg | err]; cbn [result fst].
    + split.
      * split; [discriminate |].
        intros (resp & wa & d & wb & H & _ & Hj & _).
        injection H as <- <-. rewrite Ej in Hj. discriminate.
      * split; [intros [err H]; discriminate |].
        intros (e' & Hnull & [H | (resp & wa & H & _ & Hj)]);
          [discriminate |].
        injection H as <- <-. rewrite Ej in Hj. cbn in Hj.
        injection Hj as <-. apply Hn in Hnull as [err H]. discriminate.
    + split.
      * split; [discriminate |].
        intros (resp & wa & d & wb & H & _ & Hj & _).
        injection H as <- <-. rewrite Ej in Hj. discriminate.
      * split; [| eauto]. intros _. exists e. split; [apply Hn; eauto |].
        right. exists response, w1. rewrite Ej. auto.
Qed.


(** With failures that are not [null] or [undefined] - every [Error] -
    the port probe never throws. *)
Corollary isDebugPortActive_on_errors (m : t) (w : W) :
  (forall c w0 e w1, env c w0 = (Throw e, w1) -> ~ Nullish e) ->
  exists active,
    result (run env isDebugPortActive m w) = Ok active /\
    (active = true <->
     exists response w1 data w2,
       env (Fetch (versionEndpoint m) 1000%Z) w = (Ok response, w1) /\
       (200 <= status response <= 299)%Z /\
       env (ResponseJson response) w1 = (Ok data, w2) /\
       data <> JNull).
Proof.
  intros Herr.
  destruct (isDebugPortActive_outcomes m w) as (_ & Htrue & Hthrow).
  destruct (result (run env isDebugPortActive m w)) as [active | err].
  - exists active. split; [reflexivity |]. rewrite <- Htrue.
    split; congruence.
  - exfalso. destruct (proj1 Hthrow) as (e & Hnull & Hwhere); [eauto |].
    destruct Hwhere as [H | (response & w1 & _ & _ & H)].
    + destruct (env (Fetch (versionEndpoint m) 1000%Z) w) as [r0 w0] eqn:E.
      cbn in H. subst r0. exact (Herr _ _ _ _ E Hnull).
    + destruct (env (ResponseJson response) w1) as [r0 w0] eqn:E.
      cbn in H. subst r0. exact (Herr _ _ _ _ E Hnull).
Qed.

(** With failures that are [Error]s, the liveness check never throws: it
    answers true exactly when the probe succeeds or the error's message
    contains "No pages available". *)
Corollary isBrowserAlive_on_errors (b : Browser) (m : t) (w : W) :
  (forall c w0 e w1, env c w0 = (Throw e, w1) -> exists text, e = mkError text) ->
  exists alive,
    result (run env (isBrowserAlive b) m w) = Ok alive /\
    (alive = true <->
     fst (livenessProbe env b w) = Ok tt \/
     exists text,
       fst (livenessProbe env b w) = Throw (mkError text) /\
       Contains text "No pages available").
Proof.
  intros Herr.
  assert (Hprobe : forall e, fst (livenessProbe env b w) = Throw e ->
                             exists text, e = mkError text).
  { unfold livenessProbe.
    destruct (env (GetActivePage b) w) as [[[page |] | e0] w1] eqn:E1.
    - destruct (env (EvaluateReadyState page) w1) as [r0 w2] eqn:E2.
      cbn. intros e ->. exact (Herr _ _ _ _ E2).
    - cbn. intros e H. injection H as <-. eauto.
    - cbn. intros e H. injection H as <-. exact (Herr _ _ _ _ E1). }
  rewrite run_isBrowserAlive. cbn [result].
  destruct (fst (livenessProbe env b w)) as [[] | e].
  - exists true. split; [reflexivity |]. split; auto.
  - destruct (Hprobe e eq_refl) as [text ->].
    exists (includes text "No pages available"). split; [reflexivity |].
    rewrite includes_iff. split.
    + intros H. right. exists text. auto.
    + intros [H | (text' & H & Hc)]; [discriminate |].
      injection H as <-. exact Hc.
Qed.

End Probes.

(** A browser with no tab open counts as alive; one whose only answer is
    another error does not. *)
Example isBrowserAlive_empty_browser :
  result (run Mock.env (SmartBrowserManager.isBrowserAlive (mkBrowser 0))
              defaultManager Mock.empty) = Ok true.
Proof. reflexivity. Qed.

Example isBrowserAlive_crashed_browser :
  result (run crashed (SmartBrowserManager.isBrowserAlive (mkBrowser 0))
              defaultManager Mock.empty) = Ok false.
Proof. reflexivity. Qed.



(** The examples of the specification: nothing listening, then an
    endpoint answering 200 with the version document. *)
Example isDebugPortActive_nothing_listening :
  result (run Mock.env SmartBrowserManager.isDebugPortActive defaultManager
              Mock.empty) = Ok false.
Proof. reflexivity. Qed.

Example isDebugPortActive_endpoint_up :
  let r := run Mock.env SmartBrowserManager.isDebugPortActive defaultManager
               (Mock.serving 200 (Some versionBody) Mock.empty) in
  result r = Ok true
  /\ trace r = [Fetch "http://127.0.0.1:9222/json/version" 1000%Z;
                ResponseJson (mkResponse 0 200)].
Proof. split; reflexivity. Qed.

(* ================================================================== *)
(** ** [closeBrowser] *)

Section CloseBrowser.

Import SmartBrowserManager.

Context {W : Type} (env : Environment W).

(** C5: [closeBrowser(force)] never throws.  With no handle held it does
    nothing.  With an external handle and [force = false] it clears the
    local reference and the external flag and makes no call.  In
    persistent mode, with a handle that is not external and
    [force = false], it makes no call and keeps the fields as they are.
    In every remaining case - [force = true], or a handle that is neither
    external nor kept by persistent mode - it calls [close] on the held
    browser exactly once and then clears the local state, whether [close]
    returned or threw. *)
Theorem closeBrowser_contract (force : bool) (m : t) (w : W) :
  let r := run env (closeBrowser force) m w in
  result r = Ok tt
  /\
  (browser m = None -> state r = m /\ world r = w /\ trace r = [])
  /\
  (forall held, browser m = Some held ->
     isConnectedToExternal m = true -> force = false ->
     state r = cleared m /\ world r = w /\ trace r = [])
  /\
  (forall held, browser m = Some held ->
     isConnectedToExternal m = false -> persistentMode m = true ->
     force = false ->
     state r = m /\ world r = w /\ trace r = [])
  /\
  (forall held, browser m = Some held ->
     force = true \/
     (isConnectedToExternal m = false /\ persistentMode m = false) ->
     state r = cleared m /\
     world r = snd (env (BrowserClose held) w) /\
     trace r = [BrowserClose held]).
Proof.
  cbv zeta. unfold run, closeBrowser, cleared; cbn.
  destruct (browser m) as [b |] eqn:Hb; cbn.
  2:{ split; [reflexivity |]. split; [auto |].
      repeat split; intros; discriminate. }
  destruct (isConnectedToExternal m) eqn:Hext;
  destruct (persistentMode m) eqn:Hper;
  destruct force; cbn;
    try (ask_env; destruct r as [[] | e]; cbn);
    (split; [reflexivity |]);
    (split; [discriminate |]);
    (split; [intros held H; injection H as <-; intros; try discriminate; auto |]);
    (split; [intros held H; injection H as <-; intros; try discriminate; auto |]);
    intros held H; injection H as <-;
    intros [Hf | [He Hp]]; try discriminate; try rewrite E; auto.
Qed.

End CloseBrowser.

(** The examples of the specification, on the scripted browser:
    [closeBrowser(false)] on an attached handle makes no call and clears
    the local state; [closeBrowser(true)] calls [close]. *)
Lemma closeBrowser_contract_witness :
  let external := holding (mkBrowser 7) true defaultManager in
  let kept := run Mock.env (SmartBrowserManager.closeBrowser false)
                  external Mock.empty in
  let forced := run Mock.env (SmartBrowserManager.closeBrowser true)
                    external Mock.empty in
  (trace kept = [] /\ SmartBrowserManager.browser (state kept) = None)
  /\ trace forced = [BrowserClose (mkBrowser 7)]
  /\ SmartBrowserManager.browser (state forced) = None.
Proof.
  cbv zeta.
  pose proof (closeBrowser_contract Mock.env false
                (holding (mkBrowser 7) true defaultManager) Mock.empty) as Hk.
  pose proof (closeBrowser_contract Mock.env true
                (holding (mkBrowser 7) true defaultManager) Mock.empty) as Hf.
  cbv zeta in Hk, Hf.
  destruct Hk as (_ & _ & Hk & _ & _).
  destruct Hf as (_ & _ & _ & _ & Hf).
  destruct (Hk (mkBrowser 7) eq_refl eq_refl eq_refl) as (Hks & _ & Hkt).
  destruct (Hf (mkBrowser 7) eq_refl (or_introl eq_refl)) as (Hfs & _ & Hft).
  rewrite Hks, Hfs.
  repeat split; assumption || reflexivity.
Defined.

(* ================================================================== *)
(** ** The singleton *)

Section Singleton.

Import SmartBrowserManager.

(** While an instance is set, [getInstance] returns it and constructs
    nothing, whatever configuration it is passed. *)
Lemma getInstance_existing (config : option SmartBrowserConfig)
    (cls : Class) (r : nat) :
  instance cls = Some r -> getInstance config cls = (r, cls).
Proof. intros H. unfold getInstance. rewrite H. reflexivity. Qed.

(** With no instance set, [getInstance] constructs one from its
    configuration, at a reference not used before. *)
Lemma getInstance_constructs (config : option SmartBrowserConfig) (cls : Class) :
  instance cls = None ->
  let r := fst (getInstance config cls) in
  let cls' := snd (getInstance config cls) in
  r = length (objects cls) /\
  instance cls' = Some r /\
  nth_error (objects cls') r = Some (new (configOrDefault config)) /\
  (forall i, (i < length (objects cls))%nat ->
             nth_error (objects cls') i = nth_error (objects cls) i).
Proof.
  intros H. unfold getInstance. rewrite H. cbn.
  repeat split.
  - rewrite nth_error_app2, Nat.sub_diag by lia.
    destruct config; reflexivity.
  - intros i Hi. now rewrite nth_error_app1.
Qed.

(** C10: starting with no instance set, [getInstance(c1)] followed by
    [getInstance(c2)] returns the same reference both times, the second
    call changes nothing, and the object is the one constructed from [c1];
    more generally no call of [getInstance] constructs anything while an
    instance is set.  After [resetInstance()], [getInstance(c2)] constructs
    a new object from [c2] at a reference different from the first, whose
    object is left as it was. *)
Theorem getInstance_ignores_later_config
    (c1 c2 : option SmartBrowserConfig) (cls : Class) :
  instance cls = None ->
  let first := getInstance c1 cls in
  let second := getInstance c2 (snd first) in
  let afterReset := getInstance c2 (resetInstance (snd second)) in
  fst second = fst first /\
  snd second = snd first /\
  nth_error (objects (snd second)) (fst second)
    = Some (new (configOrDefault c1)) /\
  (forall c held cls', instance cls' = Some held ->
                       getInstance c cls' = (held, cls')) /\
  fst afterReset <> fst first /\
  instance (snd afterReset) = Some (fst afterReset) /\
  nth_error (objects (snd afterReset)) (fst afterReset)
    = Some (new (configOrDefault c2)) /\
  nth_error (objects (snd afterReset)) (fst first)
    = Some (new (configOrDefault c1)).
Proof.
  intros Hnone. cbv zeta.
  destruct (getInstance_constructs c1 cls Hnone) as (Hr & Hi & Hobj & _).
  cbv zeta in Hr, Hi, Hobj.
  destruct (getInstance c1 cls) as [r1 cls1] eqn:E1. cbn [fst snd] in *.
  rewrite (getInstance_existing c2 cls1 r1 Hi). cbn [fst snd].
  split; [reflexivity |]. split; [reflexivity |]. split; [exact Hobj |].
  split; [intros c held cls'; apply getInstance_existing |].
  assert (Hreset : instance (resetInstance cls1) = None) by reflexivity.
  destruct (getInstance_constructs c2 (resetInstance cls1) Hreset)
    as (Hr3 & Hi3 & Hobj3 & Hold).
  cbv zeta in Hr3, Hi3, Hobj3, Hold.
  destruct (getInstance c2 (resetInstance cls1)) as [r3 cls3] eqn:E3.
  cbn [fst snd resetInstance objects] in *.
  assert (Hlt : (r1 < length (objects cls1))%nat).
  { apply nth_error_Some. rewrite Hobj. discriminate. }
  split; [lia |]. split; [exact Hi3 |]. split; [exact Hobj3 |].
  rewrite Hold by exact Hlt. exact Hobj.
Qed.

End Singleton.

(** [getInstance({debugPort: 9333})] then [getInstance({debugPort: 9444})]:
    one object, on port 9333; after a reset, another one on port 9444. *)
Lemma getInstance_ignores_later_config_witness :
  let first := SmartBrowserManager.getInstance (onPort 9333) noInstance in
  let second := SmartBrowserManager.getInstance (onPort 9444) (snd first) in
  let afterReset :=
    SmartBrowserManager.getInstance (onPort 9444)
      (SmartBrowserManager.resetInstance (snd second)) in
  fst second = fst first
  /\ option_map SmartBrowserManager.debugPort
       (nth_error (SmartBrowserManager.objects (snd second)) (fst second))
     = Some 9333%N
  /\ fst afterReset <> fst first
  /\ option_map SmartBrowserManager.debugPort
       (nth_error (SmartBrowserManager.objects (snd afterReset)) (fst afterReset))
     = Some 9444%N.
Proof.
  cbv zeta.
  pose proof (getInstance_ignores_later_config (onPort 9333) (onPort 9444)
                noInstance eq_refl) as H.
  cbv zeta in H.
  destruct H as (H1 & _ & H2 & _ & H3 & _ & H4 & _).
  rewrite H2, H4.
  repeat split; assumption || reflexivity.
Defined.

(* ================================================================== *)
(** ** [getOrCreateBrowser] *)

Section GetOrCreateBrowser.

Import SmartBrowserManager.

Context {W : Type} (env : Environment W).

(** Attaching: a remote browser object is constructed for the version
    endpoint and launched with the configured options; when both calls
    return, the manager holds it, marked external. *)
Lemma run_attachExternal (m : t) (w : W) :
  let r := run env attachExternal m w in
  match result r with
  | Ok res =>
      mode res = attached /\ isNewInstance res = true /\
      state r = holding (result_browser res) true m /\
      trace r = [NewRemoteBrowser (versionEndpoint m);
                 Launch (result_browser res) (launchOptions m)]
  | Throw _ => state r = m
  end.
Proof.
  unfold run, attachExternal, connectToExisting; cbn.
  ask_env. destruct r as [b | e]; cbn; [| reflexivity].
  ask_env. destruct r as [[] | e]; cbn; auto.
Qed.

(** Launching: the optional notification, then one local browser object,
    launched with the debug port among its arguments; when the calls
    return, the manager holds it, marked not external. *)
Lemma run_launchNew (m : t) (w : W) :
  let r := run env launchNew m w in
  match result r with
  | Ok res =>
      mode res = launched /\ isNewInstance res = true /\
      state r = holding (result_browser res) false m /\
      trace r = ((if onBrowserLaunch m then [OnBrowserLaunch] else [])
                 ++ [NewLocalBrowser;
                     Launch (result_browser res) (launchArguments m)])%list
  | Throw _ => state r = m
  end.
Proof.
  unfold run, launchNew, launchWithDebugPort, launchArguments; cbn.
  destruct (onBrowserLaunch m); cbn.
  - ask_env. destruct r as [[] | e]; cbn; [| reflexivity].
    ask_env. destruct r as [b | e]; cbn; [| reflexivity].
    ask_env. destruct r as [[] | e]; cbn; auto.
  - ask_env. destruct r as [b | e]; cbn; [| reflexivity].
    ask_env. destruct r as [[] | e]; cbn; auto.
Qed.



(** The decision of [getOrCreateBrowser], in terms of its two probes. *)
Lemma run_getOrCreateBrowser (m : t) (w : W) :
  let port := run env isDebugPortActive m w in
  let live held := run env (isBrowserAlive held) m (world port) in
  run env getOrCreateBrowser m w =
  match result port, browser m with
  | Ok true, Some held =>
      if isConnectedToExternal m then
        match result (live held) with
        | Ok true =>
            mkRun (Ok (mkResult held reused false)) m (world (live held))
                  (trace port ++ trace (live held))%list
        | Ok false =>
            after (trace port ++ trace (live held))
                  (run env attachExternal m (world (live held)))
        | Throw e =>
            mkRun (Throw e) m (world (live held))
                  (trace port ++ trace (live held))%list
        end
      else after (trace port) (run env attachExternal m (world port))
  | Ok true, None => after (trace port) (run env attachExternal m (world port))
  | Ok false, Some held =>
      if isConnectedToExternal m then
        after (trace port) (run env launchNew m (world port))
      else
        match result (live held) with
        | Ok true =>
            mkRun (Ok (mkResult held reused false)) m (world (live held))
                  (trace port ++ trace (live held))%list
        | Ok false =>
            after (trace port ++ trace (live held))
                  (run env launchNew (set_browser None m) (world (live held)))
        | Throw e =>
            mkRun (Throw e) m (world (live held))
                  (trace port ++ trace (live held))%list
        end
  | Ok false, None => after (trace port) (run env launchNew m (world port))
  | Throw e, _ => mkRun (Throw e) m (world port) (trace port)
  end.
Proof.
  cbv zeta. unfold getOrCreateBrowser at 1.
  pose proof (state_isDebugPortActive env m w) as Hst.
  rewrite run_bind. cbv zeta. rewrite Hst.
  set (port := run env isDebugPortActive m w) in *.
  destruct (result port) as [active | e]; [| reflexivity].
  rewrite run_get_bind.
  destruct active, (browser m) as [held |], (isConnectedToExternal m);
    cbn [negb]; try reflexivity.
  - rewrite run_bind. cbv zeta.
    rewrite (state_isBrowserAlive env held m (world port)).
    destruct (result (run env (isBrowserAlive held) m (world port)))
      as [[] | e]; unfold after; rewrite ?run_ret;
      cbn [result state world trace];
      rewrite ?app_nil_r, ?app_assoc; reflexivity.
  - rewrite run_bind. cbv zeta.
    rewrite (state_isBrowserAlive env held m (world port)).
    destruct (result (run env (isBrowserAlive held) m (world port)))
      as [[] | e]; unfold after; rewrite ?run_ret, ?run_modify_bind;
      cbn [result state world trace];
      rewrite ?app_nil_r, ?app_assoc; reflexivity.
Qed.




End GetOrCreateBrowser.



(** With nothing listening and no handle held, one browser is launched,
    with the debug port among its arguments. *)
Example getOrCreateBrowser_launches_once :
  let r := run Mock.env SmartBrowserManager.getOrCreateBrowser defaultManager
               Mock.empty in
  result r = Ok (SmartBrowserManager.mkResult (mkBrowser 0)
                   SmartBrowserManager.launched true)
  /\ trace r = [Fetch "http://127.0.0.1:9222/json/version" 1000%Z;
                NewLocalBrowser;
                Launch (mkBrowser 0)
                       (mkLaunch (Some ["--remote-debugging-port=9222"])
                                 None [])].
Proof. split; reflexivity. Qed.

(* ================================================================== *)
(** ** Further properties of the tab-session manager *)

Section TabSessionFurther.

Import TabSessionManager.

Context {W : Type} (env : Environment W).
Variable newURL : URLParser.

Lemma toLowerCase_app (a b : string) :
  toLowerCase (a ++ b) = toLowerCase a ++ toLowerCase b.
Proof. induction a as [| c a IH]; simpl; [| rewrite IH]; reflexivity. Qed.

(** X1: the result of [normalizeUrl] always starts with [http://] or
    [https://] (in any letter case), so normalizing twice is the same as
    normalizing once. *)
Theorem normalizeUrl_idempotent (url : string) :
  HasHttpPrefix (normalizeUrl url) /\
  normalizeUrl (normalizeUrl url) = normalizeUrl url.
Proof.
  assert (H : HasHttpPrefix (normalizeUrl url)).
  { unfold normalizeUrl, testPrefixI.
    destruct (startsWith (toLowerCase url) "http://") eqn:H1; cbn [orb negb].
    - apply startsWith_iff in H1 as [rest H1]. exists rest. now left.
    - destruct (startsWith (toLowerCase url) "https://") eqn:H2; cbn [negb].
      + apply startsWith_iff in H2 as [rest H2]. exists rest. now right.
      + exists (toLowerCase url). right.
        rewrite toLowerCase_app. reflexivity. }
  split; [exact H |].
  now apply normalizeUrl_prefix.
Qed.

(** X2: [isSessionPageValid()] never throws and makes at most one call, a
    probe of the held page.  When it answers true the fields are
    unchanged and a page is held; when it answers false no page is held
    afterwards, and the last navigated target is left as it was. *)
Theorem isSessionPageValid_outcome (m : t) (w : W) :
  let r := run env isSessionPageValid m w in
  exists valid,
    result r = Ok valid /\
    (length (trace r) <= 1)%nat /\
    lastNavigatedUrl (state r) = lastNavigatedUrl m /\
    if valid
    then state r = m /\ sessionPage m <> None
    else sessionPage (state r) = None.
Proof.
  cbv zeta. rewrite run_isSessionPageValid.
  destruct (sessionPage m) as [page |] eqn:Hheld; cbv zeta.
  - destruct (fst (env (EvaluateReadyState page) w)); cbn.
    + exists true. repeat split; auto. congruence.
    + exists false. repeat split; auto.
  - exists false. cbn. repeat split; auto.
Qed.

(** X3: [getCurrentUrl()] never throws.  It returns a URL only when a
    session page is held, the probe of that page succeeds and the page
    then reports its URL, and in that case the fields are unchanged.  With
    no session page held it makes no call; when the probe fails it answers
    [null] and drops the page. *)
Theorem getCurrentUrl_total (m : t) (w : W) :
  let r := run env getCurrentUrl m w in
  exists answer,
    result r = Ok answer /\
    (forall url, answer = Some url ->
       exists page,
         sessionPage m = Some page /\
         fst (env (EvaluateReadyState page) w) = Ok tt /\
         fst (env (PageUrl page) (snd (env (EvaluateReadyState page) w)))
           = Ok url /\
         state r = m /\
         trace r = [EvaluateReadyState page; PageUrl page]) /\
    (sessionPage m = None -> answer = None /\ trace r = [] /\ state r = m) /\
    (forall page e,
       sessionPage m = Some page ->
       fst (env (EvaluateReadyState page) w) = Throw e ->
       answer = None /\ sessionPage (state r) = None /\
       trace r = [EvaluateReadyState page]).
Proof.
  cbv zeta. unfold run, getCurrentUrl, isSessionPageValid; cbn.
  destruct (sessionPage m) as [page |] eqn:Hheld; cbn.
  2:{ exists None. repeat split; try discriminate; intros; discriminate. }
  ask_env. destruct r as [[] | e]; cbn.
  - rewrite Hheld; cbn.
    ask_env. destruct r as [url | e]; cbn.
    + exists (Some url). split; [reflexivity |]. split; [| split].
      * intros u Hu. injection Hu as <-. exists page.
        rewrite E. cbn. rewrite E0. repeat split; reflexivity.
      * discriminate.
      * intros p e Hp He. injection Hp as <-. rewrite E in He. discriminate.
    + exists None. split; [reflexivity |]. split; [| split].
      * discriminate.
      * discriminate.
      * intros p e' Hp He. injection Hp as <-. rewrite E in He. discriminate.
  - exists None. split; [reflexivity |]. split; [| split].
    + discriminate.
    + discriminate.
    + intros p e' Hp He. injection Hp as <-. auto.
Qed.

(** X4: [findReusablePage()] never throws, leaves the fields alone and
    only inspects the browser (it creates, navigates and closes nothing).
    Under [always_new] it makes no call at all.  A page is found only when
    it is the browser's active page, its probe succeeded and it reported
    its URL. *)
Theorem findReusablePage_outcome (m : t) (w : W) :
  let r := run env findReusablePage m w in
  state r = m /\
  Forall inspects (trace r) /\
  (strategy m = always_new -> result r = Ok None /\ trace r = []) /\
  exists found,
    result r = Ok found /\
    (forall page, found = Some page ->
       let ask := GetActivePage (browser m) in
       let probe := EvaluateReadyState page in
       strategy m <> always_new /\
       fst (env ask w) = Ok (Some page) /\
       fst (env probe (snd (env ask w))) = Ok tt /\
       (exists url, fst (env (PageUrl page) (snd (env probe (snd (env ask w)))))
                    = Ok url) /\
       trace r = [ask; probe; PageUrl page]).
Proof.
  cbv zeta. unfold run, findReusablePage; cbn.
  destruct (strategy m) eqn:Hs; cbn.
  3:{ repeat split; auto. exists None. split; [reflexivity | discriminate]. }
  all: split; [ask_env; destruct r as [[page |] | e]; cbn;
                [ask_env; destruct r as [[] | e]; cbn;
                 [ask_env; destruct r as [u | e]; cbn |] | |]; reflexivity |].
  all: split; [ask_env; destruct r as [[page |] | e]; cbn;
                [ask_env; destruct r as [[] | e]; cbn;
                 [ask_env; destruct r as [u | e]; cbn |] | |];
                repeat constructor |].
  all: split; [discriminate |].
  all: ask_env; destruct r as [[page |] | e]; cbn;
       [ask_env; destruct r as [[] | e]; cbn;
        [ask_env; destruct r as [u | e]; cbn |] | |];
       eexists; (split; [reflexivity |]); intros p Hp; try discriminate.
  all: injection Hp as <-; cbn; rewrite ?E0; cbn; rewrite ?E1; cbn;
       repeat split; try discriminate; eauto.
Qed.

(** The end of every branch of [getOrCreateSessionPage]: navigate if
    asked to, then return the session page. *)
Lemma run_navigate_and_return (c : bool) (url : string) (s : t) (w : W)
    (page : Page) :
  sessionPage s = Some page ->
  run env (bind (when c (navigateTo url)) (fun _ => returnSessionPage)) s w =
  if c then
    let goto := Goto page (normalizeUrl url) settle30s in
    match fst (env goto w) with
    | Ok _ =>
        mkRun (Ok (Some page))
              (set_lastNavigatedUrl (Some (normalizeUrl url)) s)
              (snd (env goto w)) [goto]
    | Throw e => mkRun (Throw e) s (snd (env goto w)) [goto]
    end
  else mkRun (Ok (Some page)) s w [].
Proof.
  intros Hheld. destruct c; cbn [when].
  - rewrite run_bind, run_navigateTo, Hheld. cbv zeta.
    destruct (fst (env _ w)); cbn; [rewrite Hheld |]; reflexivity.
  - unfold run, returnSessionPage; cbn. rewrite Hheld. reflexivity.
Qed.

(** The three ways [getOrCreateSessionPage] comes to its session page. *)
Lemma run_getOrCreateSessionPage (initialUrl : option string) (m : t) (w : W) :
  let url := match initialUrl with Some u => u | None => "" end in
  let finish c := bind (when c (navigateTo url)) (fun _ => returnSessionPage) in
  let valid := run env isSessionPageValid m w in
  let found := run env findReusablePage (state valid) (world valid) in
  let create := CreatePage (browser m) in
  run env (getOrCreateSessionPage newURL initialUrl) m w =
  match result valid with
  | Ok true =>
      after (trace valid)
            (run env
               (finish (truthy initialUrl &&
                        shouldNavigateToUrl newURL (lastNavigatedUrl m) url))
               m (world valid))
  | _ =>
      match result found with
      | Ok (Some page) =>
          after (trace valid ++ trace found)
                (run env (finish (truthy initialUrl))
                     (set_sessionPage (Some page) (state valid)) (world found))
      | _ =>
          match fst (env create (world found)) with
          | Ok page =>
              after (trace valid ++ trace found ++ [create])
                    (run env (finish (truthy initialUrl))
                         (set_sessionPage (Some page) (state valid))
                         (snd (env create (world found))))
          | Throw e =>
              mkRun (Throw e) (state valid) (snd (env create (world found)))
                    (trace valid ++ trace found ++ [create])
          end
      end
  end.
Proof.
  cbv zeta. unfold getOrCreateSessionPage at 1.
  rewrite run_bind. cbv zeta.
  assert (Hv : (result (run env isSessionPageValid m w) = Ok true /\
                state (run env isSessionPageValid m w) = m) \/
               (result (run env isSessionPageValid m w) = Ok false /\
                browser (state (run env isSessionPageValid m w)) = browser m)).
  { rewrite run_isSessionPageValid.
    destruct (sessionPage m); cbv zeta; [| right; split; reflexivity].
    destruct (fst (env _ w)); [left | right]; split; reflexivity. }
  destruct Hv as [[Hv Hst] | [Hv Hb]]; rewrite Hv.
  - rewrite Hst, run_get_bind. reflexivity.
  - destruct (run_findReusablePage env
                (state (run env isSessionPageValid m w))
                (world (run env isSessionPageValid m w)))
      as (Hfs & [found Hf] & _).
    rewrite run_bind. cbv zeta. rewrite Hf, Hfs.
    destruct found as [page |].
    + rewrite run_modify_bind. unfold after. cbn [result state world trace].
      rewrite app_assoc. reflexivity.
    + rewrite run_get_bind, run_call_bind, Hb.
      destruct (fst (env (CreatePage (browser m)) _)) as [page | e].
      * rewrite run_modify_bind. unfold after.
        cbn [result state world trace].
        rewrite <- !app_assoc. reflexivity.
      * cbn [result state world trace]. reflexivity.
Qed.

(** X5: while the session page answers its probe,
    [getOrCreateSessionPage] makes no other call than that probe and at
    most one [goto] on that same page: it never asks the browser for a
    page and never creates one.  The page stays the session page and is
    what the call returns. *)
Theorem getOrCreateSessionPage_keeps_valid_page
    (initialUrl : option string) (m : t) (w : W) (page : Page) :
  sessionPage m = Some page ->
  fst (env (EvaluateReadyState page) w) = Ok tt ->
  let r := run env (getOrCreateSessionPage newURL initialUrl) m w in
  Forall (fun c => c = EvaluateReadyState page \/
                   exists url, c = Goto page url settle30s) (trace r) /\
  (length (trace r) <= 2)%nat /\
  sessionPage (state r) = Some page /\
  (forall p, result r = Ok p -> p = Some page).
Proof.
  intros Hheld Hprobe. cbv zeta.
  rewrite run_getOrCreateSessionPage. cbv zeta.
  rewrite run_isSessionPageValid, Hheld. cbv zeta. rewrite Hprobe.
  cbn [result state world trace].
  rewrite (run_navigate_and_return _ _ _ _ page Hheld).
  destruct (truthy initialUrl && _); cbv zeta.
  - destruct (fst (env (Goto page _ settle30s) _)); cbn;
      (split; [repeat constructor; eauto |]);
      (split; [lia |]); (split; [assumption |]);
      intros p Hp; congruence.
  - cbn. split; [repeat constructor; eauto |].
    split; [lia |]. split; [assumption |]. intros p Hp; congruence.
Qed.

(** What [findReusablePage] does when the active page is fit for reuse. *)
Lemma run_findReusablePage_found (m : t) (w : W) (page : Page) :
  strategy m <> always_new ->
  let ask := GetActivePage (browser m) in
  let probe := EvaluateReadyState page in
  let w1 := snd (env ask w) in
  let w2 := snd (env probe w1) in
  fst (env ask w) = Ok (Some page) ->
  fst (env probe w1) = Ok tt ->
  (exists url, fst (env (PageUrl page) w2) = Ok url) ->
  run env findReusablePage m w =
  mkRun (Ok (Some page)) m (snd (env (PageUrl page) w2))
        [ask; probe; PageUrl page].
Proof.
  intros Hs. cbv zeta. intros Hask Hprobe [url Hurl].
  unfold run, findReusablePage; cbn.
  destruct (strategy m); try congruence; cbn.
  all: destruct (env (GetActivePage (browser m)) w) as [r1 w1];
       cbn in *; subst r1; cbn;
       destruct (env (EvaluateReadyState page) w1) as [r2 w2];
       cbn in *; subst r2; cbn;
       destruct (env (PageUrl page) w2) as [r3 w3];
       cbn in *; subst r3; cbn; reflexivity.
Qed.

(** X6: when no valid session page is held (none, or one that failed its
    probe), the strategy is not [always_new], and the browser's active
    page answers its probe and reports its URL, [getOrCreateSessionPage]
    adopts that page instead of creating one.  If a non-empty URL was
    passed the adopted page is sent there, whatever the last navigated
    target was. *)
Theorem getOrCreateSessionPage_adopts_active_page
    (initialUrl : option string) (m : t) (w : W) (page : Page) :
  let url := match initialUrl with Some u => u | None => "" end in
  let valid := run env isSessionPageValid m w in
  let ask := GetActivePage (browser m) in
  let probe := EvaluateReadyState page in
  let w1 := snd (env ask (world valid)) in
  let w2 := snd (env probe w1) in
  result valid = Ok false ->
  strategy m <> always_new ->
  fst (env ask (world valid)) = Ok (Some page) ->
  fst (env probe w1) = Ok tt ->
  (exists u, fst (env (PageUrl page) w2) = Ok u) ->
  let r := run env (getOrCreateSessionPage newURL initialUrl) m w in
  trace r = (trace valid ++ [ask; probe; PageUrl page] ++
             if truthy initialUrl
             then [Goto page (normalizeUrl url) settle30s] else [])%list /\
  sessionPage (state r) = Some page /\
  (forall p, result r = Ok p -> p = Some page).
Proof.
  cbv zeta. intros Hv Hs Hask Hprobe Hurl.
  assert (Hfields : browser (state (run env isSessionPageValid m w)) = browser m
                    /\ strategy (state (run env isSessionPageValid m w))
                       = strategy m).
  { rewrite run_isSessionPageValid.
    destruct (sessionPage m); cbv zeta; [| split; reflexivity].
    destruct (fst (env _ w)); split; reflexivity. }
  destruct Hfields as [Hb Hstrat].
  rewrite run_getOrCreateSessionPage. cbv zeta. rewrite Hv.
  rewrite (run_findReusablePage_found _ _ page);
    rewrite ?Hb, ?Hstrat; auto.
  cbn [result state world trace].
  rewrite (run_navigate_and_return _ _ (set_sessionPage (Some page) _) _ page
             eq_refl).
  destruct (truthy initialUrl); cbv zeta.
  - destruct (fst (env (Goto page _ settle30s) _));
      cbn [after result state world trace];
      (split; [rewrite <- app_assoc; reflexivity |]);
      (split; [reflexivity |]);
      intros p Hp; congruence.
  - cbn [after result state world trace].
    split; [rewrite <- app_assoc; reflexivity |]. split; [reflexivity |].
    intros p Hp; congruence.
Qed.

(** X7: whenever [getOrCreateSessionPage] returns, what it returns is a
    page (never [null]) and that page is the session page held
    afterwards. *)
Theorem getOrCreateSessionPage_returns_session_page
    (initialUrl : option string) (m : t) (w : W) (p : option Page) :
  let r := run env (getOrCreateSessionPage newURL initialUrl) m w in
  result r = Ok p ->
  p <> None /\ sessionPage (state r) = p.
Proof.
  cbv zeta. rewrite run_getOrCreateSessionPage. cbv zeta.
  assert (Hfinish : forall c s w' pre page,
             sessionPage s = Some page ->
             result (after pre
                       (run env (bind (when c (navigateTo
                                   match initialUrl with
                                   | Some u => u
                                   | None => ""
                                   end))
                                   (fun _ => returnSessionPage)) s w')) = Ok p ->
             p <> None /\
             sessionPage (state (after pre
                       (run env (bind (when c (navigateTo
                                   match initialUrl with
                                   | Some u => u
                                   | None => ""
                                   end))
                                   (fun _ => returnSessionPage)) s w'))) = p).
  { intros c s w' pre page Hheld.
    rewrite (run_navigate_and_return _ _ _ _ page Hheld).
    destruct c; cbv zeta.
    - destruct (fst (env (Goto page _ settle30s) _)); cbn; intros H;
        [injection H as <- | discriminate].
      split; [discriminate | assumption].
    - cbn. intros H. injection H as <-. split; [discriminate | assumption]. }
  rewrite run_isSessionPageValid.
  destruct (sessionPage m) as [held |] eqn:Hheld; cbv zeta;
    [destruct (fst (env (EvaluateReadyState held) w)) |];
    cbn [result state world trace];
    repeat match goal with
           | |- context [result (run env findReusablePage ?s ?w')] =>
               destruct (result (run env findReusablePage s w')) as [[? |] | ?]
           | |- context [fst (env (CreatePage ?b) ?w')] =>
               destruct (fst (env (CreatePage b) w'))
           end;
    try discriminate;
    first [ apply (Hfinish _ _ _ _ held Hheld)
          | eapply Hfinish; reflexivity ].
Qed.

(** X8: the idempotence check looks at origin and path only.  With a live
    session page, a request whose URL parses to the same origin and the
    same path as the last navigated target - its query and fragment may
    differ - is not navigated to: the call only probes the page and
    changes nothing. *)
Theorem getOrCreateSessionPage_skips_same_origin_and_path
    (url last : string) (m : t) (w : W) (page : Page) (a b : URL) :
  sessionPage m = Some page ->
  fst (env (EvaluateReadyState page) w) = Ok tt ->
  lastNavigatedUrl m = Some last ->
  last <> "" ->
  newURL last = Some a ->
  newURL url = Some b ->
  origin a = origin b ->
  pathname a = pathname b ->
  let r := run env (getOrCreateSessionPage newURL (Some url)) m w in
  trace r = [EvaluateReadyState page] /\
  result r = Ok (Some page) /\
  state r = m.
Proof.
  intros Hheld Hprobe Hlast Hne Ha Hb Ho Hp. cbv zeta.
  rewrite run_getOrCreateSessionPage. cbv zeta.
  rewrite run_isSessionPageValid, Hheld. cbv zeta. rewrite Hprobe.
  cbn [result state world trace].
  assert (Hskip : truthy (Some url) &&
                  shouldNavigateToUrl newURL (lastNavigatedUrl m) url = false).
  { apply andb_false_iff. right.
    unfold shouldNavigateToUrl. rewrite Hlast.
    assert (Ht : truthy (Some last) = true)
      by (destruct last; [congruence | reflexivity]).
    rewrite Ht. cbn [negb].
    rewrite Ha, Hb, Ho, Hp, !String.eqb_refl. reflexivity. }
  rewrite Hskip.
  rewrite (run_navigate_and_return _ _ _ _ page Hheld).
  cbn. auto.
Qed.

(** X9: when the confirmation callback refuses and a session page is
    held, [requestNewTab] creates no page: it sends the held page to the
    normalized URL, with the 30 s timeout of [navigateTo], and returns
    that page; the recorded target is then the normalized URL. *)
Theorem requestNewTab_refused_reuses_session_page
    (url : string) (m : t) (w : W) (held : Page) :
  let confirm := OnNewTabRequest url in
  let goto := Goto held (normalizeUrl url) settle30s in
  onNewTabRequest m = true ->
  fst (env confirm w) = Ok false ->
  sessionPage m = Some held ->
  let r := run env (requestNewTab url) m w in
  trace r = [confirm; goto] /\
  sessionPage (state r) = Some held /\
  (forall p, result r = Ok p ->
     p = Some held /\
     lastNavigatedUrl (state r) = Some (normalizeUrl url)).
Proof.
  cbv zeta. intros Hcb Hconfirm Hheld.
  unfold requestNewTab. rewrite run_get_bind, Hcb, run_call_bind, Hconfirm.
  cbn [negb]. rewrite run_bind, run_navigateTo, Hheld. cbv zeta.
  destruct (fst (env (Goto held _ settle30s) _)); cbn.
  - rewrite Hheld. split; [reflexivity |]. split; [reflexivity |].
    intros p Hp. injection Hp as <-. split; reflexivity.
  - split; [reflexivity |]. split; [assumption |].
    intros p Hp. discriminate.
Qed.

(** X10: [requestNewTab] never closes a page, and when it throws - the
    callback, [createPage], [goto] or the fallback navigation failed - the
    fields are as they were before the call: in particular a page that
    was created and could not be navigated is neither tracked nor
    closed. *)
Theorem requestNewTab_failure_keeps_session (url : string) (m : t) (w : W) :
  let r := run env (requestNewTab url) m w in
  Forall (fun c => ~ closes c) (trace r) /\
  (forall e, result r = Throw e -> state r = m).
Proof.
  cbv zeta. unfold run, requestNewTab, navigateTo; cbn.
  destruct (onNewTabRequest m); cbn.
  - ask_env. destruct r as [[] | e]; cbn.
    + ask_env. destruct r as [page | e]; cbn.
      * ask_env. destruct r as [[] | e]; cbn;
          (split; [repeat constructor; auto |]); intros e' H;
          discriminate || reflexivity.
      * split; [repeat constructor; auto |]. reflexivity.
    + destruct (sessionPage m) as [held |]; cbn.
      * ask_env. destruct r as [[] | e]; cbn;
          (split; [repeat constructor; auto |]); intros e' H;
          discriminate || reflexivity.
      * split; [repeat constructor; auto |]. reflexivity.
    + split; [repeat constructor; auto |]. reflexivity.
  - ask_env. destruct r as [page | e]; cbn.
    + ask_env. destruct r as [[] | e]; cbn;
        (split; [repeat constructor; auto |]); intros e' H;
        discriminate || reflexivity.
    + split; [repeat constructor; auto |]. reflexivity.
Qed.

(** X11: [cleanup()] never throws and makes at most one call, [close] on
    the held session page; afterwards no session page is held, whether
    [close] returned or threw, and when a page was held the last
    navigated target is cleared with it. *)
Theorem cleanup_never_throws (m : t) (w : W) :
  let r := run env cleanup m w in
  result r = Ok tt /\
  sessionPage (state r) = None /\
  trace r = match sessionPage m with
            | Some page => [PageClose page]
            | None => []
            end /\
  (sessionPage m <> None -> lastNavigatedUrl (state r) = None).
Proof.
  cbv zeta. unfold run, cleanup; cbn.
  destruct (sessionPage m) as [page |] eqn:Hheld; cbn.
  - ask_env. destruct r as [[] | e]; cbn; repeat split; auto.
  - repeat split; auto. congruence.
Qed.

End TabSessionFurther.

(** The closed instances below run the scripted browser. *)

Lemma getOrCreateSessionPage_keeps_valid_page_witness :
  let r := run Mock.env
             (TabSessionManager.getOrCreateSessionPage UrlModel.URL_parse
                (Some "example.com"))
             holdingPage0 page0Open in
  TabSessionManager.sessionPage (state r) = Some (mkPage 0)
  /\ trace r = [EvaluateReadyState (mkPage 0);
                Goto (mkPage 0) "https://example.com" settle30s].
Proof.
  cbv zeta. split; [| reflexivity].
  apply (getOrCreateSessionPage_keeps_valid_page Mock.env UrlModel.URL_parse
           (Some "example.com") holdingPage0 page0Open (mkPage 0));
    reflexivity.
Defined.

(** The page of [firstCall] is gone and the user has tab 5 open: the next
    call adopts tab 5 and sends it to the URL, although that URL is the
    last navigated target. *)
Lemma getOrCreateSessionPage_adopts_active_page_witness :
  let r := run Mock.env
             (TabSessionManager.getOrCreateSessionPage UrlModel.URL_parse
                (Some "https://example.com"))
             (state firstCall) userOpenedTab in
  trace r = [EvaluateReadyState (mkPage 0); GetActivePage (mkBrowser 0);
             EvaluateReadyState (mkPage 5); PageUrl (mkPage 5);
             Goto (mkPage 5) "https://example.com" settle30s]
  /\ TabSessionManager.sessionPage (state r) = Some (mkPage 5).
Proof.
  cbv zeta.
  destruct (getOrCreateSessionPage_adopts_active_page Mock.env
              UrlModel.URL_parse (Some "https://example.com")
              (state firstCall) userOpenedTab (mkPage 5))
    as (Ht & Hs & _);
    try reflexivity.
  - discriminate.
  - eexists; reflexivity.
  - split; [exact Ht | exact Hs].
Defined.

Lemma getOrCreateSessionPage_returns_session_page_witness :
  Some (mkPage 0) <> None
  /\ TabSessionManager.sessionPage (state firstCall) = Some (mkPage 0).
Proof.
  exact (getOrCreateSessionPage_returns_session_page Mock.env
           UrlModel.URL_parse (Some "example.com") (freshManager false)
           Mock.empty (Some (mkPage 0)) eq_refl).
Defined.

(** Only the query differs from the last target: nothing is navigated. *)
Lemma getOrCreateSessionPage_skips_same_origin_and_path_witness :
  let r := run Mock.env
             (TabSessionManager.getOrCreateSessionPage UrlModel.URL_parse
                (Some "https://example.com/search?q=2"))
             searchedOnce page0Open in
  trace r = [EvaluateReadyState (mkPage 0)]
  /\ result r = Ok (Some (mkPage 0))
  /\ state r = searchedOnce.
Proof.
  apply (getOrCreateSessionPage_skips_same_origin_and_path Mock.env
           UrlModel.URL_parse "https://example.com/search?q=2"
           "https://example.com/search?q=1" searchedOnce page0Open (mkPage 0)
           (mkURL "https://example.com" "example.com" "/search")
           (mkURL "https://example.com" "example.com" "/search"));
    reflexivity || discriminate.
Defined.

Lemma requestNewTab_refused_reuses_session_page_witness :
  let r := run Mock.env (TabSessionManager.requestNewTab "example.com")
               confirmingHolder refusingWithPage0 in
  trace r = [OnNewTabRequest "example.com";
             Goto (mkPage 0) "https://example.com" settle30s]
  /\ TabSessionManager.sessionPage (state r) = Some (mkPage 0).
Proof.
  cbv zeta.
  destruct (requestNewTab_refused_reuses_session_page Mock.env "example.com"
              confirmingHolder refusingWithPage0 (mkPage 0)
              eq_refl eq_refl eq_refl) as (Ht & Hs & _).
  split; [exact Ht | exact Hs].
Defined.

(* ================================================================== *)
(** ** Further properties of the browser-acquisition manager *)

Section SmartBrowserFurther.

Import SmartBrowserManager.

Context {W : Type} (env : Environment W).

Lemma trace_isDebugPortActive (m : t) (w : W) :
  Forall acquires (trace (run env isDebugPortActive m w)) /\
  ~ In OnBrowserLaunch (trace (run env isDebugPortActive m w)) /\
  ~ In NewLocalBrowser (trace (run env isDebugPortActive m w)).
Proof.
  rewrite run_isDebugPortActive. cbv zeta.
  destruct (env _ w) as [[response | e] w1];
    [destruct (ok response);
     [destruct (env _ w1) as [[data | e] w2] |] |];
    cbn [trace]; (split; [repeat constructor |]);
    split; intros H; repeat destruct H as [H | H]; discriminate || exact H.
Qed.

Lemma trace_isBrowserAlive (b : Browser) (m : t) (w : W) :
  Forall acquires (trace (run env (isBrowserAlive b) m w)) /\
  ~ In OnBrowserLaunch (trace (run env (isBrowserAlive b) m w)) /\
  ~ In NewLocalBrowser (trace (run env (isBrowserAlive b) m w)).
Proof.
  rewrite run_isBrowserAlive. cbn [trace].
  destruct (fst (env (GetActivePage b) w)) as [[page |] | e];
    (split; [repeat constructor |]);
    split; intros H; repeat destruct H as [H | H]; discriminate || exact H.
Qed.

Lemma trace_attachExternal (m : t) (w : W) :
  Forall acquires (trace (run env attachExternal m w)) /\
  ~ In OnBrowserLaunch (trace (run env attachExternal m w)).
Proof.
  unfold run, attachExternal, connectToExisting; cbn.
  ask_env. destruct r as [b | e]; cbn.
  - ask_env. destruct r as [[] | e]; cbn; (split; [repeat constructor |]);
      intros H; repeat destruct H as [H | H]; discriminate || exact H.
  - split; [repeat constructor |].
    intros H; repeat destruct H as [H | H]; discriminate || exact H.
Qed.

(** A launch: if the notification is configured and throws, no browser
    object is constructed. *)
Lemma trace_launchNew (m : t) (w : W) :
  let r := run env launchNew m w in
  Forall acquires (trace r) /\
  (In OnBrowserLaunch (trace r) -> onBrowserLaunch m = true) /\
  (forall e, onBrowserLaunch m = true ->
             fst (env OnBrowserLaunch w) = Throw e ->
             result r = Throw e /\ trace r = [OnBrowserLaunch]).
Proof.
  cbv zeta. unfold run, launchNew, launchWithDebugPort; cbn.
  destruct (onBrowserLaunch m); cbn.
  - ask_env. destruct r as [[] | e]; cbn.
    + ask_env. destruct r as [b | e]; cbn.
      * ask_env. destruct r as [[] | e]; cbn;
          (split; [repeat constructor |]); (split; [reflexivity |]);
          intros e' _ H; discriminate.
      * split; [repeat constructor |]. split; [reflexivity |].
        intros e' _ H; discriminate.
    + split; [repeat constructor |]. split; [reflexivity |].
      intros e' _ H. injection H as <-. auto.
  - ask_env. destruct r as [b | e]; cbn.
    + ask_env. destruct r as [[] | e]; cbn;
        (split; [repeat constructor |]);
        (split; [intros H; repeat destruct H as [H | H];
                 discriminate || contradiction |]);
        intros e' H; discriminate.
    + split; [repeat constructor |].
      split; [intros H; repeat destruct H as [H | H];
              discriminate || contradiction |].
      intros e' H; discriminate.
Qed.

Lemma Forall_after {S A} (P : Call -> Prop) (pre : list Call) (r : Run W S A) :
  Forall P pre -> Forall P (trace r) -> Forall P (trace (after pre r)).
Proof. intros H1 H2. cbn. apply Forall_app. auto. Qed.

(** X12: [getOrCreateBrowser()] only probes, attaches and launches: it
    never closes a browser or a page, creates no page and navigates
    nowhere - also not when it replaces a handle it held. *)
Theorem getOrCreateBrowser_never_closes (m : t) (w : W) :
  let r := run env getOrCreateBrowser m w in
  Forall acquires (trace r) /\
  Forall (fun c => ~ closes c) (trace r).
Proof.
  cbv zeta.
  assert (H : Forall acquires (trace (run env getOrCreateBrowser m w))).
  { rewrite run_getOrCreateBrowser. cbv zeta.
    pose proof (proj1 (trace_isDebugPortActive m w)) as Hp.
    destruct (result (run env isDebugPortActive m w)) as [[] | e0];
      [| | exact Hp];
      (destruct (browser m) as [held |], (isConnectedToExternal m);
       try pose proof (proj1 (trace_isBrowserAlive held m
                        (world (run env isDebugPortActive m w)))) as Hl;
       try destruct (result (run env (isBrowserAlive held) m _)) as [[] | e];
       cbn [trace after];
       repeat (apply Forall_app; split);
       try assumption;
       first [ apply trace_attachExternal
             | apply (trace_launchNew _ _) ]). }
  split; [exact H |].
  eapply Forall_impl; [| exact H].
  intros c Hc Hclose. destruct c; contradiction.
Qed.

(** X13: whenever [getOrCreateBrowser()] returns, the manager holds the
    handle it returned, the result is marked as a new instance exactly
    when it is not tagged [reused], and the manager counts itself
    connected to an external browser exactly when the debug-port probe of
    that call answered true. *)
Theorem getOrCreateBrowser_holds_result
    (m : t) (w : W) (res : GetBrowserResult) :
  let r := run env getOrCreateBrowser m w in
  let port := run env isDebugPortActive m w in
  result r = Ok res ->
  browser (state r) = Some (result_browser res) /\
  result port = Ok (isConnectedToExternal (state r)) /\
  isNewInstance res = match mode res with reused => false | _ => true end.
Proof.
  cbv zeta. rewrite run_getOrCreateBrowser. cbv zeta.
  destruct (result (run env isDebugPortActive m w)) as [[] | e0];
    [| | intros Hres; discriminate];
    (destruct (browser m) as [held |] eqn:Hb,
              (isConnectedToExternal m) eqn:Hext;
     try destruct (result (run env (isBrowserAlive held) m _)) as [[] | e];
     cbn [after result state world trace]; intros Hres;
     try discriminate;
     try (injection Hres as <-; cbn; rewrite ?Hb, ?Hext; auto; fail);
     match type of Hres with
     | result (run env attachExternal ?m0 ?w0) = _ =>
         pose proof (run_attachExternal env m0 w0) as Hsub
     | result (run env launchNew ?m0 ?w0) = _ =>
         pose proof (run_launchNew env m0 w0) as Hsub
     end;
     cbv zeta in Hsub; rewrite Hres in Hsub;
     destruct Hsub as (Hmode & Hnew & Hstate & _);
     rewrite Hstate, Hmode, Hnew; cbn; auto).
Qed.

(** X14: when [getOrCreateBrowser()] throws, the handle that failed to
    attach or launch is not kept, and the fields are exactly as before the
    call - unless the call had reached the launch after a held handle of
    its own failed the liveness check: the port probe answered false, a
    handle that is not external was held, and the check on it answered
    false.  Then, and only then, that handle has been dropped. *)
Theorem getOrCreateBrowser_failure_state (m : t) (w : W) (e : Value) :
  let r := run env getOrCreateBrowser m w in
  let port := run env isDebugPortActive m w in
  let dropped :=
    exists held,
      browser m = Some held /\ isConnectedToExternal m = false /\
      result port = Ok false /\
      result (run env (isBrowserAlive held) m (world port)) = Ok false in
  result r = Throw e ->
  (dropped -> state r = set_browser None m) /\
  (~ dropped -> state r = m).
Proof.
  cbv zeta. rewrite run_getOrCreateBrowser. cbv zeta.
  destruct (result (run env isDebugPortActive m w)) as [[] | e0];
    [| | intros _; split;
         [intros (h & _ & _ & Hp' & _); discriminate | reflexivity]];
    (destruct (browser m) as [held |] eqn:Hb,
              (isConnectedToExternal m) eqn:Hext;
     try destruct (result (run env (isBrowserAlive held) m _))
       as [[] | e'] eqn:Hl;
     cbn [after result state world trace]; intros Hres;
     try discriminate;
     try match type of Hres with
         | result (run env attachExternal ?m0 ?w0) = _ =>
             pose proof (run_attachExternal env m0 w0) as Hsub;
             cbv zeta in Hsub; rewrite Hres in Hsub; rewrite Hsub
         | result (run env launchNew ?m0 ?w0) = _ =>
             pose proof (run_launchNew env m0 w0) as Hsub;
             cbv zeta in Hsub; rewrite Hres in Hsub; rewrite Hsub
         end;
     split;
     try (intros (h & Hb' & Hext' & Hp' & Hl');
          try discriminate;
          injection Hb' as <-; rewrite Hl in Hl'; discriminate);
     try reflexivity;
     intros Hnot; exfalso; apply Hnot; exists held; auto).
Qed.

(** X15: the launch notification is called only on the launch path: if
    [onBrowserLaunch] was called, it is configured, the port probe
    answered false, and a result, if any, is tagged [launched].  If the
    notification throws, no browser object is constructed and its error
    is what the launch throws. *)
Theorem onBrowserLaunch_only_before_launch (m : t) (w : W) :
  let r := run env getOrCreateBrowser m w in
  let port := run env isDebugPortActive m w in
  (In OnBrowserLaunch (trace r) ->
   onBrowserLaunch m = true /\
   result port = Ok false /\
   (forall res, result r = Ok res -> mode res = launched))
  /\
  (forall m0 w0 e,
     onBrowserLaunch m0 = true ->
     fst (env OnBrowserLaunch w0) = Throw e ->
     result (run env launchNew m0 w0) = Throw e /\
     ~ In NewLocalBrowser (trace (run env launchNew m0 w0))).
Proof.
  cbv zeta. split.
  - rewrite run_getOrCreateBrowser. cbv zeta.
    pose proof (proj1 (proj2 (trace_isDebugPortActive m w))) as Hp.
    destruct (result (run env isDebugPortActive m w)) as [[] | e0];
      [| | intros Hin; contradiction];
      (destruct (browser m) as [held |] eqn:Hb,
                (isConnectedToExternal m) eqn:Hext;
       try pose proof (proj1 (proj2 (trace_isBrowserAlive held m
                        (world (run env isDebugPortActive m w))))) as Hl;
       try destruct (result (run env (isBrowserAlive held) m _))
         as [[] | e'];
       cbn [after result state world trace]; intros Hin;
       repeat (apply in_app_or in Hin; destruct Hin as [Hin | Hin]);
       try contradiction;
       try (exfalso; revert Hin; apply trace_attachExternal);
       match type of Hin with
       | In _ (trace (run env launchNew ?m0 ?w0)) =>
           pose proof (run_launchNew env m0 w0) as Hsub;
           apply (proj1 (proj2 (trace_launchNew m0 w0))) in Hin
       end;
       (split; [exact Hin |]); (split; [reflexivity |]);
       intros res Hres; cbv zeta in Hsub; rewrite Hres in Hsub;
       apply Hsub).
  - intros m0 w0 e Hcb Hthrow.
    destruct (trace_launchNew m0 w0) as (_ & _ & H).
    destruct (H e Hcb Hthrow) as [Hres Htr].
    split; [exact Hres |]. rewrite Htr.
    intros [Hc | []]. discriminate.
Qed.

(** X16: after [disconnect()], which makes no call, [closeBrowser] makes
    no call either, forced or not: a disconnected browser is never closed
    by this manager. *)
Theorem disconnect_then_closeBrowser (force : bool) (m : t) (w : W) :
  let d := run env disconnect m w in
  let c := run env (closeBrowser force) (state d) (world d) in
  result d = Ok tt /\ trace d = [] /\
  browser (state d) = None /\ isConnectedToExternal (state d) = false /\
  result c = Ok tt /\ trace c = [] /\ state c = state d.
Proof. cbv zeta. repeat split; reflexivity. Qed.

(** X17: persistent mode keeps a launched browser across an unforced
    close: after [closeBrowser(false)] the handle is still held, and if
    the port probe then answers false and the browser passes the liveness
    check, [getOrCreateBrowser()] returns that same handle tagged
    [reused], launching nothing. *)
Theorem persistent_close_then_reuse (m : t) (w : W) (held : Browser) :
  persistentMode m = true ->
  browser m = Some held ->
  isConnectedToExternal m = false ->
  let c := run env (closeBrowser false) m w in
  let r := run env getOrCreateBrowser (state c) (world c) in
  let port := run env isDebugPortActive m w in
  result port = Ok false ->
  result (run env (isBrowserAlive held) m (world port)) = Ok true ->
  trace c = [] /\
  result r = Ok (mkResult held reused false) /\
  state r = m /\
  ~ In NewLocalBrowser (trace r).
Proof.
  intros Hp Hb Hext. cbv zeta.
  assert (Hc : run env (closeBrowser false) m w = mkRun (Ok tt) m w []).
  { unfold run, closeBrowser; cbn. rewrite Hb, Hext, Hp. reflexivity. }
  rewrite Hc. cbn [state world trace]. intros Hport Hlive.
  rewrite run_getOrCreateBrowser. cbv zeta.
  rewrite Hport, Hb, Hext, Hlive. cbn [result state trace].
  repeat split.
  intros Hin. apply in_app_or in Hin as [Hin | Hin].
  - revert Hin. apply trace_isDebugPortActive.
  - revert Hin. apply trace_isBrowserAlive.
Qed.

(** X18: a launch passes the debug-port flag first, with the same port
    number as the endpoint the manager probes, followed by the configured
    arguments in their order; the user-data directory passed is the one
    of the configuration, also when that is undefined and the launch
    options name one. *)
Theorem launchWithDebugPort_arguments (m : t) (w : W) (b : Browser)
    (o : LaunchOptions) :
  In (Launch b o) (trace (run env launchWithDebugPort m w)) ->
  let port := numberToString (debugPort m) in
  args o = Some (("--remote-debugging-port=" ++ port)
                   :: match args (launchOptions m) with
                      | Some a => a
                      | None => []
                      end) /\
  versionEndpoint m = "http://127.0.0.1:" ++ port ++ "/json/version" /\
  launch_userDataDir o = userDataDir m /\
  launch_others o = launch_others (launchOptions m).
Proof.
  unfold run, launchWithDebugPort; cbn.
  ask_env. destruct r as [b' | e]; cbn.
  - ask_env. destruct r as [[] | e]; cbn;
      intros [H | [H | []]]; try discriminate;
      injection H as <- <-; repeat split; reflexivity.
  - intros [H | []]; discriminate.
Qed.

End SmartBrowserFurther.

Lemma getOrCreateBrowser_holds_result_witness :
  SmartBrowserManager.browser (state firstAcquisition) = Some (mkBrowser 1)
  /\ SmartBrowserManager.isConnectedToExternal (state firstAcquisition) = true.
Proof.
  destruct (getOrCreateBrowser_holds_result Mock.env defaultManager externalUp
              (SmartBrowserManager.mkResult (mkBrowser 1)
                 SmartBrowserManager.attached true) eq_refl)
    as (Hb & _ & _).
  split; [exact Hb | reflexivity].
Defined.

(** The held browser has crashed and a new one cannot be launched: the
    call throws, and the dead handle is no longer held. *)
Lemma getOrCreateBrowser_failure_state_witness :
  result (run crashed SmartBrowserManager.getOrCreateBrowser
              persistentHolder Mock.empty)
  = Throw (mkError "Failed to launch the browser process!")
  /\ state (run crashed SmartBrowserManager.getOrCreateBrowser
                persistentHolder Mock.empty)
     = SmartBrowserManager.set_browser None persistentHolder.
Proof.
  split; [reflexivity |].
  apply (getOrCreateBrowser_failure_state crashed persistentHolder Mock.empty
           (mkError "Failed to launch the browser process!") eq_refl).
  exists (mkBrowser 3). repeat split; reflexivity.
Defined.

Lemma persistent_close_then_reuse_witness :
  let c := run Mock.env (SmartBrowserManager.closeBrowser false)
               persistentHolder Mock.empty in
  let r := run Mock.env SmartBrowserManager.getOrCreateBrowser
               (state c) (world c) in
  trace c = []
  /\ result r = Ok (SmartBrowserManager.mkResult (mkBrowser 3)
                      SmartBrowserManager.reused false)
  /\ state r = persistentHolder
  /\ ~ In NewLocalBrowser (trace r).
Proof.
  exact (persistent_close_then_reuse Mock.env persistentHolder Mock.empty
           (mkBrowser 3) eq_refl eq_refl eq_refl eq_refl eq_refl).
Defined.

Lemma launchWithDebugPort_arguments_witness :
  args (mkLaunch (Some ["--remote-debugging-port=9222"]) None [])
  = Some ["--remote-debugging-port=9222"]
  /\ SmartBrowserManager.versionEndpoint defaultManager
     = "http://127.0.0.1:9222/json/version".
Proof.
  destruct (launchWithDebugPort_arguments Mock.env defaultManager Mock.empty
              (mkBrowser 0)
              (mkLaunch (Some ["--remote-debugging-port=9222"]) None [])
              (or_intror (or_introl eq_refl)))
    as (Ha & Hv & _).
  split; [exact Ha | exact Hv].
Defined.

(** A notification that is configured is called once, before the browser
    object is constructed. *)
Example onBrowserLaunch_before_launch :
  trace (run Mock.env SmartBrowserManager.getOrCreateBrowser notifyingManager
             Mock.empty)
  = [Fetch "http://127.0.0.1:9222/json/version" 1000%Z;
     OnBrowserLaunch; NewLocalBrowser;
     Launch (mkBrowser 0)
            (mkLaunch (Some ["--remote-debugging-port=9222"]) None [])].
Proof. reflexivity. Qed.

(* ================================================================== *)
(** ** Reasoning about runs over any interface *)

Section FreeRuns.

Import Free.

Context {I : Interface} {W : Type} (env : Environment I W).

Lemma free_exec_pbind {A B} (p : Prog I A) (f : A -> Prog I B) (w : W) :
  exec env (pbind p f) w =
  let '(a, w1, t1) := exec env p w in
  let '(b, w2, t2) := exec env (f a) w1 in
  (b, w2, (t1 ++ t2)%list).
Proof.
  revert w; induction p as [a | c k IH]; intros w; simpl.
  - destruct (exec env (f a) w) as [[b w2] t2]; reflexivity.
  - destruct (env c w) as [r w1].
    rewrite IH.
    destruct (exec env (k r) w1) as [[a w2] t1].
    destruct (exec env (f a) w2) as [[b w3] t2]; reflexivity.
Qed.

Lemma free_run_bind {S A B} (m : M I S A) (f : A -> M I S B) (s : S) (w : W) :
  run env (bind m f) s w =
  let r1 := run env m s w in
  match result r1 with
  | Ok a =>
      let r2 := run env (f a) (state r1) (world r1) in
      mkRun (result r2) (state r2) (world r2) (trace r1 ++ trace r2)%list
  | Throw e => mkRun (Throw e) (state r1) (world r1) (trace r1)
  end.
Proof.
  unfold run, bind. rewrite free_exec_pbind.
  destruct (exec env (m s) w) as [[[r s1] w1] t1]; simpl.
  destruct r as [a | e]; simpl.
  - destruct (exec env (f a s1) w1) as [[[r2 s2] w2] t2]; reflexivity.
  - rewrite app_nil_r; reflexivity.
Qed.

Lemma free_run_call {S} (c : call_of I) (s : S) (w : W) :
  run env (call c) s w = mkRun (fst (env c w)) s (snd (env c w)) [c].
Proof.
  unfold run, call; cbn. destruct (env c w) as [r w1]; reflexivity.
Qed.

Lemma free_run_call_bind {S A} (c : call_of I) (f : resp_of I c -> M I S A)
    (s : S) (w : W) :
  run env (bind (call c) f) s w =
  match fst (env c w) with
  | Ok a =>
      let r2 := run env (f a) s (snd (env c w)) in
      mkRun (result r2) (state r2) (world r2) (c :: trace r2)
  | Throw e => mkRun (Throw e) s (snd (env c w)) [c]
  end.
Proof.
  rewrite free_run_bind, free_run_call. cbv zeta. cbn [result state world trace].
  destruct (fst (env c w)); reflexivity.
Qed.

Lemma free_run_get_bind {S A} (f : S -> M I S A) (s : S) (w : W) :
  run env (bind get f) s w = run env (f s) s w.
Proof. reflexivity. Qed.

Lemma free_run_modify_bind {S A} (g : S -> S) (f : unit -> M I S A)
    (s : S) (w : W) :
  run env (bind (modify g) f) s w = run env (f tt) (g s) w.
Proof. reflexivity. Qed.

Lemma free_run_ret {S A} (a : A) (s : S) (w : W) :
  run env (ret a) s w = mkRun (Ok a) s w [].
Proof. reflexivity. Qed.

Lemma free_run_tryCatch {S A} (m : M I S A) (h : Value -> M I S A)
    (s : S) (w : W) :
  run env (tryCatch m h) s w =
  let r1 := run env m s w in
  match result r1 with
  | Ok a => r1
  | Throw e =>
      let r2 := run env (h e) (state r1) (world r1) in
      mkRun (result r2) (state r2) (world r2) (trace r1 ++ trace r2)%list
  end.
Proof.
  unfold run, tryCatch. rewrite free_exec_pbind.
  destruct (exec env (m s) w) as [[[r s1] w1] t1]; simpl.
  destruct r as [a | e]; simpl.
  - rewrite app_nil_r; reflexivity.
  - destruct (exec env (h e s1) w1) as [[[r2 s2] w2] t2]; reflexivity.
Qed.

(** One more promise in front of [Promise.all]: its calls come first,
    those of the others follow whatever its outcome. *)
Lemma free_run_promiseAll_cons {S A} (m : M I S A) (rest : list (M I S A))
    (s : S) (w : W) :
  run env (promiseAll (m :: rest)) s w =
  let r1 := run env m s w in
  let r2 := run env (promiseAll rest) (state r1) (world r1) in
  mkRun (match result r1, result r2 with
         | Ok a, Ok l => Ok (a :: l)
         | Throw e, _ => Throw e
         | Ok _, Throw e => Throw e
         end)
        (state r2) (world r2) (trace r1 ++ trace r2)%list.
Proof.
  unfold run. cbn [promiseAll]. rewrite free_exec_pbind.
  destruct (exec env (m s) w) as [[[r s1] w1] t1].
  cbn [fst snd result state world trace].
  rewrite free_exec_pbind.
  destruct (exec env (promiseAll rest s1) w1) as [[[r2 s2] w2] t2].
  cbn. rewrite app_nil_r. destruct r; reflexivity.
Qed.

End FreeRuns.

(* ================================================================== *)
(** ** The chat store *)

Section ChatStore.

Import Free ChatManager.

Lemma withoutScreenshots_idem (msg : ConversationWithSoM) :
  withoutScreenshots (withoutScreenshots msg) = withoutScreenshots msg.
Proof.
  unfold withoutScreenshots.
  induction msg as [| [k v] msg IH]; cbn [filter fst]; [reflexivity |].
  destruct (negb _) eqn:Hk; cbn [filter fst]; [rewrite Hk, IH |]; auto.
Qed.

(** X19: dropping the screenshots of a message removes exactly the
    properties [screenshotBase64] and [screenshotBase64WithElementMarker]:
    reading either gives [undefined] afterwards, every other property
    reads as before, and doing it twice is the same as doing it once. *)
Theorem withoutScreenshots_removes_only_screenshots
    (msg : ConversationWithSoM) (key : string) :
  property (withoutScreenshots msg) key
  = (if isScreenshotField key then None else property msg key)
  /\ withoutScreenshots (withoutScreenshots msg) = withoutScreenshots msg.
Proof.
  split.
  - unfold property, withoutScreenshots, isScreenshotField.
    induction msg as [| [k v] msg IH]; cbn [filter find fst].
    + destruct (_ || _); reflexivity.
    + destruct (String.eqb_spec k key) as [-> | Hne].
      * destruct (String.eqb key "screenshotBase64" ||
                  String.eqb key "screenshotBase64WithElementMarker") eqn:Hs;
          cbn [negb].
        -- exact IH.
        -- cbn [find fst]. rewrite String.eqb_refl. reflexivity.
      * destruct (negb _); [cbn [find fst] |]; try exact IH.
        destruct (String.eqb_spec k key); [contradiction | exact IH].
  - apply withoutScreenshots_idem.
Qed.

Context {W : Type} (env : Environment Idb W).

Lemma run_write (key : string) (value : Messages) (w : W) :
  @run Idb W unit unit env (idb (IdbSet key value)) tt w =
  @mkRun Idb W unit unit (fst (env (IdbSet key value) w)) tt
         (snd (env (IdbSet key value) w)) [IdbSet key value].
Proof. apply (free_run_call env (IdbSet key value)). Qed.

Lemma run_del (key : string) (w : W) :
  @run Idb W unit unit env (idb (IdbDel key)) tt w =
  @mkRun Idb W unit unit (fst (env (IdbDel key) w)) tt
         (snd (env (IdbDel key) w)) [IdbDel key].
Proof. apply (free_run_call env (IdbDel key)). Qed.

Lemma run_all_writes (es : list (string * Messages)) (w : W) :
  let r := run env
             (promiseAll
                (map (fun kv : string * Messages =>
                        (idb (IdbSet (fst kv) (map withoutScreenshots (snd kv)))
                         : Method unit)) es)) tt w in
  trace r = map writeBack es /\
  world r = fold_left (fun w' kv => snd (env (writeBack kv) w')) es w /\
  ((forall kv w', fst (env (writeBack kv) w') = Ok tt) ->
   exists l, result r = Ok l).
Proof.
  cbv zeta. revert w. induction es as [| kv es IH]; intros w.
  - repeat split. intros _. eexists; reflexivity.
  - cbn [map fold_left].
    rewrite (@free_run_promiseAll_cons Idb W env unit unit). cbv zeta.
    rewrite run_write.
    cbn [result state world trace app].
    change (IdbSet (fst kv) (map withoutScreenshots (snd kv)))
      with (writeBack kv).
    destruct (IH (snd (env (writeBack kv) w))) as (Ht & Hw & Hr).
    split; [rewrite Ht; reflexivity |].
    split; [exact Hw |].
    intros Hok. destruct (Hr Hok) as [l Hl]. rewrite Hl, Hok.
    eexists; reflexivity.
Qed.

Lemma run_all_dels (es : list (string * Messages)) (w : W) :
  let r := run env
             (promiseAll
                (map (fun kv : string * Messages =>
                        (idb (IdbDel (fst kv)) : Method unit)) es)) tt w in
  trace r = map (fun kv => IdbDel (fst kv)) es /\
  world r = fold_left (fun w' kv => snd (env (IdbDel (fst kv)) w')) es w /\
  ((forall k w', fst (env (IdbDel k) w') = Ok tt) ->
   exists l, result r = Ok l).
Proof.
  cbv zeta. revert w. induction es as [| kv es IH]; intros w.
  - repeat split. intros _. eexists; reflexivity.
  - cbn [map fold_left].
    rewrite (@free_run_promiseAll_cons Idb W env unit unit). cbv zeta.
    rewrite run_del.
    cbn [result state world trace app].
    destruct (IH (snd (env (IdbDel (fst kv)) w))) as (Ht & Hw & Hr).
    split; [rewrite Ht; reflexivity |].
    split; [exact Hw |].
    intros Hok. destruct (Hr Hok) as [l Hl]. rewrite Hl, Hok.
    eexists; reflexivity.
Qed.

(** X20: [clearAllScreenshots()] reads the entries once and then writes
    every session back under its own key with the screenshots dropped from
    each message, one write per entry in the order of the entries,
    whether or not an earlier write fails; it deletes nothing.  When the
    entries cannot be read it writes nothing and passes the error on. *)
Theorem clearAllScreenshots_writes_every_session (w : W) :
  let r := run env clearAllScreenshots tt w in
  match fst (env IdbEntries w) with
  | Ok es => trace r = IdbEntries :: map writeBack es
  | Throw e => trace r = [IdbEntries] /\ result r = Throw e
  end.
Proof.
  cbv zeta. unfold clearAllScreenshots.
  rewrite (free_run_call_bind env IdbEntries
             (fun entriesList =>
                (bind (promiseAll
                         (map (fun kv : string * Messages =>
                                 (idb (IdbSet (fst kv)
                                         (map withoutScreenshots (snd kv)))
                                  : Method unit))
                              (entriesList : list (string * Messages))))
                      (fun _ => ret tt)))).
  destruct (fst (env IdbEntries w)) as [es | e]; [| split; reflexivity].
  cbv zeta. cbn [trace]. rewrite free_run_bind. cbv zeta.
  destruct (run_all_writes es (snd (env IdbEntries w))) as (Ht & _ & _).
  destruct (result _); cbn [trace]; rewrite ?free_run_ret; cbn [trace];
    rewrite ?app_nil_r, Ht; reflexivity.
Qed.

End ChatStore.

Section ChatOnStore.

Import Free ChatManager KeyVal.
Local Open Scope list_scope.

Lemma put_at (k : string) (v v0 : Messages) (l1 l2 : Store) :
  ~ In k (map fst l1) ->
  put k v (l1 ++ (k, v0) :: l2) = l1 ++ (k, v) :: l2.
Proof.
  induction l1 as [| [k1 v1] l1 IH]; intros Hnot; cbn.
  - rewrite String.eqb_refl. reflexivity.
  - destruct (String.eqb_spec k1 k) as [-> | Hne].
    + exfalso. apply Hnot. now left.
    + rewrite IH; [reflexivity |]. intros Hin. apply Hnot. now right.
Qed.

Lemma fold_writes (w1 w2 : Store) :
  NoDup (map fst (w1 ++ w2)) ->
  fold_left (fun w' kv => snd (KeyVal.env (writeBack kv) w')) w2
            (map stripped w1 ++ w2)
  = map stripped (w1 ++ w2).
Proof.
  revert w1. induction w2 as [| [k v] w2 IH]; intros w1 Hnd.
  - cbn. rewrite !app_nil_r. reflexivity.
  - cbn [fold_left]. cbn [KeyVal.env writeBack snd fst].
    rewrite put_at.
    + change (map stripped w1 ++ (k, map withoutScreenshots v) :: w2)
        with (map stripped w1 ++ [stripped (k, v)] ++ w2).
      rewrite app_assoc, <- map_last.
      replace (w1 ++ (k, v) :: w2) with ((w1 ++ [(k, v)]) ++ w2)
        by (rewrite <- app_assoc; reflexivity).
      apply IH. rewrite <- app_assoc. exact Hnd.
    + rewrite map_map. cbn [stripped fst].
      rewrite map_app in Hnd. apply NoDup_remove_2 in Hnd.
      intros Hin. apply Hnd. apply in_or_app. now left.
Qed.

Lemma lookup_stripped (k : string) (w : Store) :
  lookup k (map stripped w) = option_map (map withoutScreenshots) (lookup k w).
Proof.
  unfold lookup. induction w as [| [k1 v1] w IH]; cbn; [reflexivity |].
  destruct (String.eqb k1 k); [reflexivity | exact IH].
Qed.

Lemma stripped_idempotent (w : Store) :
  map stripped (map stripped w) = map stripped w.
Proof.
  rewrite map_map. apply map_ext. intros [k v]. unfold stripped; cbn.
  f_equal. rewrite map_map. apply map_ext. intros msg.
  apply (withoutScreenshots_idem msg).
Qed.

(** X21: on a store whose keys are distinct, [clearAllScreenshots()]
    succeeds and leaves the same sessions in the same order, each holding
    its messages without their screenshots: reading a session afterwards
    gives its former messages with the two screenshot properties dropped
    and every other property as before.  Running it once more changes
    nothing. *)
Theorem clearAllScreenshots_on_store (w : Store) :
  NoDup (map fst w) ->
  let r := run KeyVal.env clearAllScreenshots tt w in
  result r = Ok tt /\
  world r = map stripped w /\
  (forall k, lookup k (world r)
             = option_map (map withoutScreenshots) (lookup k w)) /\
  world (run KeyVal.env clearAllScreenshots tt (world r)) = world r.
Proof.
  intros Hnd.
  assert (Hrun : forall w0, NoDup (map fst w0) ->
            result (run KeyVal.env clearAllScreenshots tt w0) = Ok tt /\
            world (run KeyVal.env clearAllScreenshots tt w0) = map stripped w0).
  { intros w0 Hnd0. unfold clearAllScreenshots.
    rewrite (free_run_call_bind KeyVal.env IdbEntries
               (fun entriesList =>
                  (bind (promiseAll
                           (map (fun kv : string * Messages =>
                                   (idb (IdbSet (fst kv)
                                           (map withoutScreenshots (snd kv)))
                                    : Method unit))
                                (entriesList : list (string * Messages))))
                        (fun _ => ret tt)))).
    cbn [KeyVal.env fst snd]. cbv zeta. cbn [result world].
    rewrite free_run_bind. cbv zeta.
    destruct (run_all_writes KeyVal.env w0 w0) as (_ & Hw & Hr).
    destruct Hr as [l Hl]; [reflexivity |].
    rewrite Hl, free_run_ret. cbn [result world].
    split; [reflexivity |].
    rewrite Hw. apply (fold_writes [] w0). exact Hnd0. }
  cbv zeta. destruct (Hrun w Hnd) as [Hres Hw].
  split; [exact Hres |]. split; [exact Hw |]. split.
  - intros k. rewrite Hw. apply lookup_stripped.
  - rewrite Hw.
    assert (Hnd' : NoDup (map fst (map stripped w))).
    { rewrite map_map. exact Hnd. }
    rewrite (proj2 (Hrun _ Hnd')). apply stripped_idempotent.
Qed.

Lemma fold_dels (es w : Store) :
  fold_left (fun w' kv => snd (KeyVal.env (IdbDel (fst kv)) w')) es w
  = filter (fun x => negb (existsb (fun kv => String.eqb (fst kv) (fst x)) es)) w.
Proof.
  revert w. induction es as [| [k v] es IH]; intros w.
  - cbn. induction w as [| x w IHw]; cbn; [| rewrite <- IHw]; reflexivity.
  - cbn [fold_left KeyVal.env snd fst]. rewrite IH. unfold remove.
    induction w as [| [k1 v1] w IHw]; cbn; [reflexivity |].
    rewrite (String.eqb_sym k k1).
    destruct (String.eqb k1 k); cbn.
    + exact IHw.
    + destruct (existsb _ es); cbn; [| rewrite IHw]; auto.
Qed.

(** X22: [clearAllChats()] reads the entries once and issues one delete
    per entry; on a store it succeeds and leaves no session behind, so
    that [getSessionMessages] answers [undefined] for every session
    id. *)
Theorem clearAllChats_on_store (w : Store) (sessionId : string) :
  let r := run KeyVal.env clearAllChats tt w in
  result r = Ok tt /\
  trace r = IdbEntries :: map (fun kv => IdbDel (fst kv)) w /\
  world r = [] /\
  result (run KeyVal.env (getSessionMessages sessionId) tt (world r)) = Ok None.
Proof.
  cbv zeta.
  assert (H : result (run KeyVal.env clearAllChats tt w) = Ok tt /\
              trace (run KeyVal.env clearAllChats tt w)
              = IdbEntries :: map (fun kv => IdbDel (fst kv)) w /\
              world (run KeyVal.env clearAllChats tt w) = []).
  { unfold clearAllChats.
    rewrite (free_run_call_bind KeyVal.env IdbEntries
               (fun keys =>
                  (bind (promiseAll
                           (map (fun kv : string * Messages =>
                                   (idb (IdbDel (fst kv)) : Method unit))
                                (keys : list (string * Messages))))
                        (fun _ => ret tt)))).
    cbn [KeyVal.env fst snd]. cbv zeta. cbn [result world trace].
    rewrite free_run_bind. cbv zeta.
    destruct (run_all_dels KeyVal.env w w) as (Ht & Hw & Hr).
    destruct Hr as [l Hl]; [reflexivity |].
    rewrite Hl, free_run_ret. cbn [result world trace].
    rewrite app_nil_r, Ht, Hw, fold_dels.
    repeat split.
    assert (Hall : forall l0 : Store, incl l0 w ->
              filter (fun x => negb (existsb
                        (fun kv => String.eqb (fst kv) (fst x)) w)) l0 = []).
    { induction l0 as [| x l0 IHl]; intros Hincl; cbn; [reflexivity |].
      assert (Hx : existsb (fun kv => String.eqb (fst kv) (fst x)) w = true).
      { apply existsb_exists. exists x. split.
        - apply Hincl. now left.
        - apply String.eqb_refl. }
      rewrite Hx. cbn. apply IHl. intros y Hy. apply Hincl. now right. }
    apply Hall. apply incl_refl. }
  destruct H as (Hr & Ht & Hw).
  rewrite Hw. repeat split; assumption || reflexivity.
Qed.

Lemma lookup_put (k k' : string) (v : Messages) (w : Store) :
  lookup k' (put k v w) = if String.eqb k k' then Some v else lookup k' w.
Proof.
  unfold lookup. induction w as [| [k1 v1] w IH]; cbn.
  - destruct (String.eqb k k'); reflexivity.
  - destruct (String.eqb_spec k1 k) as [-> | Hne]; cbn.
    + destruct (String.eqb k k'); reflexivity.
    + destruct (String.eqb_spec k1 k') as [-> | Hne'].
      * destruct (String.eqb_spec k k'); [congruence | reflexivity].
      * exact IH.
Qed.

Lemma lookup_remove (k k' : string) (w : Store) :
  lookup k' (remove k w) = if String.eqb k k' then None else lookup k' w.
Proof.
  unfold lookup, remove. induction w as [| [k1 v1] w IH]; cbn.
  - destruct (String.eqb k k'); reflexivity.
  - destruct (String.eqb_spec k1 k) as [-> | Hne]; cbn.
    + rewrite IH. destruct (String.eqb k k'); reflexivity.
    + destruct (String.eqb_spec k1 k') as [-> | Hne'].
      * destruct (String.eqb_spec k k'); [congruence | reflexivity].
      * exact IH.
Qed.

(** X23: on a store, what [createSessionMessages] or
    [updateSessionMessages] writes for a session is what
    [getSessionMessages] reads back for it, a later write replacing an
    earlier one; after [deleteSessionMessages] the session reads as
    [undefined]; and none of the three touches any other session. *)
Theorem session_messages_round_trip
    (sessionId other : string) (first second : Messages) (w : Store) :
  other <> sessionId ->
  let read k w' := result (run KeyVal.env (getSessionMessages k) tt w') in
  let created := run KeyVal.env (createSessionMessages sessionId first) tt w in
  let updated := run KeyVal.env (updateSessionMessages sessionId second) tt
                     (world created) in
  let deleted := run KeyVal.env (deleteSessionMessages sessionId) tt
                     (world updated) in
  (result created = Ok first /\ read sessionId (world created) = Ok (Some first))
  /\ (result updated = Ok second /\
      read sessionId (world updated) = Ok (Some second))
  /\ (result deleted = Ok true /\ read sessionId (world deleted) = Ok None)
  /\ read other (world created) = read other w
  /\ read other (world updated) = read other w
  /\ read other (world deleted) = read other w.
Proof.
  intros Hne. cbv zeta.
  unfold run, createSessionMessages, updateSessionMessages,
    deleteSessionMessages, getSessionMessages; cbn -[lookup put remove].
  rewrite !lookup_remove, !lookup_put, String.eqb_refl.
  destruct (String.eqb_spec sessionId other) as [Heq | _]; [congruence |].
  repeat split; reflexivity.
Qed.

End ChatOnStore.

Lemma clearAllScreenshots_on_store_witness :
  let r := Free.run KeyVal.env ChatManager.clearAllScreenshots tt twoSessions in
  Free.result r = Ok tt
  /\ Free.world r
     = [("s1", [[("from", JString "gpt"); ("value", JString "click")];
                [("from", JString "human")]]);
        ("s2", [[("from", JString "gpt"); ("value", JString "click")]])].
Proof.
  cbv zeta.
  assert (Hnd : NoDup (map fst twoSessions)).
  { repeat constructor; cbn; intuition discriminate. }
  destruct (clearAllScreenshots_on_store twoSessions Hnd) as (Hr & Hw & _).
  split; [exact Hr | exact Hw].
Defined.

Lemma session_messages_round_trip_witness :
  Free.result
    (Free.run KeyVal.env (ChatManager.getSessionMessages "s3") tt
       (Free.world
          (Free.run KeyVal.env (ChatManager.createSessionMessages "s3" [shot])
             tt twoSessions)))
  = Ok (Some [shot]).
Proof.
  assert (Hne : "s1" <> "s3") by discriminate.
  exact (proj2 (proj1 (session_messages_round_trip "s3" "s1" [shot] []
                         twoSessions Hne))).
Defined.

(* ================================================================== *)
(** ** The hybrid operator *)

(** Case analysis on everything a run of the hybrid operator branches
    on: the action name, the fields, the operators' answers. *)
Ltac hybrid_cases :=
  repeat first
    [ progress cbn in *
    | match goal with
      | |- context [String.eqb ?a ?b] =>
          let E := fresh "Eaction" in destruct (String.eqb a b) eqn:E
      | |- context [HybridOperator.browserSessionActive ?h] =>
          is_var h;
          let E := fresh "Eactive" in
          destruct (HybridOperator.browserSessionActive h) eqn:E
      | |- context [HybridOperator.browserOperator ?h] =>
          is_var h;
          let E := fresh "Eop" in
          destruct (HybridOperator.browserOperator h) eqn:E
      | |- context [ ?env ?c ?w ] =>
          match type of (env c w) with
          | (Result _ * _)%type =>
              let r := fresh "r" in
              let w' := fresh "w" in
              let E := fresh "E" in
              destruct (env c w) as [[r | r] w'] eqn:E
          end
      | |- context [if ?b then _ else _] => is_var b; destruct b
      | |- context [negb ?b] => is_var b; destruct b
      end ].

Section Hybrid.

Import Free HybridOperator.

Context {W : Type} (env : Environment Operators W).

(** X24: an active browser session always has a browser operator: if
    that holds before [execute], [screenshot] or [cleanup], it holds
    after, whatever the action and whatever the operators answer; it
    holds for a new hybrid operator. *)
Theorem session_has_operator_invariant
    (params : ExecuteParams) (h : t) (w : W) :
  sessionHasOperator h ->
  sessionHasOperator (state (run env (execute params) h w)) /\
  sessionHasOperator (state (run env screenshot h w)) /\
  sessionHasOperator (state (run env cleanup h w)) /\
  sessionHasOperator new.
Proof.
  unfold sessionHasOperator. intros Hinv.
  unfold run, execute, handleOpenBrowser, handleCloseBrowser, route,
    ensureBrowserOperator, screenshot, cleanup, activeBrowser, op.
  repeat split; hybrid_cases; intros; try discriminate; try congruence;
    auto.
Qed.

Lemma handledByHybrid_false (name : string) :
  handledByHybrid name = false ->
  String.eqb name "open_browser" = false /\
  String.eqb name "close_browser" = false /\
  String.eqb name "navigate" = false /\
  String.eqb name "navigate_back" = false.
Proof.
  unfold handledByHybrid. cbn [existsb]. rewrite !orb_false_iff. tauto.
Qed.

(** X25: [close_browser] makes no call to any operator: it returns status
    RUNNING, ends the browser session and keeps the browser operator for
    a later session. *)
Theorem close_browser_keeps_operator (params : ExecuteParams) (h : t) (w : W) :
  action_type (parsedPrediction params) = "close_browser" ->
  let r := run env (execute params) h w in
  result r = Ok (StatusOnly RUNNING) /\
  trace r = [] /\
  browserSessionActive (state r) = false /\
  browserOperator (state r) = browserOperator h.
Proof.
  intros Ha. cbv zeta. unfold run, execute, handleCloseBrowser.
  rewrite Ha. cbn. auto.
Qed.

(** X26: [open_browser] never throws.  It answers status ERROR exactly
    when no browser operator could be obtained; then the session flag is
    as before and no action was sent to a browser.  Otherwise it answers
    RUNNING with the session active and an operator held - also when the
    navigation to the given URL failed. *)
Theorem open_browser_outcome (params : ExecuteParams) (h : t) (w : W) :
  action_type (parsedPrediction params) = "open_browser" ->
  let r := run env (execute params) h w in
  (result r = Ok (StatusOnly ERROR) /\
   browserOperator (state r) = None /\
   browserSessionActive (state r) = browserSessionActive h /\
   (forall b p, ~ In (BrowserExecute b p) (trace r)))
  \/
  (result r = Ok (StatusOnly RUNNING) /\
   browserSessionActive (state r) = true /\
   browserOperator (state r) <> None).
Proof.
  intros Ha. cbv zeta.
  unfold run, execute, handleOpenBrowser, ensureBrowserOperator, op.
  rewrite Ha. cbn.
  destruct (browserOperator h) as [b |] eqn:Eop; cbn.
  - right.
    destruct (String.eqb _ ""); cbn.
    + rewrite Eop. repeat split; discriminate.
    + destruct (env (BrowserExecute b _) w) as [[out | e] w1]; cbn;
        rewrite Eop; repeat split; discriminate.
  - destruct (env HasBrowser w) as [[[] | e] w1]; cbn.
    + destruct (env (GetBrowserOperator _ _ _ _ _ _) w1) as [[b | e] w2]; cbn.
      * right. destruct (String.eqb _ ""); cbn.
        -- repeat split; discriminate.
        -- destruct (env (BrowserExecute b _) w2) as [[out | e] w3]; cbn;
             repeat split; discriminate.
      * left. rewrite Eop. repeat split; auto.
        intros b p [H | [H | []]]; discriminate.
    + left. rewrite Eop. repeat split; auto.
      intros b p [H | []]; discriminate.
    + left. rewrite Eop. repeat split; auto.
      intros b p [H | []]; discriminate.
Qed.

(** X27: for an action that [execute] does not handle itself, when no
    browser session is active or the action is not browser-compatible,
    exactly one call is made, to the computer operator with the same
    parameters, and its outcome is the outcome of [execute]; only the
    remembered screen parameters change. *)
Theorem execute_routes_to_computer (params : ExecuteParams) (h : t) (w : W) :
  let name := action_type (parsedPrediction params) in
  handledByHybrid name = false ->
  activeBrowser h = None \/
  existsb (String.eqb name) BROWSER_COMPATIBLE_ACTIONS = false ->
  let r := run env (execute params) h w in
  trace r = [ComputerExecute params] /\
  result r = fst (env (ComputerExecute params) w) /\
  state r = remembering params h.
Proof.
  cbv zeta. intros Hh Hroute.
  destruct (handledByHybrid_false _ Hh) as (H1 & H2 & H3 & H4).
  unfold run, execute, route, op. rewrite H1, H2, H3, H4.
  cbn [orb].
  assert (Hactive : activeBrowser (remembering params h) = activeBrowser h)
    by reflexivity.
  cbn -[existsb BROWSER_COMPATIBLE_ACTIONS activeBrowser].
  unfold remembering in Hactive. rewrite Hactive.
  destruct Hroute as [Hnone | Hcompat].
  - rewrite Hnone. cbn -[existsb BROWSER_COMPATIBLE_ACTIONS].
    destruct (env (ComputerExecute params) w) as [r w1]; cbn. auto.
  - destruct (activeBrowser h) as [b |];
      [rewrite Hcompat |]; cbn -[existsb BROWSER_COMPATIBLE_ACTIONS];
      destruct (env (ComputerExecute params) w) as [r w1]; cbn; auto.
Qed.

(** X28: with an active browser session, a browser-compatible action is
    sent to the browser operator.  For [navigate] and [navigate_back] the
    browser's outcome is final: a failure is thrown and the computer
    operator is not called.  For the other compatible actions a failure
    of the browser is absorbed and the same parameters are sent to the
    computer operator, whose outcome is returned. *)
Theorem execute_browser_fallback
    (params : ExecuteParams) (h : t) (w : W) (b : BrowserOperator) :
  let name := action_type (parsedPrediction params) in
  let viaBrowser := BrowserExecute b params in
  let viaComputer := ComputerExecute params in
  browserSessionActive h = true ->
  browserOperator h = Some b ->
  existsb (String.eqb name) BROWSER_COMPATIBLE_ACTIONS = true ->
  let r := run env (execute params) h w in
  if String.eqb name "navigate" || String.eqb name "navigate_back"
  then trace r = [viaBrowser] /\ result r = fst (env viaBrowser w)
  else
    match fst (env viaBrowser w) with
    | Ok out => trace r = [viaBrowser] /\ result r = Ok out
    | Throw _ =>
        trace r = [viaBrowser; viaComputer] /\
        result r = fst (env viaComputer (snd (env viaBrowser w)))
    end.
Proof.
  cbv zeta. intros Hactive Hop Hcompat.
  assert (H1 : String.eqb (action_type (parsedPrediction params))
                          "open_browser" = false).
  { destruct (String.eqb_spec (action_type (parsedPrediction params))
                "open_browser") as [Heq |]; [| reflexivity].
    rewrite Heq in Hcompat. discriminate. }
  assert (H2 : String.eqb (action_type (parsedPrediction params))
                          "close_browser" = false).
  { destruct (String.eqb_spec (action_type (parsedPrediction params))
                "close_browser") as [Heq |]; [| reflexivity].
    rewrite Heq in Hcompat. discriminate. }
  unfold run, execute, route, op, activeBrowser. rewrite H1, H2.
  destruct (String.eqb _ "navigate" || String.eqb _ "navigate_back").
  - cbn. rewrite Hactive, Hop. cbn.
    destruct (env (BrowserExecute b params) w) as [r w1]; cbn. auto.
  - cbn -[existsb BROWSER_COMPATIBLE_ACTIONS].
    rewrite Hactive, Hop, Hcompat. cbn.
    destruct (env (BrowserExecute b params) w) as [[out | e] w1]; cbn; auto.
    destruct (env (ComputerExecute params) w1) as [r w2]; cbn. auto.
Qed.

(** X29: a [navigate] or [navigate_back] with a non-empty [content] that
    arrives while no session is active, the browser operator being held
    already, sends two actions to the browser: first the navigation that
    opening the session performs, to [content] and with the screen size
    of this very call, then the action itself - whether or not the first
    one failed.  The session is active afterwards. *)
Theorem navigate_opens_session_and_navigates_twice
    (params : ExecuteParams) (h : t) (w : W) (b : BrowserOperator) :
  let name := action_type (parsedPrediction params) in
  let url := inputOr (action_inputs (parsedPrediction params)) "content" in
  let opening := BrowserExecute b (openingNavigation url params) in
  let own := BrowserExecute b params in
  name = "navigate" \/ name = "navigate_back" ->
  url <> "" ->
  browserSessionActive h = false ->
  browserOperator h = Some b ->
  let r := run env (execute params) h w in
  trace r = [opening; own] /\
  result r = fst (env own (snd (env opening w))) /\
  browserSessionActive (state r) = true.
Proof.
  cbv zeta. intros Hname Hurl Hactive Hop.
  assert (Hne : String.eqb
                  (inputOr (action_inputs (parsedPrediction params)) "content")
                  "" = false).
  { destruct (String.eqb_spec
                (inputOr (action_inputs (parsedPrediction params)) "content")
                ""); [contradiction | reflexivity]. }
  assert (Hin : forall x, inputOr (Some [("url", x)]) "url" = x)
    by reflexivity.
  unfold run, execute, handleOpenBrowser, ensureBrowserOperator, op,
    activeBrowser, openingNavigation.
  rewrite Hin.
  destruct Hname as [Hname | Hname]; rewrite Hname; cbn -[inputOr];
    rewrite Hactive; cbn -[inputOr]; rewrite Hop; cbn -[inputOr];
    rewrite Hne; cbn -[inputOr];
    unfold navigateParams; cbn -[inputOr];
    destruct (env (BrowserExecute b _) w) as [[out | e] w1]; cbn -[inputOr];
    rewrite ?Hop; cbn -[inputOr];
    destruct (env (BrowserExecute b params) w1) as [r w2]; cbn; auto.
Qed.

(** X30: [cleanup()] of the hybrid operator never throws and makes at
    most one call, [cleanup] on the held browser operator; afterwards no
    browser operator is held and no session is active, whether that call
    returned or threw. *)
Theorem hybrid_cleanup_never_throws (h : t) (w : W) :
  let r := run env cleanup h w in
  result r = Ok tt /\
  trace r = match browserOperator h with
            | Some b => [BrowserCleanup b]
            | None => []
            end /\
  browserOperator (state r) = None /\
  browserSessionActive (state r) = false.
Proof.
  cbv zeta. unfold run, cleanup, op; cbn.
  destruct (browserOperator h) as [b |]; cbn; [| auto].
  destruct (env (BrowserCleanup b) w) as [[[] | e] w1]; cbn; auto.
Qed.

End Hybrid.

Lemma session_has_operator_invariant_witness :
  sessionHasOperator
    (Free.state (Free.run desk (HybridOperator.execute goToExample)
                   HybridOperator.new withBrowser))
  /\ sessionHasOperator HybridOperator.new.
Proof.
  assert (H0 : sessionHasOperator HybridOperator.new)
    by (intros H; discriminate).
  destruct (session_has_operator_invariant desk goToExample
              HybridOperator.new withBrowser H0) as (H1 & _ & _ & H4).
  split; [exact H1 | exact H4].
Defined.

Lemma close_browser_keeps_operator_witness :
  let r := Free.run desk
             (HybridOperator.execute (action "close_browser" None))
             browsing withBrowser in
  Free.result r = Ok (HybridOperator.StatusOnly HybridOperator.RUNNING)
  /\ Free.trace r = []
  /\ HybridOperator.browserSessionActive (Free.state r) = false
  /\ HybridOperator.browserOperator (Free.state r)
     = Some (HybridOperator.mkOperator 0).
Proof.
  exact (close_browser_keeps_operator desk (action "close_browser" None)
           browsing withBrowser eq_refl).
Defined.

(** No browser installed: [open_browser] answers ERROR. *)
Lemma open_browser_outcome_witness :
  Free.result
    (Free.run desk
       (HybridOperator.execute
          (action "open_browser" (Some [("url", "https://example.com")])))
       HybridOperator.new withoutBrowser)
  = Ok (HybridOperator.StatusOnly HybridOperator.ERROR).
Proof.
  destruct (open_browser_outcome desk
              (action "open_browser" (Some [("url", "https://example.com")]))
              HybridOperator.new withoutBrowser eq_refl)
    as [(H & _) | (H & _)]; [exact H | discriminate H].
Defined.

Lemma execute_routes_to_computer_witness :
  let r := Free.run desk (HybridOperator.execute (action "hotkey" None))
             HybridOperator.new withBrowser in
  Free.trace r = [HybridOperator.ComputerExecute (action "hotkey" None)]
  /\ Free.result r = Ok (HybridOperator.OperatorOutput 0)
  /\ Free.state r = remembering (action "hotkey" None) HybridOperator.new.
Proof.
  exact (execute_routes_to_computer desk (action "hotkey" None)
           HybridOperator.new withBrowser eq_refl (or_introl eq_refl)).
Defined.

(** The browser fails on a click: the computer operator takes over. *)
Lemma execute_browser_fallback_witness :
  let r := Free.run desk (HybridOperator.execute (action "click" None))
             browsing brokenBrowser in
  Free.trace r
  = [HybridOperator.BrowserExecute (HybridOperator.mkOperator 0)
       (action "click" None);
     HybridOperator.ComputerExecute (action "click" None)]
  /\ Free.result r = Ok (HybridOperator.OperatorOutput 0).
Proof.
  exact (execute_browser_fallback desk (action "click" None) browsing
           brokenBrowser (HybridOperator.mkOperator 0)
           eq_refl eq_refl eq_refl).
Defined.

Lemma navigate_opens_session_and_navigates_twice_witness :
  let r := Free.run desk (HybridOperator.execute goToExample)
             sessionClosed withBrowser in
  Free.trace r
  = [HybridOperator.BrowserExecute (HybridOperator.mkOperator 0)
       (openingNavigation "https://example.com" goToExample);
     HybridOperator.BrowserExecute (HybridOperator.mkOperator 0) goToExample]
  /\ Free.result r = Ok (HybridOperator.OperatorOutput 1)
  /\ HybridOperator.browserSessionActive (Free.state r) = true.
Proof.
  apply (navigate_opens_session_and_navigates_twice desk goToExample
           sessionClosed withBrowser (HybridOperator.mkOperator 0)).
  - left; reflexivity.
  - discriminate.
  - reflexivity.
  - reflexivity.
Defined.

(** The same on first use, from a new hybrid operator: the operator is
    obtained with the strategy [always_reuse], then the two actions go
    out. *)
Example navigate_on_first_use :
  Free.trace (Free.run desk (HybridOperator.execute goToExample)
                HybridOperator.new withBrowser)
  = [HybridOperator.HasBrowser;
     HybridOperator.GetBrowserOperator false false false false
       HybridOperator.GOOGLE TabSessionManager.always_reuse;
     HybridOperator.BrowserExecute (HybridOperator.mkOperator 0)
       (openingNavigation "https://example.com" goToExample);
     HybridOperator.BrowserExecute (HybridOperator.mkOperator 0) goToExample].
Proof. reflexivity. Qed.
